(** * Weighted MinHash (datasketch/weighted_minhash.py)

    A shallow embedding of [WeightedMinHash] and
    [WeightedMinHashGenerator], the properties of the specification
    checked against it, and further properties of the code (X1 to
    X21).

    - numpy arrays and scipy matrices are objects in a store ([heap]);
      a Python variable holding one is a location, so that aliasing
      between the caller's objects and the callee's is visible;
    - float32 and float64 values are IEEE 754 binary floating-point
      numbers ([spec_float], round to nearest even), with the precision
      of the dtype;
    - exceptions are results ([Raise]); a computation is a function from
      the store to a result and the store it leaves behind;
    - [np.log] and [np.random.RandomState] belong to numpy: they are the
      fields of two interfaces, [Libm] and [RandomStateModel]. *)

From Stdlib Require Import ZArith QArith Bool Lia Sorted SpecFloat.
From stdpp Require Import base option list gmap.

Local Open Scope Z_scope.

(** ** IEEE 754 binary floating point *)

Module Float.

(** The format of a dtype: precision (bits of mantissa, implicit one
    included) and exponent of the infinities. *)
Record format := { prec : Z; emax : Z }.

Definition binary32 : format := {| prec := 24; emax := 128 |}.
Definition binary64 : format := {| prec := 53; emax := 1024 |}.

Definition nan : spec_float := S754_nan.
Definition zero : spec_float := S754_zero false.
Definition inf : spec_float := S754_infinity false.

Definition add (f : format) := SFadd (prec f) (emax f).
Definition sub (f : format) := SFsub (prec f) (emax f).
Definition mul (f : format) := SFmul (prec f) (emax f).
Definition div (f : format) := SFdiv (prec f) (emax f).

(** A Python [int] as a float of the format. *)
Definition of_Z (f : format) (z : Z) : spec_float :=
  binary_normalize (prec f) (emax f) z 0 false.

Definition is_nan (x : spec_float) : bool :=
  match x with S754_nan => true | _ => false end.

(** [x == 0]: true of both zeros, false of NaN. *)
Definition is_zero (x : spec_float) : bool := SFeqb x zero.

(** [x < y], false as soon as one side is NaN. *)
Definition ltb (x y : spec_float) : bool := SFltb x y.

(** [0 < x]. *)
Definition is_pos (x : spec_float) : bool := SFltb zero x.

(** [np.floor]: infinities, zeros and NaN are returned unchanged. *)
Definition floor (f : format) (x : spec_float) : spec_float :=
  match x with
  | S754_finite s m e =>
      if 0 <=? e then x
      else
        let q := Z.shiftr (Zpos m) (- e) in
        let exact := Z.shiftl q (- e) =? Zpos m in
        if s then
          binary_normalize (prec f) (emax f)
            (- (if exact then q else q + 1)) 0 true
        else binary_normalize (prec f) (emax f) q 0 false
  | _ => x
  end.

(** [astype]: a value of another format rounded into format [f]. *)
Definition cast (f : format) (x : spec_float) : spec_float :=
  match x with
  | S754_finite s m e => binary_round (prec f) (emax f) s m e
  | _ => x
  end.

(** The integer part of a finite float, rounded toward zero. *)
Definition trunc (x : spec_float) : option Z :=
  match x with
  | S754_zero _ => Some 0
  | S754_finite s m e =>
      let a := if 0 <=? e then Z.shiftl (Zpos m) e
               else Z.shiftr (Zpos m) (- e) in
      Some (if s then - a else a)
  | _ => None
  end.

End Float.

Abbreviation f32 := spec_float.
Abbreviation f64 := spec_float.

Definition add32 := Float.add Float.binary32.
Definition sub32 := Float.sub Float.binary32.
Definition mul32 := Float.mul Float.binary32.
Definition div32 := Float.div Float.binary32.
Definition floor32 := Float.floor Float.binary32.
Definition one32 : f32 := Float.of_Z Float.binary32 1.

(** ** Exceptions and results *)

(** The exceptions the two classes, numpy and scipy raise on the paths
    modelled here, one constructor per class and message. *)
Inductive exn :=
  | ValueError_seeds          (* jaccard: different seeds *)
  | ValueError_lengths        (* jaccard: different numbers of hash values *)
  | ZeroDivisionError         (* float division by zero *)
  | TypeError_not_iterable    (* minhash: Input vector must be an iterable *)
  | ValueError_dimension      (* Input dimension mismatch *)
  | ValueError_all_zeros      (* minhash: Input is all zeros *)
  | ValueError_all_nan        (* np.nanargmin: All-NaN slice encountered *)
  | ValueError_nan_to_int     (* int(nan) *)
  | OverflowError_to_int      (* int(inf), or a Python int beyond int64 *)
  | TypeError_not_matrix      (* minhash_many: not a sparse or numpy matrix *)
  | ValueError_ndim           (* minhash_many: Input must have two dimensions *)
  | ValueError_empty_argmin   (* np.argmin of an empty sequence *)
  | ValueError_seed_range     (* RandomState: Seed must be between 0 and 2**32 - 1 *)
  | ValueError_negative_dimensions (* numpy: negative dimensions are not allowed *)
  | IndexError                (* index out of bounds *)
  | ValueError_concatenate    (* np.vstack: need at least one array to concatenate *)
  | OutsideModel.             (* an object this embedding does not describe *)

Inductive result (A : Type) :=
  | Ok (a : A)
  | Raise (e : exn).
Arguments Ok {A} a.
Arguments Raise {A} e.

(** Exceptions alone, for the code that touches no object. *)
Definition rbind {A B} (r : result A) (k : A -> result B) : result B :=
  match r with Ok a => k a | Raise e => Raise e end.

Fixpoint rmap {A B} (f : A -> result B) (l : list A) : result (list B) :=
  match l with
  | [] => Ok []
  | x :: l' =>
      rbind (f x) (fun y => rbind (rmap f l') (fun ys => Ok (y :: ys)))
  end.

(** ** numpy's external kernels *)

(** [np.log] at the two precisions. *)
Class Libm := {
  log32 : f32 -> f32;
  log64 : f64 -> f64;
}.

(** What every implementation of the logarithm guarantees: NaN and
    negative arguments give NaN. *)
Class LibmLaws `{Libm} := {
  log32_nan : log32 Float.nan = Float.nan;
  log32_neg : forall x, Float.ltb x Float.zero = true -> log32 x = Float.nan;
}.

(** [np.random.RandomState]: the internal state of the generator, the
    state a seed in range initialises, and one draw of each of the two
    distributions the code uses (as binary64 values). *)
Class RandomStateModel := {
  rng_state : Type;
  rng_seed : Z -> rng_state;
  rng_gamma : rng_state -> f64 * rng_state;    (* gamma(2, 1) *)
  rng_uniform : rng_state -> f64 * rng_state;  (* uniform(0, 1) *)
}.

(** ** The store *)

Definition loc := positive.

Inductive dtype := Float32 | Float64.

(** A scipy CSR matrix: the three arrays and the shape. Entries may be
    stored with value zero (explicit zeros). *)
Record csr_matrix := {
  shape0 : nat;
  shape1 : nat;
  indptr : list nat;
  indices : list nat;
  data : list f32;
}.

(** The objects of the store. The arguments of [minhash] are 1-D float
    arrays; the dense arguments of [minhash_many] are 2-D arrays, taken
    with dtype float32 (scipy converts the others), the sparse ones
    are CSR matrices with float32 data. *)
Inductive pyobj `{RandomStateModel} :=
  | Ndarray1 (dt : dtype) (xs : list spec_float)  (* 1-D float array *)
  | Ndarray2 (ncols : nat) (rows : list (list f32))
      (* 2-D float32 array of shape (length rows, ncols) *)
  | IntArray2 (rows : list (list Z))              (* 2-D int64 array *)
  | CsrMatrix (X : csr_matrix)
  | RandomState (s : rng_state).

Abbreviation heap := (gmap loc pyobj).

(** ** Computations over the store *)

Section Monad.
Context `{RandomStateModel}.

Definition M (A : Type) : Type := heap -> result A * heap.

Definition ret {A} (a : A) : M A := fun h => (Ok a, h).
Definition raise {A} (e : exn) : M A := fun h => (Raise e, h).
Definition bind {A B} (m : M A) (k : A -> M B) : M B :=
  fun h => match m h with
           | (Ok a, h') => k a h'
           | (Raise e, h') => (Raise e, h')
           end.
Definition lift {A} (r : result A) : M A := fun h => (r, h).

(** A new object, at a location no object of the store has. *)
Definition alloc (o : pyobj) : M loc :=
  fun h => let l := fresh (dom h) in (Ok l, <[l := o]> h).

(** In-place update of the object at [l]. *)
Definition store (l : loc) (o : pyobj) : M unit :=
  fun h => (Ok tt, <[l := o]> h).

Definition load (l : loc) : M pyobj :=
  fun h => match h !! l with
           | Some o => (Ok o, h)
           | None => (Raise OutsideModel, h)
           end.
End Monad.

Notation "'let*' x ':=' m 'in' k" := (bind m (fun x => k))
  (at level 10, x pattern, m at level 100, k at level 200,
   format "'[v' 'let*'  x  ':='  m  'in' '/' k ']'").

(** ** class WeightedMinHash *)

Module WeightedMinHash.

(** [hashvalues] refers to a numpy array of shape (n, 2): the object
    is shared with whoever passed it to the constructor. *)
Record t := { seed : Z; hashvalues : loc }.

Section Methods.
Context `{RandomStateModel}.

Definition load_hashvalues (self : t) : M (list (list Z)) :=
  let* o := load (hashvalues self) in
  match o with
  | IntArray2 rows => ret rows
  | _ => raise OutsideModel
  end.

(** [np.array_equal] on two rows. *)
Definition array_equal (this that : list Z) : bool :=
  bool_decide (this = that).

(** The loop of [jaccard] over [zip(self.hashvalues, other.hashvalues)]. *)
Fixpoint intersection (a b : list (list Z)) : nat :=
  match a, b with
  | this :: a', that :: b' =>
      ((if array_equal this that then 1 else 0) + intersection a' b')%nat
  | _, _ => 0%nat
  end.

Definition __len__ (self : t) : M nat :=
  let* rows := load_hashvalues self in ret (length rows).

(** [float(intersection) / float(len(self))]: the quotient is kept
    exact; Python rounds it to the nearest binary64. *)
Definition jaccard (self other : t) : M Q :=
  if negb (seed other =? seed self) then raise ValueError_seeds
  else
    let* n := __len__ self in
    let* n' := __len__ other in
    if negb (n =? n')%nat then raise ValueError_lengths
    else
      let* a := load_hashvalues self in
      let* b := load_hashvalues other in
      match n with
      | O => raise ZeroDivisionError
      | S _ => ret (Z.of_nat (intersection a b) # Pos.of_nat n)
      end.

(** [copy.copy] of a numpy array is a new array with the same
    elements. *)
Definition digest (self : t) : M loc :=
  let* rows := load_hashvalues self in
  alloc (IntArray2 rows).

Definition copy (self : t) : M t :=
  let* d := digest self in
  ret {| seed := seed self; hashvalues := d |}.

(** [__eq__] between two objects of the class. *)
Definition __eq__ (self other : t) : M bool :=
  if negb (seed self =? seed other) then ret false
  else
    let* a := load_hashvalues self in
    let* b := load_hashvalues other in
    ret (bool_decide (a = b)).
End Methods.

End WeightedMinHash.

(** ** numpy kernels defined by their code *)

Section Kernels.

(** The scan of [np.argmin]: [best] is the index of the current
    minimum [bestv]; a NaN, once met, stays the minimum. *)
Fixpoint argmin_loop (best : nat) (bestv : f32) (i : nat) (l : list f32)
  : nat :=
  match l with
  | [] => best
  | x :: l' =>
      if Float.is_nan bestv then best
      else if negb (SFleb bestv x) then argmin_loop i x (S i) l'
      else argmin_loop best bestv (S i) l'
  end.

Definition np_argmin (l : list f32) : result nat :=
  match l with
  | [] => Raise ValueError_empty_argmin
  | x :: l' => Ok (argmin_loop 0 x 1 l')
  end.

(** [np.nanargmin]: NaN is replaced by +inf before [np.argmin]; a
    slice of NaN only is an error. *)
Definition np_nanargmin (l : list f32) : result nat :=
  match l with
  | [] => Raise ValueError_empty_argmin
  | _ =>
      if forallb Float.is_nan l then Raise ValueError_all_nan
      else np_argmin
             (map (fun x => if Float.is_nan x then Float.inf else x) l)
  end.

(** Python's [int(x)] of a float32 scalar. *)
Definition py_int (x : f32) : result Z :=
  match x with
  | S754_nan => Raise ValueError_nan_to_int
  | S754_infinity _ => Raise OverflowError_to_int
  | _ => match Float.trunc x with
         | Some z => Ok z
         | None => Raise OutsideModel
         end
  end.

Definition int64_min : Z := - 2 ^ 63.
Definition int64_max : Z := 2 ^ 63 - 1.

(** A Python int assigned to an element of an int64 array. *)
Definition to_int64 (z : Z) : result Z :=
  if (int64_min <=? z) && (z <=? int64_max) then Ok z
  else Raise OverflowError_to_int.

(** A float32 array assigned to a slice of an int64 array: the C
    conversion. Out of range, infinite and NaN values have no defined
    result in C; they are given the value x86-64 produces. *)
Definition cast_int64 (x : f32) : Z :=
  match Float.trunc x with
  | Some z => if (int64_min <=? z) && (z <=? int64_max) then z
              else int64_min
  | None => int64_min
  end.

Definition zip_with3 {A B C D} (f : A -> B -> C -> D)
    (a : list A) (b : list B) (c : list C) : list D :=
  zip_with (fun x yz => f x (fst yz) (snd yz)) a (zip b c).

End Kernels.

(** ** scipy.sparse kernels defined by their code *)

Section Sparse.

(** Python's [l[b:e]] for natural [b] and [e]. *)
Definition slice {A} (l : list A) (b e : nat) : list A :=
  take (e - b)%nat (drop b l).

(** The stored entries of each row: [l[ptr[i]:ptr[i+1]]]. *)
Definition segments {A} (ptr : list nat) (l : list A) : list (list A) :=
  zip_with (slice l) ptr (tail ptr).

(** The stored entries [(column, value)] that a dense row gives: the
    elements different from zero, in column order. *)
Definition row_entries (r : list f32) : list (nat * f32) :=
  List.filter (fun p => negb (Float.is_zero (snd p))) (imap pair r).

Fixpoint indptr_from (start : nat) (rows : list (list (nat * f32)))
  : list nat :=
  match rows with
  | [] => []
  | r :: rows' =>
      let e := (start + length r)%nat in e :: indptr_from e rows'
  end.

(** [csr_matrix(X)] of a dense float32 array. *)
Definition csr_of_dense (ncols : nat) (rows : list (list f32))
  : csr_matrix :=
  let es := map row_entries rows in
  {| shape0 := length rows; shape1 := ncols;
     indptr := 0%nat :: indptr_from 0 es;
     indices := concat (map (map fst) es);
     data := concat (map (map snd) es) |}.

Fixpoint insert_entry (p : nat * f32) (l : list (nat * f32))
  : list (nat * f32) :=
  match l with
  | [] => [p]
  | q :: l' =>
      if (fst q <? fst p)%nat then q :: insert_entry p l' else p :: l
  end.

(** [X.sort_indices()]: the entries of each row in increasing column
    order (entries of one column keep their order here; scipy does
    not promise it). *)
Definition sort_indices (X : csr_matrix) : csr_matrix :=
  let es := map (foldr insert_entry [])
              (segments (indptr X) (zip (indices X) (data X))) in
  {| shape0 := shape0 X; shape1 := shape1 X; indptr := indptr X;
     indices := concat (map (map fst) es);
     data := concat (map (map snd) es) |}.

(** [X.nnz]: the number of stored entries, explicit zeros included. *)
Definition nnz (X : csr_matrix) : nat := default 0%nat (last (indptr X)).

(** The row index of every stored entry ([tocoo]). *)
Definition expandptr (ptr : list nat) : list nat :=
  concat (imap (fun i be => replicate (snd be - fst be)%nat i)
            (zip ptr (tail ptr))).

(** [X.nonzero()]: the coordinates of the stored entries whose value
    is different from zero. *)
Definition nonzero (X : csr_matrix) : list (nat * nat) :=
  map fst
    (List.filter (fun p => negb (Float.is_zero (snd p)))
       (zip (zip (expandptr (indptr X)) (indices X)) (data X))).

(** [X[r, c]]: the sum of the entries stored in row [r] for column
    [c]. *)
Definition sample_value (X : csr_matrix) (r c : nat) : f32 :=
  let b := nth r (indptr X) 0%nat in
  let e := nth (S r) (indptr X) 0%nat in
  foldl add32 Float.zero
    (map snd (List.filter (fun p => (fst p =? c)%nat)
                (slice (zip (indices X) (data X)) b e))).

(** What [check_format] and the index bounds ask of a CSR matrix. *)
Definition wf_csr (X : csr_matrix) : Prop :=
  length (indptr X) = S (shape0 X) /\
  head (indptr X) = Some 0%nat /\
  (forall i a b, indptr X !! i = Some a -> indptr X !! S i = Some b ->
                 (a <= b)%nat) /\
  nnz X = length (indices X) /\
  length (data X) = length (indices X) /\
  Forall (fun c => (c < shape1 X)%nat) (indices X).

End Sparse.

(** ** class WeightedMinHashGenerator *)

(** What [minhash] accepts as [v]: a Python sequence of floats, a
    reference to an object of the store, or a number (which is not
    iterable). *)
Inductive pyarg :=
  | PySeq (xs : list f64)
  | PyRef (l : loc)
  | PyScalar (x : f64).

Module WeightedMinHashGenerator.

(** The three matrices are lists of [sample_size] rows of [dim]
    float32 values; nothing writes to them after [__init__]. *)
Record t := {
  dim : Z;
  sample_size : Z;
  seed : Z;
  rs : list (list f32);
  ln_cs : list (list f32);
  betas : list (list f32);
}.

Section Methods.
Context `{RandomStateModel} `{Libm}.

(** *** __init__ *)

(** [np.random.RandomState(seed=seed)] for an integer seed. *)
Definition new_RandomState (seed : Z) : M loc :=
  if (0 <=? seed) && (seed <=? 2 ^ 32 - 1)
  then alloc (RandomState (rng_seed seed))
  else raise ValueError_seed_range.

Fixpoint draw_row (draw : rng_state -> f64 * rng_state) (n : nat)
    (s : rng_state) : list f64 * rng_state :=
  match n with
  | O => ([], s)
  | S n' =>
      let '(x, s1) := draw s in
      let '(xs, s2) := draw_row draw n' s1 in
      (x :: xs, s2)
  end.

Fixpoint draw_rows (draw : rng_state -> f64 * rng_state)
    (nrows ncols : nat) (s : rng_state)
  : list (list f64) * rng_state :=
  match nrows with
  | O => ([], s)
  | S n' =>
      let '(r, s1) := draw_row draw ncols s in
      let '(m, s2) := draw_rows draw n' ncols s1 in
      (r :: m, s2)
  end.

(** [generator.gamma(2, 1, size)] and [generator.uniform(0, 1, size)]
    with [size = (nrows, ncols)]: the array is filled in row-major
    order, one draw per element, and the state of the generator
    object advances. *)
Definition sample (draw : rng_state -> f64 * rng_state)
    (generator : loc) (nrows ncols : Z) : M (list (list f64)) :=
  if (nrows <? 0) || (ncols <? 0)
  then raise ValueError_negative_dimensions
  else
    let* o := load generator in
    match o with
    | RandomState s =>
        let '(m, s') :=
          draw_rows draw (Z.to_nat nrows) (Z.to_nat ncols) s in
        let* _ := store generator (RandomState s') in
        ret m
    | _ => raise OutsideModel
    end.

Definition astype32 (m : list (list f64)) : list (list f32) :=
  map (map (Float.cast Float.binary32)) m.

Definition __init__ (dim sample_size seed : Z) : M t :=
  let* generator := new_RandomState seed in
  let* g1 := sample rng_gamma generator sample_size dim in
  let* g2 := sample rng_gamma generator sample_size dim in
  let* u := sample rng_uniform generator sample_size dim in
  ret {| dim := dim; sample_size := sample_size; seed := seed;
         rs := astype32 g1;
         ln_cs := astype32 (map (map log64) g2);
         betas := astype32 u |}.

(** *** minhash *)

(** One iteration of the loop over the samples, up to the pair
    [(k, int(t[k]))]. *)
Definition t_single (vlog rs_i betas_i : list f32) : list f32 :=
  zip_with3 (fun x r b => floor32 (add32 (div32 x r) b))
    vlog rs_i betas_i.

Definition ln_a_single (t rs_i betas_i ln_cs_i : list f32) : list f32 :=
  let ln_y := zip_with3 (fun t b r => mul32 (sub32 t b) r)
                t betas_i rs_i in
  zip_with3 (fun c y r => sub32 (sub32 c y) r) ln_cs_i ln_y rs_i.

Definition sample_single (vlog rs_i betas_i ln_cs_i : list f32)
  : result (list Z) :=
  let t := t_single vlog rs_i betas_i in
  let ln_a := ln_a_single t rs_i betas_i ln_cs_i in
  rbind (np_nanargmin ln_a) (fun k =>
  rbind (py_int (nth k t Float.nan)) (fun tk =>
  rbind (to_int64 tk) (fun tk64 =>
  Ok [Z.of_nat k; tk64]))).

Definition row (m : list (list f32)) (i : nat) : result (list f32) :=
  match m !! i with Some r => Ok r | None => Raise IndexError end.

(** [hashvalues[i][0], hashvalues[i][1] = k, int(t[k])]: the right-hand
    side is evaluated first. (When the second assignment overflows,
    the first has been made; the array is then out of reach.) *)
Definition store_row (hv : loc) (i : nat) (kt : list Z) : M unit :=
  let* o := load hv in
  match o with
  | IntArray2 rows => store hv (IntArray2 (<[i := kt]> rows))
  | _ => raise OutsideModel
  end.

(** [for i in range(self.sample_size)], from [i] on, [n] iterations
    left. *)
Fixpoint minhash_loop (self : t) (hv : loc) (vlog : list f32)
    (i n : nat) : M unit :=
  match n with
  | O => ret tt
  | S n' =>
      let* kt := lift (
        rbind (row (rs self) i) (fun rs_i =>
        rbind (row (betas self) i) (fun betas_i =>
        rbind (row (ln_cs self) i) (fun ln_cs_i =>
        sample_single vlog rs_i betas_i ln_cs_i)))) in
      let* _ := store_row hv i kt in
      minhash_loop self hv vlog (S i) n'
  end.

(** [np.zeros((n, 2), dtype=int)], an int64 array. *)
Definition np_zeros2 (n : Z) : M loc :=
  if n <? 0 then raise ValueError_negative_dimensions
  else alloc (IntArray2 (replicate (Z.to_nat n) [0; 0])).

(** The body of [minhash] from line 129 on: [v] now refers to a
    float32 array. *)
Definition minhash_float32 (self : t) (v : loc) : M WeightedMinHash.t :=
  let* hashvalues := np_zeros2 (sample_size self) in
  let* o := load v in
  match o with
  | Ndarray1 Float32 xs =>
      if forallb Float.is_zero xs then raise ValueError_all_zeros
      else
        let xs' := map (fun x => if Float.is_zero x then Float.nan
                                 else x) xs in
        (* v[vzeros] = np.nan *)
        let* _ := store v (Ndarray1 Float32 xs') in
        let vlog := map log32 xs' in
        let* _ := minhash_loop self hashvalues vlog 0
                    (Z.to_nat (sample_size self)) in
        ret {| WeightedMinHash.seed := seed self;
               WeightedMinHash.hashvalues := hashvalues |}
  | _ => raise OutsideModel
  end.

Definition minhash (self : t) (v : pyarg) : M WeightedMinHash.t :=
  match v with
  | PyScalar _ => raise TypeError_not_iterable
  | PySeq xs =>
      if negb (Z.of_nat (length xs) =? dim self)
      then raise ValueError_dimension
      else
        (* v = np.array(v, dtype=np.float32) *)
        let* v' := alloc (Ndarray1 Float32
                            (map (Float.cast Float.binary32) xs)) in
        minhash_float32 self v'
  | PyRef l =>
      let* o := load l in
      match o with
      | Ndarray1 dt xs =>
          if negb (Z.of_nat (length xs) =? dim self)
          then raise ValueError_dimension
          else
            match dt with
            | Float32 => minhash_float32 self l
            | Float64 =>
                (* v = v.astype(np.float32) *)
                let* v' := alloc (Ndarray1 Float32
                             (map (Float.cast Float.binary32) xs)) in
                minhash_float32 self v'
            end
      | _ => raise OutsideModel
      end
  end.
(** *** minhash_many *)

(** [m[:, cidx]]: the columns [cidx] of every row of [m]. *)
Definition gather (m : list (list f32)) (cidx : list nat)
  : result (list (list f32)) :=
  rmap (fun r =>
          rmap (fun c => match r !! c with
                         | Some x => Ok x
                         | None => Raise IndexError
                         end) cidx) m.

(** [np.vstack([log_data] * n)] *)
Definition vstack_copies (log_data : list f32) (n : Z)
  : result (list (list f32)) :=
  if n <=? 0 then Raise ValueError_concatenate
  else Ok (replicate (Z.to_nat n) log_data).

(** The unary transformations, on matrices of shape
    (sample_size, number of non-zero entries). *)
Definition t_many (log_data rs_cidx betas_cidx : list (list f32))
  : list (list f32) :=
  zip_with3
    (zip_with3 (fun x r b => floor32 (add32 (div32 x r) b)))
    log_data rs_cidx betas_cidx.

Definition ln_a_many (t rs_cidx betas_cidx ln_cs_cidx : list (list f32))
  : list (list f32) :=
  let ln_y :=
    zip_with3
      (zip_with3 (fun t b r => mul32 (add32 (sub32 t b) one32) r))
      t betas_cidx rs_cidx in
  zip_with (zip_with sub32) ln_cs_cidx ln_y.

(** The body of the loop over the documents for a document with
    [doc_begin != doc_end]; the result is the new [hashvalues]. *)
Definition many_doc (self : t) (cidx : list nat)
    (t ln_a : list (list f32)) (doc_begin doc_end : nat) : M loc :=
  let doc_cidx := slice cidx doc_begin doc_end in
  let doc_ln_a := map (fun r => slice r doc_begin doc_end) ln_a in
  let* doc_argmin := lift (rmap np_argmin doc_ln_a) in
  let* doc_k := lift (rmap (fun a => match doc_cidx !! a with
                                     | Some c => Ok c
                                     | None => Raise IndexError
                                     end) doc_argmin) in
  let* hashvalues := np_zeros2 (sample_size self) in
  let* doc_t := lift (rmap (fun ra =>
                    match fst ra !! (doc_begin + snd ra)%nat with
                    | Some x => Ok x
                    | None => Raise IndexError
                    end) (zip t doc_argmin)) in
  let* _ := store hashvalues
              (IntArray2 (zip_with (fun k x => [Z.of_nat k; cast_int64 x])
                            doc_k doc_t)) in
  ret hashvalues.

(** [for it_doc in range(X.shape[0])], over the row ends still to
    visit; the result is [all_hashvalues] from [it_doc] on. *)
Fixpoint many_loop (self : t) (cidx : list nat)
    (t ln_a : list (list f32)) (doc_begin : nat) (rowends : list nat)
  : M (list (option loc)) :=
  match rowends with
  | [] => ret []
  | doc_end :: rowends' =>
      let* hv :=
        if (doc_begin =? doc_end)%nat then ret None
        else
          let* hashvalues := many_doc self cidx t ln_a doc_begin doc_end in
          ret (Some hashvalues) in
      let* rest := many_loop self cidx t ln_a doc_end rowends' in
      ret (hv :: rest)
  end.

(** The body of [minhash_many] from "Grab nonzero index
    information" on: [Xs] is the content of the local matrix [X],
    copied and sorted. *)
Definition minhash_many_sorted (self : t) (Xs : csr_matrix)
  : M (list (option WeightedMinHash.t)) :=
  let nz := nonzero Xs in
  let cidx := map snd nz in
  let rowends := tail (indptr Xs) ++ [nnz Xs] in
  let* rs_cidx := lift (gather (rs self) cidx) in
  let* betas_cidx := lift (gather (betas self) cidx) in
  let* ln_cs_cidx := lift (gather (ln_cs self) cidx) in
  let log_data :=
    map (fun rc => log32 (sample_value Xs (fst rc) (snd rc))) nz in
  let* log_data := lift (vstack_copies log_data (sample_size self)) in
  let t := t_many log_data rs_cidx betas_cidx in
  let ln_a := ln_a_many t rs_cidx betas_cidx ln_cs_cidx in
  let* all_hashvalues :=
    many_loop self cidx t ln_a 0 (take (shape0 Xs) rowends) in
  ret (map (fun o : option loc =>
              match o with
              | Some hashvalues =>
                  Some {| WeightedMinHash.seed := seed self;
                          WeightedMinHash.hashvalues := hashvalues |}
              | None => None
              end) all_hashvalues).

(** The body of [minhash_many] after the validation of the input:
    [X0] is the content of the caller's matrix as a CSR matrix. *)
Definition minhash_many_csr (self : t) (X0 : csr_matrix)
  : M (list (option WeightedMinHash.t)) :=
  (* X = csr_matrix(X, dtype=np.float32, copy=True); X.sort_indices() *)
  let* X := alloc (CsrMatrix X0) in
  let* _ := store X (CsrMatrix (sort_indices X0)) in
  let* o := load X in
  match o with
  | CsrMatrix Xs => minhash_many_sorted self Xs
  | _ => raise OutsideModel
  end.

Definition minhash_many (self : t) (X : pyarg)
  : M (list (option WeightedMinHash.t)) :=
  match X with
  | PySeq _ | PyScalar _ => raise TypeError_not_matrix
  | PyRef l =>
      let* o := load l in
      match o with
      | Ndarray1 _ _ => raise ValueError_ndim
      | Ndarray2 ncols rows =>
          if negb (Z.of_nat ncols =? dim self)
          then raise ValueError_dimension
          else minhash_many_csr self (csr_of_dense ncols rows)
      | CsrMatrix X0 =>
          if negb (Z.of_nat (shape1 X0) =? dim self)
          then raise ValueError_dimension
          else minhash_many_csr self X0
      | _ => raise OutsideModel
      end
  end.

(** The shape of the matrices that [__init__] builds. *)
Definition has_shape (m : list (list f32)) (nrows ncols : nat) : Prop :=
  length m = nrows /\ Forall (fun r => length r = ncols) m.

Definition wf (self : t) : Prop :=
  0 <= dim self /\ 0 <= sample_size self /\
  has_shape (rs self) (Z.to_nat (sample_size self)) (Z.to_nat (dim self)) /\
  has_shape (ln_cs self) (Z.to_nat (sample_size self)) (Z.to_nat (dim self)) /\
  has_shape (betas self) (Z.to_nat (sample_size self)) (Z.to_nat (dim self)).
End Methods.
End WeightedMinHashGenerator.

(** ** Instances of the interfaces, for the examples *)

(** A coarse logarithm: the binary exponent of a positive argument. It
    is exact at 1, where every logarithm is 0. *)
Definition coarse_log (f : Float.format) (x : spec_float) : spec_float :=
  match x with
  | S754_zero _ => S754_infinity true
  | S754_infinity false => x
  | S754_finite false m e => Float.of_Z f (Zpos (digits2_pos m) + e - 1)
  | _ => Float.nan
  end.

Definition coarse_libm : Libm := {|
  log32 := coarse_log Float.binary32;
  log64 := coarse_log Float.binary64;
|}.

(** A linear congruential generator in the place of numpy's Mersenne
    Twister; the draws are small dyadic numbers. *)
Definition lcg : RandomStateModel := {|
  rng_state := Z;
  rng_seed := fun seed => seed;
  rng_gamma := fun s =>
    (Float.div Float.binary64
       (Float.of_Z Float.binary64 (1 + s mod 7))
       (Float.of_Z Float.binary64 4),
     (1103515245 * s + 12345) mod 2 ^ 31);
  rng_uniform := fun s =>
    (Float.div Float.binary64
       (Float.of_Z Float.binary64 (s mod 8))
       (Float.of_Z Float.binary64 8),
     (1103515245 * s + 12345) mod 2 ^ 31);
|}.

(** * Definitions for the statements *)

Section StoreDefinitions.
Context `{RandomStateModel}.

(** [h'] keeps every object of [h] as it is. *)
Definition preserves (h h' : heap) : Prop :=
  forall l, is_Some (h !! l) -> h' !! l = h !! l.

(** A computation that leaves every object of the initial store as
    it was. *)
Definition frame {A} (m : M A) : Prop :=
  forall h : heap, preserves h (snd (m h)).
End StoreDefinitions.

Section SketchDefinitions.
Context `{RandomStateModel}.
Import WeightedMinHash.

(** The array a sketch refers to, as [load_hashvalues] reads it. *)
Definition array_of (h : heap) (s : t) : result (list (list Z)) :=
  match h !! hashvalues s with
  | Some (IntArray2 rows) => Ok rows
  | _ => Raise OutsideModel
  end.

(** The count in the words of the specification: the number of
    positions [i] at which the two sketches hold equal pairs. *)
Definition matching_positions (a b : list (list Z)) : nat :=
  length (List.filter (fun i => bool_decide (a !! i = b !! i))
            (seq 0 (length a))).
End SketchDefinitions.

Section GeneratorDefinitions.
Context `{RandomStateModel} `{Libm}.
Import WeightedMinHashGenerator.

(** The seeds that [RandomState] accepts. *)
Definition seed_ok (seed : Z) : bool :=
  (0 <=? seed) && (seed <=? 2 ^ 32 - 1).

(** The generator that [__init__] builds: the three matrices read, in
    this order, from the stream of the seed. *)
Definition init_value (dim sample_size seed : Z) : t :=
  let nr := Z.to_nat sample_size in
  let nc := Z.to_nat dim in
  let '(g1, s1) := draw_rows rng_gamma nr nc (rng_seed seed) in
  let '(g2, s2) := draw_rows rng_gamma nr nc s1 in
  let '(u, _) := draw_rows rng_uniform nr nc s2 in
  {| dim := dim; sample_size := sample_size; seed := seed;
     rs := astype32 g1;
     ln_cs := astype32 (map (map log64) g2);
     betas := astype32 u |}.

(** [v[vzeros] = np.nan] *)
Definition subst_zeros (xs : list f32) : list f32 :=
  map (fun x => if Float.is_zero x then Float.nan else x) xs.

(** The pair that iteration [i] of the loop of [minhash] computes. *)
Definition sample_at (self : t) (vlog : list f32) (i : nat)
  : result (list Z) :=
  rbind (row (rs self) i) (fun rs_i =>
  rbind (row (betas self) i) (fun betas_i =>
  rbind (row (ln_cs self) i) (fun ln_cs_i =>
  sample_single vlog rs_i betas_i ln_cs_i))).

(** The pairs of [n] iterations from [i] on, or the first exception. *)
Fixpoint loop_rows (self : t) (vlog : list f32) (i n : nat)
  : result (list (list Z)) :=
  match n with
  | O => Ok []
  | S n' =>
      rbind (sample_at self vlog i) (fun kt =>
      rbind (loop_rows self vlog (S i) n') (fun rest => Ok (kt :: rest)))
  end.

(** What [minhash] returns on the float32 array [xs], when nothing
    raises: the rows of the loop over the samples. *)
Definition minhash_rows (self : t) (xs : list f32)
  : result (list (list Z)) :=
  loop_rows self (map log32 (subst_zeros xs)) 0
    (Z.to_nat (sample_size self)).

(** [np.array(xs, dtype=np.float32)] and [xs.astype(np.float32)]. *)
Definition cast32 (xs : list f64) : list f32 :=
  map (Float.cast Float.binary32) xs.

(** The float32 values that [minhash] works on for the argument [v]. *)
Definition as_float32 (h : heap) (v : pyarg) : option (list f32) :=
  match v with
  | PySeq xs => Some (cast32 xs)
  | PyRef l =>
      match h !! l with
      | Some (Ndarray1 Float32 xs) => Some xs
      | Some (Ndarray1 Float64 xs) => Some (cast32 xs)
      | _ => None
      end
  | PyScalar _ => None
  end.

(** The caller's object that [minhash] works on directly, if any. *)
Definition in_place (h : heap) (v : pyarg) : option loc :=
  match v with
  | PyRef l =>
      match h !! l with
      | Some (Ndarray1 Float32 _) => Some l
      | _ => None
      end
  | _ => None
  end.

(** The result [r] and the store [h'] of [minhash(v)] called in the
    store [h], where [v] stands for the float32 values [xs]: only the
    object worked on in place may change; the errors; the array of
    the sketch returned. *)
Definition minhash_post (self : t) (h : heap) (v : pyarg) (xs : list f32)
    (r : result WeightedMinHash.t) (h' : heap) : Prop :=
  (forall l', in_place h v <> Some l' -> is_Some (h !! l') ->
              h' !! l' = h !! l') /\
  if sample_size self <? 0
  then r = Raise ValueError_negative_dimensions
  else if forallb Float.is_zero xs
  then r = Raise ValueError_all_zeros
  else
    (forall l, in_place h v = Some l ->
               h' !! l = Some (Ndarray1 Float32 (subst_zeros xs))) /\
    match minhash_rows self xs with
    | Ok rows =>
        exists hv,
          r = Ok {| WeightedMinHash.seed := seed self;
                    WeightedMinHash.hashvalues := hv |} /\
          h !! hv = None /\ h' !! hv = Some (IntArray2 rows)
    | Raise e => r = Raise e
    end.

(** Every pair records a dimension [k] whose weight in [xs] is
    positive. *)
Definition selects_positive (xs : list f32) (rows : list (list Z)) : Prop :=
  Forall (fun row => exists k tz x, row = [Z.of_nat k; tz] /\
                       xs !! k = Some x /\ Float.is_pos x = true) rows.

(** A CSR matrix of shape (3, 2) whose first stored entry is an
    explicit zero; as a dense matrix it is [[0, 0], [0, 1], [1, 1]]:
    [csr_matrix((data, indices, indptr), shape=(3, 2))]. *)
Definition X_explicit_zero : csr_matrix :=
  {| shape0 := 3; shape1 := 2;
     indptr := [0; 1; 2; 4]%nat;
     indices := [0; 1; 0; 1]%nat;
     data := [Float.zero; one32; one32; one32] |}.

(** [X[r, :]] as a dense row. *)
Definition csr_row (X : csr_matrix) (r : nat) : list f32 :=
  map (sample_value X r) (seq 0 (shape1 X)).

(** Every pair records the dimension [c]. *)
Definition selects (c : nat) (rows : list (list Z)) : Prop :=
  Forall (fun row => exists tz, row = [Z.of_nat c; tz]) rows.

(** [WeightedMinHash(self.seed, hashvalues)] *)
Definition sketch_of (self : t) (hv : loc) : WeightedMinHash.t :=
  {| WeightedMinHash.seed := seed self; WeightedMinHash.hashvalues := hv |}.

(** The Python floats 0.0 and 1.0. *)
Definition zero64 : f64 := Float.zero.

Definition one64 : f64 := Float.of_Z Float.binary64 1.
End GeneratorDefinitions.

Section DenseDefinitions.
Context `{RandomStateModel} `{Libm}.
Import WeightedMinHashGenerator.
Local Open Scope nat_scope.

(** The test of [nonzero()] and of the conversion of a dense array. *)
Definition nonzero_entry (p : nat * f32) : bool :=
  negb (Float.is_zero (snd p)).




End DenseDefinitions.

Section OutcomeDefinitions.
Context `{RandomStateModel} `{Libm}.
Import WeightedMinHashGenerator.

(** Two results of [minhash], each with the store it leaves: the same
    exception, or two sketches with one seed whose arrays hold the same
    rows. *)
Definition same_outcome (r1 r2 : result WeightedMinHash.t * heap) : Prop :=
  match fst r1, fst r2 with
  | Ok s1, Ok s2 =>
      WeightedMinHash.seed s1 = WeightedMinHash.seed s2 /\
      exists rows,
        snd r1 !! WeightedMinHash.hashvalues s1 = Some (IntArray2 rows) /\
        snd r2 !! WeightedMinHash.hashvalues s2 = Some (IntArray2 rows)
  | Raise e1, Raise e2 => e1 = e2
  | _, _ => False
  end.

(** The checks of [minhash] in the order of the code, then the loop
    over the samples. *)
Definition minhash_outcome (self : t) (xs : list f32)
  : result (list (list Z)) :=
  if negb (Z.of_nat (length xs) =? dim self) then Raise ValueError_dimension
  else if sample_size self <? 0 then Raise ValueError_negative_dimensions
  else if forallb Float.is_zero xs then Raise ValueError_all_zeros
  else minhash_rows self xs.

(** [t] and [ln_a] in iteration [i] of the loop of [minhash] on the
    float32 values [xs]. *)
Definition t_at (self : t) (xs : list f32) (i : nat) : list f32 :=
  t_single (map log32 (subst_zeros xs))
    (default [] (rs self !! i)) (default [] (betas self !! i)).

Definition ln_a_at (self : t) (xs : list f32) (i : nat) : list f32 :=
  ln_a_single (t_at self xs i)
    (default [] (rs self !! i)) (default [] (betas self !! i))
    (default [] (ln_cs self !! i)).

(** The pair [row] is [(k, int(t[k]))] for the first [k] at which
    [ln_a] is least, NaN values left out. *)
Definition first_minimum (ln_a t : list f32) (row : list Z) : Prop :=
  exists k a tk z,
    row = [Z.of_nat k; z] /\ ln_a !! k = Some a /\ t !! k = Some tk /\
    Float.trunc tk = Some z /\ int64_min <= z <= int64_max /\
    (forall j b, ln_a !! j = Some b -> SFltb b a = false) /\
    (forall j b, (j < k)%nat -> ln_a !! j = Some b -> SFleb b a = false).

(** [np.nanargmin] works on the array with +inf in the place of NaN. *)
Definition nan_to_inf (x : f32) : f32 :=
  if Float.is_nan x then Float.inf else x.
End OutcomeDefinitions.

Section EntriesDefinitions.
Local Open Scope nat_scope.

(** The CSR matrix whose rows store the entries [es], row after row. *)
Definition csr_of_entries (nrows ncols : nat) (es : list (list (nat * f32)))
  : csr_matrix :=
  {| shape0 := nrows; shape1 := ncols;
     indptr := 0 :: indptr_from 0 es;
     indices := concat (map (map fst) es);
     data := concat (map (map snd) es) |}.



(** A row in canonical format for a matrix of [ncols] columns:
    increasing columns without duplicates, below [ncols], and no
    entry stored with value zero. *)
Definition canonical_row (ncols : nat) (e : list (nat * f32)) : Prop :=
  StronglySorted (fun p q => fst p < fst q) e /\
  Forall (fun p => fst p < ncols /\ Float.is_zero (snd p) = false) e.


End EntriesDefinitions.

Section BatchDefinitions.
Context `{RandomStateModel} `{Libm}.
Import WeightedMinHashGenerator.

(** The matrix that [minhash_many] converts to CSR: a 2-D float32
    array or a CSR matrix. *)
Definition matrix_of (h : heap) (l : loc) : option csr_matrix :=
  match h !! l with
  | Some (Ndarray2 ncols rows) => Some (csr_of_dense ncols rows)
  | Some (CsrMatrix X0) => Some X0
  | _ => None
  end.

(** [t] and [ln_a] of [minhash_many] for one stored entry (column,
    value) and the rows of [rs], [betas] and [ln_cs] of one sample. *)
Definition t_entry (rs_i betas_i : list f32) (p : nat * f32) : f32 :=
  floor32 (add32 (div32 (log32 (snd p)) (nth (fst p) rs_i Float.nan))
             (nth (fst p) betas_i Float.nan)).

Definition ln_a_entry (rs_i betas_i ln_cs_i : list f32) (p : nat * f32)
  : f32 :=
  sub32 (nth (fst p) ln_cs_i Float.nan)
    (mul32 (add32 (sub32 (t_entry rs_i betas_i p)
                     (nth (fst p) betas_i Float.nan)) one32)
       (nth (fst p) rs_i Float.nan)).

(** [np.argmin] of a sequence that is not empty. *)
Definition argmin_index (l : list f32) : nat :=
  match np_argmin l with Ok a => a | Raise _ => 0%nat end.

(** The rows of the three matrices, sample by sample. *)
Definition sample_rows (self : t)
  : list (list f32 * (list f32 * list f32)) :=
  zip (rs self) (zip (betas self) (ln_cs self)).

(** The pair that [minhash_many] records for one sample and a document
    with the stored entries [e]. *)
Definition batch_pair (e : list (nat * f32))
    (s : list f32 * (list f32 * list f32)) : list Z :=
  let a := argmin_index (map (ln_a_entry s.1 s.2.1 s.2.2) e) in
  [Z.of_nat (nth a (map fst e) 0%nat);
   cast_int64 (nth a (map (t_entry s.1 s.2.1) e) Float.nan)].

Definition batch_rows (self : t) (e : list (nat * f32)) : list (list Z) :=
  map (batch_pair e) (sample_rows self).

(** What the loop over the documents leaves for a document with the
    stored entries [e]. *)
Definition entries_result (self : t) (h h' : heap) (e : list (nat * f32))
    (o : option loc) : Prop :=
  match o with
  | None => e = []
  | Some hv =>
      e <> [] /\ h !! hv = None /\
      h' !! hv = Some (IntArray2 (batch_rows self e))
  end.

(** [all_hashvalues] as the list of sketches returned. *)
Definition sketches_of (self : t) (res : list (option loc))
  : list (option WeightedMinHash.t) :=
  map (fun o : option loc =>
         match o with
         | Some hv => Some (sketch_of self hv)
         | None => None
         end) res.


(** Two pairs [(k, t)] that are equal as soon as their [k] are. *)
Definition same_t_at_same_k (pb ps : list Z) : Prop :=
  exists kb zb ks zs,
    pb = [kb; zb] /\ ps = [ks; zs] /\ (kb = ks -> zb = zs).

(** [t] and [ln_a] of [minhash_many] in sample [i], at the stored
    entries [e] of one document. *)
Definition t_many_at (self : t) (e : list (nat * f32)) (i : nat)
  : list f32 :=
  map (t_entry (default [] (rs self !! i)) (default [] (betas self !! i))) e.

Definition ln_a_many_at (self : t) (e : list (nat * f32)) (i : nat)
  : list f32 :=
  map (ln_a_entry (default [] (rs self !! i)) (default [] (betas self !! i))
         (default [] (ln_cs self !! i))) e.

(** The pair [row] is [(cols[a], t[a])], [t[a]] converted to int64,
    for the position [a] that [np.argmin] returns on [ln_a]: the
    first NaN if there is one, the first minimum otherwise. *)
Definition argmin_pair (cols : list nat) (ln_a t : list f32)
    (row : list Z) : Prop :=
  exists a k v tk,
    row = [Z.of_nat k; cast_int64 tk] /\ cols !! a = Some k /\
    ln_a !! a = Some v /\ t !! a = Some tk /\
    (forall j b, (j < a)%nat -> ln_a !! j = Some b ->
       Float.is_nan b = false /\ SFleb b v = false) /\
    (Float.is_nan v = false ->
     forall j b, ln_a !! j = Some b -> SFleb v b = true).
End BatchDefinitions.

(** ** Objects for the examples *)

(** The generators that [__init__] builds with the linear congruential
    generator, and one with parameters chosen by hand, for which two
    values of [ln_a] are one unit in the last place apart. *)
Definition example_generator : WeightedMinHashGenerator.t :=
  Eval vm_compute in @init_value lcg coarse_libm 2 2 1.
Definition example_generator4 : WeightedMinHashGenerator.t :=
  Eval vm_compute in @init_value lcg coarse_libm 4 2 1.
Definition empty_generator : WeightedMinHashGenerator.t :=
  Eval vm_compute in @init_value lcg coarse_libm 1 0 1.
Definition near_tie : WeightedMinHashGenerator.t :=
  {| WeightedMinHashGenerator.dim := 2;
     WeightedMinHashGenerator.sample_size := 1;
     WeightedMinHashGenerator.seed := 1;
     WeightedMinHashGenerator.rs :=
       [[S754_finite false 15099494 (-24); S754_finite false 8388608 (-33)]];
     WeightedMinHashGenerator.ln_cs :=
       [[S754_finite false 8388608 (-24); S754_finite false 15500575 (-26)]];
     WeightedMinHashGenerator.betas :=
       [[S754_finite false 11744051 (-24); S754_zero false]] |}.


Abbreviation xheap := (gmap loc (@pyobj lcg)).

Section ExampleObjects.
#[local] Existing Instance lcg.
#[local] Existing Instance coarse_libm.

Definition three32 : f32 := Float.of_Z Float.binary32 3.

Definition store_explicit_zero : xheap :=
  {[ 1%positive := CsrMatrix X_explicit_zero ]}.

Definition store_float32_vector : xheap :=
  {[ 1%positive := Ndarray1 Float32 [one32; Float.zero; three32; Float.zero] ]}.

Definition store_two_sketches : xheap :=
  {[ 1%positive := IntArray2 [[0; 3]; [1; 2]];
     2%positive := IntArray2 [[0; 3]; [1; 5]] ]}.

Definition sketch_a : WeightedMinHash.t :=
  {| WeightedMinHash.seed := 1; WeightedMinHash.hashvalues := 1%positive |}.

Definition sketch_b : WeightedMinHash.t :=
  {| WeightedMinHash.seed := 1; WeightedMinHash.hashvalues := 2%positive |}.

Definition store_empty_sketch : xheap := {[ 1%positive := IntArray2 [] ]}.

(** A store in which numpy's global generator has been used. *)
Definition store_global_rng : xheap :=
  {[ 1%positive := RandomState (rng_seed 12345) ]}.

Definition sketch_at (seed : Z) (hv : loc) : WeightedMinHash.t :=
  {| WeightedMinHash.seed := seed; WeightedMinHash.hashvalues := hv |}.

(** A dense matrix with a row of zeros. *)
Definition store_dense : xheap :=
  {[ 1%positive := Ndarray2 2 [[one32; Float.zero];
                               [Float.zero; Float.zero];
                               [three32; one32]] ]}.

Definition store_ones : xheap :=
  {[ 1%positive := Ndarray2 2 [[one32; one32]] ]}.
(** The Python floats 3.0 and -1.0. *)
Definition three64 : f64 := Float.of_Z Float.binary64 3.

Definition minus_one64 : f64 := Float.of_Z Float.binary64 (-1).









(** A float64 array with two zero entries. *)
Definition store_float64_vector : xheap :=
  {[ 1%positive := Ndarray1 Float64 [one64; zero64; three64; zero64] ]}.
End ExampleObjects.

(** * Properties *)

(** ** The store *)

Section Store.
Context `{RandomStateModel}.

Lemma fresh_lookup (h : heap) : h !! fresh (dom h) = None.
Proof. apply not_elem_of_dom, is_fresh. Qed.

Lemma fresh_ne (h : heap) (l : loc) : is_Some (h !! l) -> fresh (dom h) <> l.
Proof. intros [o Ho] <-. rewrite fresh_lookup in Ho. discriminate. Qed.

Lemma preserves_refl h : preserves h h.
Proof. by intros l _. Qed.

Lemma preserves_trans h1 h2 h3 :
  preserves h1 h2 -> preserves h2 h3 -> preserves h1 h3.
Proof.
  intros H12 H23 l Hl. rewrite <- (H12 l Hl). apply H23.
  rewrite (H12 l Hl). exact Hl.
Qed.

Lemma preserves_alloc h o : preserves h (<[fresh (dom h) := o]> h).
Proof.
  intros l Hl. apply lookup_insert_ne. by apply fresh_ne.
Qed.

(** Writing to an object that [h] does not have. *)
Lemma preserves_store h h' l o :
  preserves h h' -> h !! l = None -> preserves h (<[l := o]> h').
Proof.
  intros Hp Hl l' Hl'. rewrite lookup_insert_ne; [by apply Hp|].
  intros ->. rewrite Hl in Hl'. by destruct Hl'.
Qed.
End Store.

(** ** WeightedMinHash *)

Section SketchProperties.
Context `{RandomStateModel}.
Import WeightedMinHash.

Lemma load_hashvalues_eval (h : heap) s rows :
  h !! hashvalues s = Some (IntArray2 rows) ->
  load_hashvalues s h = (Ok rows, h).
Proof. intros Hs. unfold load_hashvalues, bind, load. by rewrite Hs. Qed.

(** [jaccard] as a function of the two arrays. *)
Lemma jaccard_eval (h : heap) a b ra rb :
  h !! hashvalues a = Some (IntArray2 ra) ->
  h !! hashvalues b = Some (IntArray2 rb) ->
  jaccard a b h =
    (if negb (seed b =? seed a) then Raise ValueError_seeds
     else if negb (length ra =? length rb)%nat then Raise ValueError_lengths
     else match length ra with
          | O => Raise ZeroDivisionError
          | S _ => Ok (Z.of_nat (intersection ra rb) # Pos.of_nat (length ra))
          end, h).
Proof.
  intros Ha Hb. unfold jaccard, __len__, bind, ret, raise.
  destruct (negb (seed b =? seed a)); [done|].
  rewrite (load_hashvalues_eval _ _ _ Ha), (load_hashvalues_eval _ _ _ Hb).
  destruct (negb (length ra =? length rb)%nat); [done|].
  rewrite (load_hashvalues_eval _ _ _ Ha), (load_hashvalues_eval _ _ _ Hb).
  by destruct (length ra).
Qed.

Lemma eq_eval (h : heap) a b ra rb :
  h !! hashvalues a = Some (IntArray2 ra) ->
  h !! hashvalues b = Some (IntArray2 rb) ->
  __eq__ a b h =
    (Ok (if negb (seed a =? seed b) then false else bool_decide (ra = rb)), h).
Proof.
  intros Ha Hb. unfold __eq__, bind, ret.
  destruct (negb (seed a =? seed b)); [done|].
  by rewrite (load_hashvalues_eval _ _ _ Ha), (load_hashvalues_eval _ _ _ Hb).
Qed.

Lemma intersection_le ra rb : (intersection ra rb <= length ra)%nat.
Proof.
  revert rb. induction ra as [|x ra IH]; intros [|y rb]; simpl; try lia.
  specialize (IH rb). destruct (array_equal x y); lia.
Qed.

Lemma intersection_refl ra : intersection ra ra = length ra.
Proof.
  induction ra as [|x ra IH]; simpl; [done|].
  unfold array_equal. rewrite bool_decide_eq_true_2 by done. lia.
Qed.

Lemma matching_positions_cons x a y b :
  matching_positions (x :: a) (y :: b) =
  ((if array_equal x y then 1 else 0) + matching_positions a b)%nat.
Proof.
  unfold matching_positions, array_equal. simpl.
  assert (Hshift :
    List.filter (fun i => bool_decide ((x :: a) !! i = (y :: b) !! i))
      (seq 1 (length a)) =
    map S (List.filter (fun i => bool_decide (a !! i = b !! i))
             (seq 0 (length a)))).
  { rewrite <- seq_shift. generalize (seq 0 (length a)) as l.
    induction l as [|i l IHl]; simpl; [done|].
    rewrite IHl. by destruct (bool_decide (a !! i = b !! i)). }
  rewrite Hshift.
  destruct (decide (x = y)) as [->|Hne].
  - rewrite !bool_decide_eq_true_2 by done. simpl. by rewrite length_map.
  - rewrite !bool_decide_eq_false_2 by congruence. simpl.
    by rewrite length_map.
Qed.

Lemma intersection_matching a b :
  length a = length b -> intersection a b = matching_positions a b.
Proof.
  revert b. induction a as [|x a IH]; intros [|y b] Hlen; try done.
  rewrite matching_positions_cons. simpl. rewrite IH; [done|].
  simpl in Hlen. lia.
Qed.

Lemma pos_of_nat_Z n : (0 < n)%nat -> Zpos (Pos.of_nat n) = Z.of_nat n.
Proof.
  intros Hn. rewrite <- positive_nat_Z. f_equal. apply Nat2Pos.id. lia.
Qed.

Lemma load_hashvalues_spec (h : heap) s :
  load_hashvalues s h = (array_of h s, h).
Proof.
  unfold load_hashvalues, array_of, bind, load.
  by destruct (h !! hashvalues s) as [[]|].
Qed.

(** What [jaccard] and [__eq__] return depends on the two arrays only. *)
Lemma jaccard_frame (h h' : heap) a b :
  h' !! hashvalues a = h !! hashvalues a ->
  h' !! hashvalues b = h !! hashvalues b ->
  fst (jaccard a b h') = fst (jaccard a b h).
Proof.
  intros Ha Hb.
  assert (Ea : array_of h' a = array_of h a)
    by (unfold array_of; by rewrite Ha).
  assert (Eb : array_of h' b = array_of h b)
    by (unfold array_of; by rewrite Hb).
  unfold jaccard, __len__, bind, ret, raise.
  destruct (negb (seed b =? seed a)); [done|].
  rewrite !load_hashvalues_spec, Ea.
  destruct (array_of h a) as [ra|] eqn:Ea0; simpl; [|done].
  rewrite !load_hashvalues_spec, Eb.
  destruct (array_of h b) as [rb|] eqn:Eb0; simpl; [|done].
  destruct (negb _); [done|]. cbv beta.
  rewrite !load_hashvalues_spec, Ea, Ea0. simpl.
  rewrite ?Eb, ?Eb0. simpl.
  by destruct (length ra).
Qed.

Lemma eq_frame (h h' : heap) a b :
  h' !! hashvalues a = h !! hashvalues a ->
  h' !! hashvalues b = h !! hashvalues b ->
  fst (__eq__ a b h') = fst (__eq__ a b h).
Proof.
  intros Ha Hb.
  assert (Ea : array_of h' a = array_of h a)
    by (unfold array_of; by rewrite Ha).
  assert (Eb : array_of h' b = array_of h b)
    by (unfold array_of; by rewrite Hb).
  unfold __eq__, bind, ret, raise.
  destruct (negb (seed a =? seed b)); [done|].
  rewrite !load_hashvalues_spec, Ea.
  destruct (array_of h a) as [ra|]; simpl; [|done].
  rewrite ?Eb.
  by destruct (array_of h b) as [rb|].
Qed.

Lemma digest_eval (h : heap) s rows :
  h !! hashvalues s = Some (IntArray2 rows) ->
  digest s h =
    (Ok (fresh (dom h)), <[fresh (dom h) := IntArray2 rows]> h).
Proof.
  intros Hs. unfold digest, bind.
  by rewrite (load_hashvalues_eval _ _ _ Hs).
Qed.

(** C3 (amended). For two sketches [a] and [b], [jaccard] raises one
    of its two ValueErrors exactly when the seeds differ or the
    lengths differ; otherwise, when the sketches hold at least one
    pair, it returns the number of positions at which the pairs of
    [a] and [b] are equal, divided by the length, a value between 0
    and 1. *)
Theorem jaccard_correct (h : heap) a b ra rb :
  h !! hashvalues a = Some (IntArray2 ra) ->
  h !! hashvalues b = Some (IntArray2 rb) ->
  ((fst (jaccard a b h) = Raise ValueError_seeds \/
    fst (jaccard a b h) = Raise ValueError_lengths) <->
   (seed a <> seed b \/ length ra <> length rb)) /\
  (seed a = seed b -> length ra = length rb -> (0 < length ra)%nat ->
   exists q : Q,
     jaccard a b h = (Ok q, h) /\
     q = (Z.of_nat (matching_positions ra rb) # Pos.of_nat (length ra)) /\
     (0 <= q)%Q /\ (q <= 1)%Q).
Proof.
  intros Ha Hb. rewrite (jaccard_eval _ _ _ _ _ Ha Hb). simpl. split.
  - destruct (Z.eqb_spec (seed b) (seed a)) as [Hs|Hs]; simpl.
    + destruct (Nat.eqb_spec (length ra) (length rb)) as [Hl|Hl]; simpl.
      * split; [|intros [?|?]; congruence].
        destruct (length ra); intros [?|?]; discriminate.
      * split; [by right | by right].
    + split; [left; congruence | by left].
  - intros Hs Hl Hpos. rewrite Hs, Z.eqb_refl. simpl.
    rewrite <- Hl, Nat.eqb_refl. simpl.
    pose proof (intersection_matching ra rb Hl) as Hm.
    pose proof (intersection_le ra rb) as Hle.
    destruct (length ra) as [|n] eqn:Hn; [lia|].
    eexists. split; [done|]. rewrite <- Hm.
    split; [done|].
    unfold Qle. simpl. rewrite pos_of_nat_Z by lia. lia.
Qed.

(** C9. The array returned by [s.digest()], and the one returned by
    [s.copy().digest()], are new objects with the elements of
    [s.hashvalues]: whatever is written to them afterwards, every
    object the store had before, the array of [s] among them, is as
    it was, and so is what a later [digest], [__eq__] or [jaccard] on
    [s] returns. *)
Theorem digest_independent (h : heap) s rows :
  h !! hashvalues s = Some (IntArray2 rows) ->
  exists d h1 c d' h2,
    digest s h = (Ok d, h1) /\ h1 !! d = Some (IntArray2 rows) /\
    copy s h = (Ok c, h1) /\ digest c h1 = (Ok d', h2) /\
    h2 !! d' = Some (IntArray2 rows) /\
    forall (hm : heap) (o : pyobj),
      hm = <[d := o]> h1 \/ hm = <[d' := o]> h2 ->
      preserves h hm /\
      load_hashvalues s hm = (Ok rows, hm) /\
      forall b, is_Some (h !! hashvalues b) ->
        fst (jaccard s b hm) = fst (jaccard s b h) /\
        fst (__eq__ s b hm) = fst (__eq__ s b h).
Proof.
  intros Hs.
  set (d := fresh (dom h)). set (h1 := <[d := IntArray2 rows]> h).
  set (c := {| seed := seed s; hashvalues := d |}).
  set (d' := fresh (dom h1)). set (h2 := <[d' := IntArray2 rows]> h1).
  assert (Hd1 : h1 !! d = Some (IntArray2 rows)) by apply lookup_insert_eq.
  exists d, h1, c, d', h2. split; [by apply digest_eval|].
  split; [done|]. split.
  { unfold copy, bind. by rewrite (digest_eval _ _ _ Hs). }
  split; [by apply (digest_eval h1 c)|].
  split; [apply lookup_insert_eq|].
  assert (Hp1 : preserves h h1) by apply preserves_alloc.
  assert (Hp2 : preserves h h2).
  { eapply preserves_trans; [exact Hp1 | apply preserves_alloc]. }
  assert (Hpm : forall hm o,
    hm = <[d := o]> h1 \/ hm = <[d' := o]> h2 -> preserves h hm).
  { intros hm o [->| ->].
    - apply preserves_store; [done | apply fresh_lookup].
    - apply preserves_store; [done|].
      destruct (h !! d') as [x|] eqn:Hx; [|done].
      assert (Hin : is_Some (h1 !! d')).
      { rewrite (Hp1 d') by eauto. eauto. }
      destruct Hin as [y Hy]. unfold d' in Hy.
      rewrite fresh_lookup in Hy. discriminate. }
  intros hm o Hhm. pose proof (Hpm hm o Hhm) as Hp.
  split; [done|].
  assert (Hsm : hm !! hashvalues s = h !! hashvalues s) by (apply Hp; eauto).
  split.
  { apply load_hashvalues_eval. by rewrite Hsm. }
  intros b Hb.
  split; [apply jaccard_frame | apply eq_frame]; auto.
Qed.
End SketchProperties.

(** ** WeightedMinHashGenerator.__init__ *)

Section InitProperties.
Context `{RandomStateModel} `{Libm}.
Import WeightedMinHashGenerator.

Lemma sample_eval draw (l : loc) nrows ncols (h : heap) s :
  h !! l = Some (RandomState s) ->
  sample draw l nrows ncols h =
    if (nrows <? 0) || (ncols <? 0)
    then (Raise ValueError_negative_dimensions, h)
    else (Ok (fst (draw_rows draw (Z.to_nat nrows) (Z.to_nat ncols) s)),
          <[l := RandomState
                   (snd (draw_rows draw (Z.to_nat nrows)
                           (Z.to_nat ncols) s))]> h).
Proof.
  intros Hl. unfold sample, bind, raise, load, store, ret.
  destruct (_ || _); [done|]. rewrite Hl.
  by destruct (draw_rows _ _ _ _).
Qed.

Lemma init_eval (h : heap) dim ss seed :
  fst (__init__ dim ss seed h) =
    if seed_ok seed then
      if (ss <? 0) || (dim <? 0) then Raise ValueError_negative_dimensions
      else Ok (init_value dim ss seed)
    else Raise ValueError_seed_range.
Proof.
  unfold __init__, new_RandomState, seed_ok, bind.
  destruct (_ && _); [|done].
  unfold alloc at 1.
  rewrite (sample_eval _ _ _ _ _ (rng_seed seed)) by apply lookup_insert_eq.
  destruct (_ || _) eqn:Hneg; [done|]. cbv beta iota.
  erewrite sample_eval by apply lookup_insert_eq.
  rewrite Hneg. cbv beta iota.
  erewrite sample_eval by apply lookup_insert_eq.
  rewrite Hneg. cbv beta iota.
  unfold init_value, ret. simpl.
  destruct (draw_rows rng_gamma _ _ (rng_seed seed)) as [g1 s1]. simpl.
  destruct (draw_rows rng_gamma _ _ s1) as [g2 s2]. simpl.
  by destruct (draw_rows rng_uniform _ _ s2) as [u s3].
Qed.

(** [__init__] writes to its own generator object only: the global
    generator of numpy, and every other object, are as they were. *)
Lemma init_preserves (h : heap) dim ss seed :
  preserves h (snd (__init__ dim ss seed h)).
Proof.
  unfold __init__, new_RandomState, bind.
  destruct (_ && _); [|apply preserves_refl].
  unfold alloc at 1.
  rewrite (sample_eval _ _ _ _ _ (rng_seed seed)) by apply lookup_insert_eq.
  destruct (_ || _) eqn:Hneg; [apply preserves_alloc|]. cbv beta iota.
  erewrite sample_eval by apply lookup_insert_eq.
  rewrite Hneg. cbv beta iota.
  erewrite sample_eval by apply lookup_insert_eq.
  rewrite Hneg. cbv beta iota.
  unfold ret. simpl. rewrite !insert_insert_eq. apply preserves_alloc.
Qed.

Lemma draw_row_length draw n s : length (fst (draw_row draw n s)) = n.
Proof.
  revert s. induction n as [|n IH]; intros s; simpl; [done|].
  destruct (draw s) as [x s1]. specialize (IH s1).
  destruct (draw_row draw n s1) as [xs s2]. simpl in *. by rewrite IH.
Qed.

Lemma draw_rows_shape draw nr nc s :
  length (fst (draw_rows draw nr nc s)) = nr /\
  Forall (fun r => length r = nc) (fst (draw_rows draw nr nc s)).
Proof.
  revert s. induction nr as [|nr IH]; intros s; simpl; [by split|].
  pose proof (draw_row_length draw nc s) as Hr.
  destruct (draw_row draw nc s) as [r s1]. specialize (IH s1).
  destruct (draw_rows draw nr nc s1) as [m s2]. simpl in *.
  destruct IH as [IH1 IH2]. split; [by rewrite IH1 | by constructor].
Qed.

Lemma astype32_shape m nr nc :
  length m = nr /\ Forall (fun r => length r = nc) m ->
  has_shape (astype32 m) nr nc.
Proof.
  intros [Hl Hf]. unfold has_shape, astype32. split.
  - by rewrite length_map.
  - apply Forall_map. eapply Forall_impl; [exact Hf|].
    intros r Hr. simpl. by rewrite length_map.
Qed.

Lemma log_rows_shape (m : list (list f64)) nr nc :
  length m = nr /\ Forall (fun r => length r = nc) m ->
  length (map (map log64) m) = nr /\
  Forall (fun r => length r = nc) (map (map log64) m).
Proof.
  intros [Hl Hf]. split; [by rewrite length_map|].
  apply Forall_map. eapply Forall_impl; [exact Hf|].
  intros r Hr. simpl. by rewrite length_map.
Qed.

Lemma init_value_wf dim ss seed :
  0 <= dim -> 0 <= ss -> wf (init_value dim ss seed).
Proof.
  intros Hd Hs. unfold init_value.
  pose proof (draw_rows_shape rng_gamma (Z.to_nat ss) (Z.to_nat dim)
                (rng_seed seed)) as H1.
  destruct (draw_rows rng_gamma _ _ (rng_seed seed)) as [g1 s1].
  pose proof (draw_rows_shape rng_gamma (Z.to_nat ss) (Z.to_nat dim) s1)
    as H2.
  destruct (draw_rows rng_gamma _ _ s1) as [g2 s2].
  pose proof (draw_rows_shape rng_uniform (Z.to_nat ss) (Z.to_nat dim) s2)
    as H3.
  destruct (draw_rows rng_uniform _ _ s2) as [u s3].
  unfold wf. simpl in *.
  split; [done|]. split; [done|].
  split; [by apply astype32_shape|].
  split; [apply astype32_shape; by apply log_rows_shape|].
  by apply astype32_shape.
Qed.

(** C5 (amended). The construction fails with a ValueError when [dim]
    or [sample_size] is negative (numpy refuses the shape) or when
    the seed is outside [0, 2^32 - 1] (numpy refuses the seed); in
    every other case, [dim = 0] and [sample_size = 0] included, it
    succeeds, with three matrices of [sample_size] rows of [dim]
    values. *)
Theorem init_outcome (h : heap) dim ss seed :
  (dim < 0 \/ ss < 0 \/ seed < 0 \/ 2 ^ 32 <= seed ->
   fst (__init__ dim ss seed h) = Raise ValueError_seed_range \/
   fst (__init__ dim ss seed h) = Raise ValueError_negative_dimensions) /\
  (0 <= dim -> 0 <= ss -> 0 <= seed < 2 ^ 32 ->
   exists g, fst (__init__ dim ss seed h) = Ok g /\ wf g /\
             WeightedMinHashGenerator.dim g = dim /\
             sample_size g = ss /\
             WeightedMinHashGenerator.seed g = seed).
Proof.
  rewrite init_eval. unfold seed_ok. split.
  - intros Hbad.
    destruct ((0 <=? seed) && (seed <=? 2 ^ 32 - 1)) eqn:Hs; [|by left].
    destruct ((ss <? 0) || (dim <? 0)) eqn:Hn; [by right|].
    apply andb_true_iff in Hs. apply orb_false_iff in Hn. lia.
  - intros Hd Hss Hseed.
    replace ((0 <=? seed) && (seed <=? 2 ^ 32 - 1)) with true
      by (symmetry; apply andb_true_iff; lia).
    replace ((ss <? 0) || (dim <? 0)) with false
      by (symmetry; apply orb_false_iff; lia).
    exists (init_value dim ss seed). split; [done|].
    split; [by apply init_value_wf|].
    unfold init_value.
    destruct (draw_rows rng_gamma _ _ (rng_seed seed)) as [g1 s1].
    destruct (draw_rows rng_gamma _ _ s1) as [g2 s2].
    by destruct (draw_rows rng_uniform _ _ s2) as [u s3].
Qed.

(** C6. Two generators constructed with the same
    [(dim, sample_size, seed)], whatever the store holds at the two
    constructions (the state of numpy's global generator, other
    generator objects), have the same [rs], [ln_cs] and [betas], and
    give the same result on every input of [minhash] and
    [minhash_many]. *)
Theorem init_deterministic (h1 h2 : heap) dim ss seed g1 g2 :
  fst (__init__ dim ss seed h1) = Ok g1 ->
  fst (__init__ dim ss seed h2) = Ok g2 ->
  rs g1 = rs g2 /\ ln_cs g1 = ln_cs g2 /\ betas g1 = betas g2 /\
  (forall v h, minhash g1 v h = minhash g2 v h) /\
  (forall X h, minhash_many g1 X h = minhash_many g2 X h).
Proof.
  rewrite !init_eval. intros E1 E2.
  assert (g1 = g2) as -> by congruence. done.
Qed.
End InitProperties.

(** ** WeightedMinHashGenerator.minhash *)

Section MinhashProperties.
Context `{RandomStateModel} `{Libm}.
Import WeightedMinHashGenerator.

Lemma store_row_eval (h : heap) hv i kt rows :
  h !! hv = Some (IntArray2 rows) ->
  store_row hv i kt h = (Ok tt, <[hv := IntArray2 (<[i := kt]> rows)]> h).
Proof. intros Hh. unfold store_row, bind, load, store. by rewrite Hh. Qed.

Lemma minhash_loop_eval self hv vlog n :
  forall i (h : heap) pre post,
    h !! hv = Some (IntArray2 (pre ++ post)) ->
    length pre = i -> length post = n ->
    exists arr,
      minhash_loop self hv vlog i n h =
        (rbind (loop_rows self vlog i n) (fun _ => Ok tt),
         <[hv := IntArray2 arr]> h) /\
      (forall rows, loop_rows self vlog i n = Ok rows -> arr = pre ++ rows).
Proof.
  induction n as [|n IH]; intros i h pre post Hh Hpre Hpost.
  - destruct post; [|done]. exists (pre ++ []). simpl.
    split; [by rewrite insert_id|]. by intros rows [= <-].
  - destruct post as [|p post]; [done|]. simpl in Hpost.
    simpl. unfold bind at 1, lift. fold (sample_at self vlog i).
    destruct (sample_at self vlog i) as [kt|e] eqn:Hkt; simpl.
    + unfold bind at 1.
      rewrite (store_row_eval _ _ _ _ _ Hh).
      assert (Hins : <[i := kt]> (pre ++ p :: post) = (pre ++ [kt]) ++ post).
      { rewrite insert_app_r_alt by lia.
        replace (i - length pre)%nat with 0%nat by lia. simpl.
        by rewrite <- app_assoc. }
      rewrite Hins.
      destruct (IH (S i) (<[hv := IntArray2 ((pre ++ [kt]) ++ post)]> h)
                  (pre ++ [kt]) post) as (arr & Heq & Harr).
      { apply lookup_insert_eq. }
      { rewrite length_app. simpl. lia. }
      { lia. }
      rewrite Heq, insert_insert_eq.
      exists arr. split; [by destruct (loop_rows self vlog (S i) n)|].
      intros rows Hrows.
      destruct (loop_rows self vlog (S i) n) as [rest|]; [|done].
      simpl in Hrows. injection Hrows as <-.
      rewrite (Harr rest eq_refl). by rewrite <- app_assoc.
    + exists (pre ++ p :: post). split; [by rewrite insert_id|]. done.
Qed.

Lemma minhash_float32_spec self (h : heap) v xs :
  h !! v = Some (Ndarray1 Float32 xs) ->
  exists r h',
    minhash_float32 self v h = (r, h') /\
    (forall l', l' <> v -> is_Some (h !! l') -> h' !! l' = h !! l') /\
    if sample_size self <? 0
    then r = Raise ValueError_negative_dimensions /\ h' !! v = h !! v
    else if forallb Float.is_zero xs
    then r = Raise ValueError_all_zeros /\ h' !! v = h !! v
    else
      h' !! v = Some (Ndarray1 Float32 (subst_zeros xs)) /\
      match minhash_rows self xs with
      | Ok rows =>
          exists hv,
            r = Ok {| WeightedMinHash.seed := seed self;
                      WeightedMinHash.hashvalues := hv |} /\
            h !! hv = None /\ h' !! hv = Some (IntArray2 rows)
      | Raise e => r = Raise e
      end.
Proof.
  intros Hv. unfold minhash_float32, np_zeros2, bind at 1.
  destruct (sample_size self <? 0) eqn:Hneg.
  { eexists _, _. split; [done|]. done. }
  unfold alloc. set (hv := fresh (dom h)).
  set (h1 := <[hv := IntArray2 (replicate (Z.to_nat (sample_size self)) [0; 0])]> h).
  assert (Hne : hv <> v) by (apply fresh_ne; eauto).
  assert (Hhv : h !! hv = None) by apply fresh_lookup.
  assert (H1v : h1 !! v = Some (Ndarray1 Float32 xs)).
  { unfold h1. by rewrite lookup_insert_ne. }
  unfold bind at 1, load. rewrite H1v.
  destruct (forallb Float.is_zero xs) eqn:Hz.
  { eexists _, _. split; [done|]. split.
    - intros l' _ Hl'. unfold h1. rewrite lookup_insert_ne; [done|].
      intros <-. rewrite Hhv in Hl'. by destruct Hl'.
    - by rewrite H1v. }
  fold (subst_zeros xs). unfold bind at 1, store.
  set (h2 := <[v := Ndarray1 Float32 (subst_zeros xs)]> h1).
  destruct (minhash_loop_eval self hv (map log32 (subst_zeros xs))
              (Z.to_nat (sample_size self)) 0%nat h2 []
              (replicate (Z.to_nat (sample_size self)) [0; 0]))
    as (arr & Heq & Harr).
  { unfold h2, h1. rewrite lookup_insert_ne by done. apply lookup_insert_eq. }
  { done. }
  { apply length_replicate. }
  unfold bind. rewrite Heq. fold (minhash_rows self xs) in *.
  exists (rbind (minhash_rows self xs)
            (fun _ => Ok {| WeightedMinHash.seed := seed self;
                            WeightedMinHash.hashvalues := hv |})),
         (<[hv := IntArray2 arr]> h2).
  split.
  { by destruct (minhash_rows self xs). }
  split.
  { intros l' Hl'v Hl'. 
    assert (l' <> hv).
    { intros ->. rewrite Hhv in Hl'. by destruct Hl'. }
    unfold h2, h1. by rewrite !lookup_insert_ne. }
  split.
  { unfold h2. rewrite lookup_insert_ne by done. apply lookup_insert_eq. }
  destruct (minhash_rows self xs) as [rows|e]; [|done].
  exists hv. split; [done|]. split; [done|].
  rewrite (Harr rows eq_refl). apply lookup_insert_eq.
Qed.

Lemma minhash_alloc_spec self (h : heap) v xs :
  in_place h v = None ->
  exists r h',
    (let* v' := alloc (Ndarray1 Float32 xs) in minhash_float32 self v') h
      = (r, h') /\
    minhash_post self h v xs r h'.
Proof.
  intros Hip. unfold bind at 1, alloc.
  set (a := fresh (dom h)). set (ha := <[a := Ndarray1 Float32 xs]> h).
  destruct (minhash_float32_spec self ha a xs) as (r & h' & Heq & Hfr & Hres).
  { apply lookup_insert_eq. }
  exists r, h'. split; [done|]. unfold minhash_post.
  assert (Hold : forall l', is_Some (h !! l') -> l' <> a /\ ha !! l' = h !! l').
  { intros l' Hl'. assert (a <> l') by by apply fresh_ne.
    split; [done|]. unfold ha. by rewrite lookup_insert_ne. }
  split.
  { intros l' _ Hl'. destruct (Hold l' Hl') as [Hne Hsame].
    rewrite <- Hsame. apply Hfr; [done|]. by rewrite Hsame. }
  destruct (sample_size self <? 0); [tauto|].
  destruct (forallb Float.is_zero xs); [tauto|].
  destruct Hres as [_ Hres]. split; [by rewrite Hip|].
  destruct (minhash_rows self xs) as [rows|e]; [|done].
  destruct Hres as (hv & -> & Hnone & Hsome).
  exists hv. split; [done|]. split; [|done].
  destruct (decide (hv = a)) as [->|Hne].
  - unfold ha in Hnone. by rewrite lookup_insert_eq in Hnone.
  - unfold ha in Hnone. by rewrite lookup_insert_ne in Hnone.
Qed.

Lemma minhash_spec self (h : heap) v xs :
  as_float32 h v = Some xs ->
  Z.of_nat (length xs) = dim self ->
  exists r h', minhash self v h = (r, h') /\ minhash_post self h v xs r h'.
Proof.
  intros Hxs Hlen. destruct v as [ys|l|x]; simpl in Hxs; [| |done].
  - injection Hxs as <-. unfold minhash.
    unfold cast32 in Hlen. rewrite length_map in Hlen.
    rewrite Hlen, Z.eqb_refl. simpl.
    by apply (minhash_alloc_spec self h (PySeq ys)).
  - unfold minhash, bind at 1, load.
    destruct (h !! l) as [[[] ys| | | |]|] eqn:Hl; try done.
    + injection Hxs as ->. rewrite Hlen, Z.eqb_refl. simpl.
      destruct (minhash_float32_spec self h l xs Hl)
        as (r & h' & Heq & Hfr & Hres).
      exists r, h'. split; [done|]. unfold minhash_post. simpl. rewrite Hl.
      split.
      { intros l' Hne Hl'. apply Hfr; [congruence | done]. }
      destruct (sample_size self <? 0); [tauto|].
      destruct (forallb Float.is_zero xs); [tauto|].
      destruct Hres as [Hv Hres]. split; [|done].
      by intros ? [= <-].
    + injection Hxs as <-.
      unfold cast32 in Hlen. rewrite length_map in Hlen.
      rewrite Hlen, Z.eqb_refl. simpl.
      apply (minhash_alloc_spec self h (PyRef l)). simpl. by rewrite Hl.
Qed.

Lemma minhash_ok_inv self (h : heap) v s h' :
  minhash self v h = (Ok s, h') ->
  exists xs, as_float32 h v = Some xs /\ Z.of_nat (length xs) = dim self.
Proof.
  destruct v as [ys|l|x]; simpl; [| |done].
  - destruct (Z.eqb_spec (Z.of_nat (length ys)) (dim self)) as [He|He];
      simpl; [|done].
    intros _. exists (cast32 ys). split; [done|].
    unfold cast32. by rewrite length_map.
  - unfold bind at 1, load.
    destruct (h !! l) as [[dt ys| | | |]|] eqn:Hl; try done.
    destruct (Z.eqb_spec (Z.of_nat (length ys)) (dim self)) as [He|He];
      simpl; [|done].
    intros _. destruct dt; eexists; (split; [done|]); [done|].
    unfold cast32. by rewrite length_map.
Qed.

Lemma is_zero_nan_subst x :
  Float.is_zero (if Float.is_zero x then Float.nan else x) = false.
Proof. by destruct (Float.is_zero x) eqn:Hx. Qed.

Lemma subst_zeros_idem xs : subst_zeros (subst_zeros xs) = subst_zeros xs.
Proof.
  unfold subst_zeros. rewrite map_map. apply map_ext. intros x.
  by rewrite is_zero_nan_subst.
Qed.

Lemma subst_zeros_not_all_zero xs :
  forallb Float.is_zero xs = false ->
  forallb Float.is_zero (subst_zeros xs) = false.
Proof.
  destruct xs as [|x xs]; [done|]. intros _. simpl.
  by rewrite is_zero_nan_subst.
Qed.

Lemma subst_zeros_changes xs :
  existsb Float.is_zero xs = true -> subst_zeros xs <> xs.
Proof.
  induction xs as [|x xs IH]; simpl; [done|].
  destruct (Float.is_zero x) eqn:Hx; simpl.
  - intros _ [= Hnan _]. rewrite <- Hnan in Hx. done.
  - intros Hex [= Heq]. by apply IH.
Qed.

Lemma minhash_rows_subst self xs :
  minhash_rows self (subst_zeros xs) = minhash_rows self xs.
Proof. unfold minhash_rows. by rewrite subst_zeros_idem. Qed.

Lemma loop_rows_length self vlog n :
  forall i rows, loop_rows self vlog i n = Ok rows -> length rows = n.
Proof.
  induction n as [|n IH]; intros i rows; simpl.
  - by intros [= <-].
  - destruct (sample_at self vlog i) as [kt|]; simpl; [|done].
    destruct (loop_rows self vlog (S i) n) as [rest|] eqn:Hrest;
      simpl; [|done].
    intros [= <-]. simpl. by rewrite (IH _ _ Hrest).
Qed.

(** C2 (the code at the failing input). When [v] is a float32 numpy
    array of length [dim] that is not all zero, [minhash] works on the
    caller's array itself: after the call the array holds NaN
    wherever it held zero, so an array with a zero entry has been
    changed. *)
Theorem minhash_mutates_float32_input self (h : heap) l xs :
  0 <= sample_size self ->
  h !! l = Some (Ndarray1 Float32 xs) ->
  Z.of_nat (length xs) = dim self ->
  forallb Float.is_zero xs = false ->
  snd (minhash self (PyRef l) h) !! l
    = Some (Ndarray1 Float32 (subst_zeros xs)) /\
  (existsb Float.is_zero xs = true ->
   snd (minhash self (PyRef l) h) !! l <> h !! l).
Proof.
  intros Hss Hl Hlen Hz.
  destruct (minhash_spec self h (PyRef l) xs) as (r & h' & Heq & _ & Hpost).
  { simpl. by rewrite Hl. }
  { done. }
  rewrite Heq. simpl.
  replace (sample_size self <? 0) with false in Hpost by (symmetry; lia).
  rewrite Hz in Hpost. destruct Hpost as [Hin _].
  assert (Hl' : h' !! l = Some (Ndarray1 Float32 (subst_zeros xs))).
  { apply Hin. simpl. by rewrite Hl. }
  split; [done|]. intros Hex. rewrite Hl', Hl. intros [= Heq'].
  by apply (subst_zeros_changes xs).
Qed.

(** The sibling paths: a Python sequence and an array of another dtype
    are converted into a new array, and no object of the caller is
    written to. *)
Lemma minhash_keeps_other_objects self (h : heap) v l' :
  in_place h v <> Some l' -> is_Some (h !! l') ->
  snd (minhash self v h) !! l' = h !! l'.
Proof.
  intros Hip Hl'.
  destruct (as_float32 h v) as [xs|] eqn:Hxs.
  - destruct (Z.eq_dec (Z.of_nat (length xs)) (dim self)) as [Hlen|Hlen].
    + destruct (minhash_spec self h v xs Hxs Hlen) as (r & h' & Heq & Hfr & _).
      rewrite Heq. by apply Hfr.
    + destruct v as [ys|l|x]; simpl in *; [| |done].
      * injection Hxs as <-. unfold cast32 in Hlen.
        rewrite length_map in Hlen.
        by destruct (Z.eqb_spec (Z.of_nat (length ys)) (dim self)).
      * unfold bind, load.
        destruct (h !! l) as [[[] ys| | | |]|] eqn:Hl; try done.
        -- injection Hxs as ->.
           by destruct (Z.eqb_spec (Z.of_nat (length xs)) (dim self)).
        -- injection Hxs as <-. unfold cast32 in Hlen.
           rewrite length_map in Hlen.
           by destruct (Z.eqb_spec (Z.of_nat (length ys)) (dim self)).
  - destruct v as [ys|l|x]; simpl in *; [done| |done].
    unfold bind, load.
    by destruct (h !! l) as [[[] ys| | | |]|] eqn:Hl.
Qed.

(** C7 (amended). For a generator with [sample_size > 0] and a vector
    [v] from which [minhash] returns a sketch, a second call
    [minhash(v)] returns a sketch as well, the two sketches are equal
    ([__eq__] is true, the arrays hold the same rows) and their
    [jaccard] is 1. *)
Theorem minhash_twice self (h : heap) v s1 h1 :
  0 < sample_size self ->
  minhash self v h = (Ok s1, h1) ->
  exists s2 h2 rows,
    minhash self v h1 = (Ok s2, h2) /\
    h2 !! WeightedMinHash.hashvalues s1 = Some (IntArray2 rows) /\
    h2 !! WeightedMinHash.hashvalues s2 = Some (IntArray2 rows) /\
    fst (WeightedMinHash.__eq__ s1 s2 h2) = Ok true /\
    exists q : Q, fst (WeightedMinHash.jaccard s1 s2 h2) = Ok q /\ (q == 1)%Q.
Proof.
  intros Hss H1.
  destruct (minhash_ok_inv _ _ _ _ _ H1) as (xs & Hxs & Hlen).
  destruct (minhash_spec self h v xs Hxs Hlen) as (r & h1' & Heq & Hfr & Hpost).
  rewrite H1 in Heq. injection Heq as <- <-.
  replace (sample_size self <? 0) with false in Hpost by (symmetry; lia).
  destruct (forallb Float.is_zero xs) eqn:Hz; [done|].
  destruct Hpost as [Hin Hres].
  destruct (minhash_rows self xs) as [rows|e] eqn:Hrows; [|done].
  destruct Hres as (hv1 & [= ->] & Hnone1 & Hsome1). simpl.
  (* the second call works on the same values, up to the NaN already
     substituted *)
  assert (Hxs2 : exists xs2, as_float32 h1 v = Some xs2 /\
                   length xs2 = length xs /\
                   forallb Float.is_zero xs2 = false /\
                   minhash_rows self xs2 = Ok rows).
  { destruct v as [ys|l|x]; simpl in Hxs |- *; [| |done].
    - exists xs. by injection Hxs as <-.
    - destruct (h !! l) as [[[] ys| | | |]|] eqn:Hl; try done.
      + injection Hxs as ->.
        rewrite (Hin l) by (simpl; by rewrite Hl).
        exists (subst_zeros xs). split; [done|].
        split; [unfold subst_zeros; by rewrite length_map|].
        split; [by apply subst_zeros_not_all_zero|].
        by rewrite minhash_rows_subst.
      + injection Hxs as <-.
        rewrite (Hfr l); [|simpl; by rewrite Hl | by rewrite Hl].
        rewrite Hl. by exists (cast32 ys). }
  destruct Hxs2 as (xs2 & Hxs2 & Hlen2 & Hz2 & Hrows2).
  destruct (minhash_spec self h1 v xs2 Hxs2) as (r2 & h2 & Heq2 & Hfr2 & Hpost2).
  { by rewrite Hlen2. }
  replace (sample_size self <? 0) with false in Hpost2 by (symmetry; lia).
  rewrite Hz2, Hrows2 in Hpost2. destruct Hpost2 as [_ (hv2 & -> & Hnone2 & Hsome2)].
  assert (Hkeep : h2 !! hv1 = Some (IntArray2 rows)).
  { rewrite <- Hsome1. apply Hfr2; [|by rewrite Hsome1].
    intros Hip. destruct v as [ys|l|x]; simpl in Hip; try done.
    destruct (h1 !! l) as [[[] ys| | | |]|] eqn:Hl; try done.
    injection Hip as ->. rewrite Hsome1 in Hl. done. }
  set (s1 := {| WeightedMinHash.seed := seed self;
                WeightedMinHash.hashvalues := hv1 |}).
  set (s2 := {| WeightedMinHash.seed := seed self;
                WeightedMinHash.hashvalues := hv2 |}).
  exists s2, h2, rows. split; [done|]. split; [done|]. split; [done|].
  split.
  { rewrite (eq_eval h2 s1 s2 rows rows) by done. simpl.
    rewrite Z.eqb_refl. simpl. by rewrite bool_decide_eq_true_2. }
  rewrite (jaccard_eval h2 s1 s2 rows rows) by done. simpl.
  rewrite Z.eqb_refl, Nat.eqb_refl. simpl.
  pose proof (loop_rows_length _ _ _ _ _ Hrows) as Hlr.
  destruct (length rows) as [|n] eqn:Hn; [lia|].
  eexists. split; [done|].
  rewrite intersection_refl, Hn. unfold Qeq.
  cbn [Qnum Qden]. rewrite pos_of_nat_Z by lia. lia.
Qed.
End MinhashProperties.

(** ** WeightedMinHashGenerator.minhash_many: the caller's objects *)

Section ManyFrame.
Context `{RandomStateModel} `{Libm}.
Import WeightedMinHashGenerator.

Lemma frame_ret {A} (a : A) : frame (ret a).
Proof. intros h. apply preserves_refl. Qed.

Lemma frame_raise {A} e : frame (raise (A := A) e).
Proof. intros h. apply preserves_refl. Qed.

Lemma frame_lift {A} (r : result A) : frame (lift r).
Proof. intros h. apply preserves_refl. Qed.

Lemma frame_load l : frame (load l).
Proof. intros h. unfold load. destruct (h !! l); apply preserves_refl. Qed.

Lemma frame_bind {A B} (m : M A) (k : A -> M B) :
  frame m -> (forall a, frame (k a)) -> frame (bind m k).
Proof.
  intros Hm Hk h. unfold bind. specialize (Hm h).
  destruct (m h) as [[a|e] h1]; simpl in *; [|done].
  eapply preserves_trans; [exact Hm | apply Hk].
Qed.

(** A new object and its initialisation. *)
Lemma frame_alloc_store {A} o (f : loc -> pyobj) (k : loc -> M A) :
  (forall l, frame (k l)) ->
  frame (let* l := alloc o in let* _ := store l (f l) in k l).
Proof.
  intros Hk h. unfold bind, alloc, store. rewrite insert_insert_eq.
  eapply preserves_trans; [apply preserves_alloc | apply Hk].
Qed.

Lemma frame_many_doc self cidx t ln_a b e :
  frame (many_doc self cidx t ln_a b e).
Proof.
  intros h. unfold many_doc, bind, lift, np_zeros2, alloc, store, raise, ret.
  destruct (rmap np_argmin _) as [doc_argmin|]; simpl;
    [|apply preserves_refl].
  destruct (rmap _ doc_argmin) as [doc_k|]; simpl; [|apply preserves_refl].
  destruct (sample_size self <? 0); simpl; [apply preserves_refl|].
  destruct (rmap _ (zip t doc_argmin)) as [doc_t|]; simpl;
    [rewrite insert_insert_eq|]; apply preserves_alloc.
Qed.

Lemma frame_many_loop self cidx t ln_a rowends :
  forall doc_begin, frame (many_loop self cidx t ln_a doc_begin rowends).
Proof.
  induction rowends as [|doc_end rowends IH]; intros doc_begin; simpl.
  - apply frame_ret.
  - apply frame_bind.
    + destruct (doc_begin =? doc_end)%nat; [apply frame_ret|].
      apply frame_bind; [apply frame_many_doc|]. intros. apply frame_ret.
    + intros hv. apply frame_bind; [apply IH|]. intros. apply frame_ret.
Qed.

Lemma frame_minhash_many_csr self X0 : frame (minhash_many_csr self X0).
Proof.
  unfold minhash_many_csr.
  apply (frame_alloc_store (CsrMatrix X0)
           (fun _ => CsrMatrix (sort_indices X0))).
  intros X. apply frame_bind; [apply frame_load|]. intros [| | |Xs|];
    try apply frame_raise.
  unfold minhash_many_sorted.
  apply frame_bind; [apply frame_lift|]. intros rs_cidx.
  apply frame_bind; [apply frame_lift|]. intros betas_cidx.
  apply frame_bind; [apply frame_lift|]. intros ln_cs_cidx.
  apply frame_bind; [apply frame_lift|]. intros log_data.
  apply frame_bind; [apply frame_many_loop|]. intros. apply frame_ret.
Qed.

(** C10. Whatever [minhash_many] is given, every object of the
    store is after the call as it was before: the caller's matrix,
    dense or sparse, keeps its values and its structure (the copy is
    what is sorted and read). *)
Theorem minhash_many_frame self X (h : heap) l0 o :
  h !! l0 = Some o -> snd (minhash_many self X h) !! l0 = Some o.
Proof.
  intros Hl. rewrite <- Hl.
  cut (frame (minhash_many self X)); [intros Hf; apply Hf; eauto|].
  destruct X as [xs|l|x]; simpl; try apply frame_raise.
  apply frame_bind; [apply frame_load|].
  intros [dt xs|ncols rows| |X0|]; try apply frame_raise.
  - destruct (negb _); [apply frame_raise | apply frame_minhash_many_csr].
  - destruct (negb _); [apply frame_raise | apply frame_minhash_many_csr].
Qed.
End ManyFrame.

(** ** WeightedMinHashGenerator.minhash: the dimension selected *)

Section MinhashSelection.
Context `{RandomStateModel} `{LibmLaws}.
Import WeightedMinHashGenerator.

Lemma positive_cases x :
  Float.is_nan x = false -> Float.is_zero x = false ->
  Float.ltb x Float.zero = false -> Float.is_pos x = true.
Proof. by destruct x as [[]|[]| |[] m e]. Qed.

Lemma sample_single_selects vlog rs_i betas_i ln_cs_i row :
  sample_single vlog rs_i betas_i ln_cs_i = Ok row ->
  exists k tz x, row = [Z.of_nat k; tz] /\ vlog !! k = Some x /\
                 Float.is_nan x = false.
Proof.
  unfold sample_single.
  destruct (np_nanargmin _) as [k|]; simpl; [|done].
  rewrite nth_lookup.
  destruct (t_single vlog rs_i betas_i !! k) as [tv|] eqn:Htv; simpl;
    [|done].
  unfold t_single, zip_with3 in Htv.
  apply lookup_zip_with_Some in Htv as (x & [r b] & -> & Hx & _).
  simpl. destruct (Float.is_nan x) eqn:Hnan.
  { destruct x; try done. }
  destruct (py_int _) as [tk|]; simpl; [|done].
  destruct (to_int64 tk) as [tk64|]; simpl; [|done].
  intros [= <-]. eauto 10.
Qed.

Lemma sample_at_selects self xs i kt :
  sample_at self (map log32 (subst_zeros xs)) i = Ok kt ->
  exists k tz x, kt = [Z.of_nat k; tz] /\
                 xs !! k = Some x /\ Float.is_pos x = true.
Proof.
  unfold sample_at.
  destruct (row (rs self) i) as [rs_i|]; simpl; [|done].
  destruct (row (betas self) i) as [betas_i|]; simpl; [|done].
  destruct (row (ln_cs self) i) as [ln_cs_i|]; simpl; [|done].
  intros Hrow.
  apply sample_single_selects in Hrow as (k & tz & v & -> & Hv & Hnan).
  rewrite list_lookup_fmap in Hv. unfold subst_zeros in Hv.
  rewrite list_lookup_fmap in Hv.
  destruct (xs !! k) as [x|] eqn:Hx; simpl in Hv; [|done].
  injection Hv as <-. exists k, tz, x. split; [done|]. split; [done|].
  destruct (Float.is_zero x) eqn:Hz.
  { by rewrite log32_nan in Hnan. }
  destruct (Float.ltb x Float.zero) eqn:Hneg.
  { by rewrite (log32_neg x Hneg) in Hnan. }
  apply positive_cases; [|done|done].
  destruct x; try done. by rewrite log32_nan in Hnan.
Qed.

Lemma loop_rows_selects self xs n :
  forall i rows,
    loop_rows self (map log32 (subst_zeros xs)) i n = Ok rows ->
    selects_positive xs rows.
Proof.
  induction n as [|n IH]; intros i rows; simpl.
  - intros [= <-]. constructor.
  - destruct (sample_at _ _ i) as [kt|] eqn:Hkt; simpl; [|done].
    destruct (loop_rows _ _ (S i) n) as [rest|] eqn:Hrest; simpl; [|done].
    intros [= <-]. constructor.
    + by apply (sample_at_selects self xs i).
    + by apply (IH (S i)).
Qed.

Lemma minhash_rows_select self xs rows :
  minhash_rows self xs = Ok rows ->
  length rows = Z.to_nat (sample_size self) /\ selects_positive xs rows.
Proof.
  unfold minhash_rows. intros Hr. split.
  - by apply loop_rows_length in Hr.
  - by apply loop_rows_selects in Hr.
Qed.
End MinhashSelection.

(** ** WeightedMinHashGenerator.minhash_many on a matrix with an
    explicitly stored zero *)

Section ManyEvaluation.
Context `{RandomStateModel} `{Libm}.
Import WeightedMinHashGenerator.

Lemma rmap_map {A B} (f : A -> result B) (g : A -> B) (l : list A) :
  Forall (fun x => f x = Ok (g x)) l -> rmap f l = Ok (map g l).
Proof.
  induction 1 as [|x l Hx Hl IH]; simpl; [done|]. by rewrite Hx, IH.
Qed.

Lemma gather_shape (m : list (list f32)) nr nc cidx :
  has_shape m nr nc -> Forall (fun c => (c < nc)%nat) cidx ->
  exists g, gather m cidx = Ok g /\ has_shape g nr (length cidx).
Proof.
  intros [Hlen Hrows] Hc. unfold gather.
  exists (map (fun r => map (fun c => nth c r Float.nan) cidx) m). split.
  - apply rmap_map. eapply Forall_impl; [exact Hrows|].
    intros r Hr. simpl. apply rmap_map.
    eapply Forall_impl; [exact Hc|]. intros c Hlt. simpl.
    destruct (r !! c) as [x|] eqn:Hx.
    + by rewrite (nth_lookup_Some _ _ _ _ Hx).
    + apply lookup_ge_None in Hx. simpl in *. lia.
  - split; [by rewrite length_map|].
    apply Forall_map, Forall_forall. intros r _. simpl. by rewrite length_map.
Qed.

Lemma zip_with3_shape {A B C D} (f : A -> B -> C -> D) a b c n :
  length a = n -> length b = n -> length c = n ->
  length (zip_with3 f a b c) = n.
Proof.
  intros Ha Hb Hc. unfold zip_with3.
  rewrite length_zip_with, length_zip. lia.
Qed.

Lemma zip_with3_rows (f : f32 -> f32 -> f32 -> f32) a b c nr nc :
  has_shape a nr nc -> has_shape b nr nc -> has_shape c nr nc ->
  has_shape (zip_with3 (zip_with3 f) a b c) nr nc.
Proof.
  intros [Ha Hfa] [Hb Hfb] [Hc Hfc]. split; [by apply zip_with3_shape|].
  clear Ha Hb Hc. revert b c Hfb Hfc.
  induction Hfa as [|x a Hx Hfa IH]; intros b c Hfb Hfc; [constructor|].
  destruct Hfb as [|y b Hy Hfb]; [constructor|].
  destruct Hfc as [|z c Hz Hfc]; [constructor|].
  unfold zip_with3 in *. simpl. constructor.
  - rewrite length_zip_with, length_zip. lia.
  - by apply IH.
Qed.

Lemma zip_with_rows (f : f32 -> f32 -> f32) a b nr nc :
  has_shape a nr nc -> has_shape b nr nc ->
  has_shape (zip_with (zip_with f) a b) nr nc.
Proof.
  intros [Ha Hfa] [Hb Hfb]. split; [rewrite length_zip_with; lia|].
  clear Ha Hb. revert b Hfb.
  induction Hfa as [|x a Hx Hfa IH]; intros b Hfb; [constructor|].
  destruct Hfb as [|y b Hy Hfb]; [constructor|].
  simpl. constructor; [rewrite length_zip_with; lia | by apply IH].
Qed.

Lemma slice_single {A} (l : list A) b e x :
  l !! b = Some x -> (b < e)%nat -> (e = S b \/ length l = S b) ->
  slice l b e = [x].
Proof.
  intros Hx Hbe Hw. unfold slice. rewrite (drop_S _ _ _ Hx).
  destruct (e - b)%nat as [|w] eqn:Hd; [lia|]. simpl. f_equal.
  destruct Hw as [->|Hlen].
  - by replace w with 0%nat by lia.
  - rewrite drop_ge by lia. by destruct w.
Qed.

Lemma zip_with_map_const {A B C D} (F : B -> C -> D) (c : B)
    (l1 : list A) (l2 : list C) (P : D -> Prop) :
  (forall x, P (F c x)) -> Forall P (zip_with F (map (fun _ => c) l1) l2).
Proof.
  intros HP. revert l2. induction l1 as [|a l1 IH]; intros [|x l2]; simpl;
    constructor; auto.
Qed.

(** A document whose slice of candidates holds the single column [c]:
    every sample selects [c], whatever the values of [ln_a]. *)
Lemma many_doc_single self cidx t ln_a b e c (h : heap) nc :
  0 <= sample_size self ->
  has_shape t (Z.to_nat (sample_size self)) nc ->
  has_shape ln_a (Z.to_nat (sample_size self)) nc ->
  length cidx = nc -> cidx !! b = Some c ->
  (b < e)%nat -> (e = S b \/ nc = S b) ->
  exists rows,
    many_doc self cidx t ln_a b e h =
      (Ok (fresh (dom h)), <[fresh (dom h) := IntArray2 rows]> h) /\
    length rows = Z.to_nat (sample_size self) /\
    Forall (fun row => exists tz, row = [Z.of_nat c; tz]) rows.
Proof.
  intros Hss [Htl Htr] [Hal Har] Hcl Hc Hbe Hw.
  assert (Hb : (b < nc)%nat).
  { rewrite <- Hcl. by apply lookup_lt_Some in Hc. }
  unfold many_doc.
  rewrite (slice_single cidx b e c Hc Hbe) by (rewrite Hcl; done).
  assert (Hargmin : rmap np_argmin (map (fun r => slice r b e) ln_a)
                    = Ok (map (fun _ => 0%nat) (map (fun r => slice r b e) ln_a))).
  { apply rmap_map, Forall_map. eapply Forall_impl; [exact Har|].
    intros r Hr. simpl in *.
    destruct (lookup_lt_is_Some_2 r b) as [a Ha]; [lia|].
    rewrite (slice_single r b e a Ha Hbe) by (rewrite Hr; done). done. }
  unfold bind at 1, lift. rewrite Hargmin. rewrite map_map.
  set (doc_argmin := map (fun _ => 0%nat) ln_a).
  assert (Hdk : rmap (fun a => match [c] !! a with
                               | Some c0 => Ok c0
                               | None => Raise IndexError
                               end) doc_argmin
                = Ok (map (fun _ => c) doc_argmin)).
  { apply rmap_map. unfold doc_argmin. apply Forall_map.
    by apply Forall_forall. }
  unfold bind at 1. rewrite Hdk.
  unfold np_zeros2. replace (sample_size self <? 0) with false
    by (symmetry; lia).
  unfold bind at 1, alloc. set (hv := fresh (dom h)).
  assert (Hdt : rmap (fun ra : list f32 * nat =>
                        match fst ra !! (b + snd ra)%nat with
                        | Some x => Ok x
                        | None => Raise IndexError
                        end) (zip t doc_argmin)
                = Ok (map (fun ra => nth b (fst ra) Float.nan)
                        (zip t doc_argmin))).
  { apply rmap_map. apply Forall_forall. intros [r a] Hin. simpl.
    apply elem_of_zip_l in Hin as Hr. apply elem_of_zip_r in Hin as Ha.
    unfold doc_argmin in Ha. apply list_elem_of_fmap in Ha as (? & -> & _).
    rewrite Nat.add_0_r.
    rewrite Forall_forall in Htr. specialize (Htr r Hr).
    destruct (lookup_lt_is_Some_2 r b) as [y Hy]; [lia|].
    by rewrite Hy, (nth_lookup_Some _ _ _ _ Hy). }
  unfold bind at 1. rewrite Hdt.
  unfold bind, store, ret. rewrite insert_insert_eq.
  eexists. split; [done|]. split.
  - rewrite length_zip_with, !length_map, length_zip.
    unfold doc_argmin. rewrite length_map. lia.
  - apply zip_with_map_const. eauto.
Qed.

Lemma replicate_shape (x : list f32) n :
  has_shape (replicate n x) n (length x).
Proof.
  split; [apply length_replicate|]. apply Forall_forall.
  intros y Hy. by apply elem_of_replicate in Hy as [-> _].
Qed.

Lemma minhash_many_entry self (h : heap) l X0 :
  h !! l = Some (CsrMatrix X0) -> Z.of_nat (shape1 X0) = dim self ->
  minhash_many self (PyRef l) h = minhash_many_csr self X0 h.
Proof.
  intros Hl Hd. unfold minhash_many, bind, load. rewrite Hl, Hd.
  by rewrite Z.eqb_refl.
Qed.

Lemma minhash_many_csr_eval self X0 (h : heap) :
  minhash_many_csr self X0 h =
  minhash_many_sorted self (sort_indices X0)
    (<[fresh (dom h) := CsrMatrix (sort_indices X0)]> h).
Proof.
  unfold minhash_many_csr, bind, alloc, store, load.
  by rewrite insert_insert_eq, lookup_insert_eq.
Qed.

(** [X_explicit_zero] is a CSR matrix as scipy accepts them. *)
Lemma X_explicit_zero_wf : wf_csr X_explicit_zero.
Proof.
  unfold wf_csr. simpl. repeat split; try done.
  - intros [|[|[|[|i]]]] a b; simpl; intros [= <-] [= <-]; lia.
  - repeat constructor.
Qed.

Lemma minhash_many_explicit_zero self (h : heap) l :
  wf self -> dim self = 2 -> 0 < sample_size self ->
  h !! l = Some (CsrMatrix X_explicit_zero) ->
  exists hv0 hv1 hv2 h' r0 r1 r2,
    minhash_many self (PyRef l) h =
      (Ok [Some (sketch_of self hv0); Some (sketch_of self hv1);
           Some (sketch_of self hv2)], h') /\
    h !! hv0 = None /\ h !! hv1 = None /\ h !! hv2 = None /\
    h' !! hv0 = Some (IntArray2 r0) /\
    h' !! hv1 = Some (IntArray2 r1) /\
    h' !! hv2 = Some (IntArray2 r2) /\
    length r0 = Z.to_nat (sample_size self) /\
    length r1 = Z.to_nat (sample_size self) /\
    length r2 = Z.to_nat (sample_size self) /\
    selects 1 r0 /\ selects 0 r1 /\ selects 1 r2.
Proof.
  intros (Hd & Hs & Hrs & Hcs & Hbs) Hdim Hss Hl.
  rewrite Hdim in Hrs, Hcs, Hbs. change (Z.to_nat 2) with 2%nat in *.
  rewrite (minhash_many_entry self h l X_explicit_zero Hl)
    by (by rewrite Hdim).
  rewrite minhash_many_csr_eval.
  set (lx := fresh (dom h)).
  set (h1 := <[lx := CsrMatrix (sort_indices X_explicit_zero)]> h).
  unfold minhash_many_sorted.
  assert (Hsort : sort_indices X_explicit_zero = X_explicit_zero)
    by reflexivity.
  assert (Hnz : nonzero X_explicit_zero = [(1, 1); (2, 0); (2, 1)]%nat)
    by reflexivity.
  rewrite Hsort, Hnz. simpl map at 1 2 3. simpl take.
  assert (Hcidx : Forall (fun c => (c < 2)%nat) [1; 0; 1]%nat)
    by (repeat constructor).
  destruct (gather_shape _ _ _ _ Hrs Hcidx) as (rs_c & -> & Hrs_c).
  destruct (gather_shape _ _ _ _ Hbs Hcidx) as (betas_c & -> & Hbetas_c).
  destruct (gather_shape _ _ _ _ Hcs Hcidx) as (ln_cs_c & -> & Hln_cs_c).
  simpl length in *. unfold bind at 1, lift. unfold bind at 1.
  unfold bind at 1.
  set (log_data := map _ [(1, 1); (2, 0); (2, 1)]%nat).
  assert (Hlog : length log_data = 3%nat) by done.
  clearbody log_data.
  unfold vstack_copies. replace (sample_size self <=? 0) with false
    by (symmetry; lia).
  unfold bind at 1.
  pose proof (replicate_shape log_data (Z.to_nat (sample_size self))) as Hld.
  rewrite Hlog in Hld.
  set (t := t_many _ rs_c betas_c).
  assert (Ht : has_shape t (Z.to_nat (sample_size self)) 3)
    by (by apply zip_with3_rows).
  set (ln_a := ln_a_many t rs_c betas_c ln_cs_c).
  assert (Hln_a : has_shape ln_a (Z.to_nat (sample_size self)) 3).
  { apply zip_with_rows; [done|]. by apply zip_with3_rows. }
  clearbody t ln_a.
  (* the three documents *)
  simpl many_loop.
  destruct (many_doc_single self [1; 0; 1]%nat t ln_a 0 1 1 h1 3
              Hs Ht Hln_a eq_refl eq_refl)
    as (r0 & E0 & Hl0 & Hk0); [lia | by left |].
  set (hv0 := fresh (dom h1)) in *. set (h2 := <[hv0 := IntArray2 r0]> h1) in *.
  destruct (many_doc_single self [1; 0; 1]%nat t ln_a 1 2 0 h2 3
              Hs Ht Hln_a eq_refl eq_refl)
    as (r1 & E1 & Hl1 & Hk1); [lia | by left |].
  set (hv1 := fresh (dom h2)) in *. set (h3 := <[hv1 := IntArray2 r1]> h2) in *.
  destruct (many_doc_single self [1; 0; 1]%nat t ln_a 2 4 1 h3 3
              Hs Ht Hln_a eq_refl eq_refl)
    as (r2 & E2 & Hl2 & Hk2); [lia | by right |].
  set (hv2 := fresh (dom h3)) in *. set (h4 := <[hv2 := IntArray2 r2]> h3) in *.
  unfold bind, ret. rewrite E0, E1, E2. simpl.
  assert (Hx : h !! lx = None) by apply fresh_lookup.
  assert (H10 : h1 !! hv0 = None) by apply fresh_lookup.
  assert (H21 : h2 !! hv1 = None) by apply fresh_lookup.
  assert (H32 : h3 !! hv2 = None) by apply fresh_lookup.
  assert (N01 : hv1 <> hv0).
  { intros E. rewrite E in H21. unfold h2 in H21.
    by rewrite lookup_insert_eq in H21. }
  assert (N12 : hv2 <> hv1).
  { intros E. rewrite E in H32. unfold h3 in H32.
    by rewrite lookup_insert_eq in H32. }
  assert (N02 : hv2 <> hv0).
  { intros E. rewrite E in H32. unfold h3, h2 in H32.
    rewrite lookup_insert_ne in H32 by done.
    by rewrite lookup_insert_eq in H32. }
  assert (Nx0 : hv0 <> lx).
  { intros E. rewrite E in H10. unfold h1 in H10.
    by rewrite lookup_insert_eq in H10. }
  assert (Nx1 : hv1 <> lx).
  { intros E. rewrite E in H21. unfold h2, h1 in H21.
    rewrite lookup_insert_ne in H21 by done.
    by rewrite lookup_insert_eq in H21. }
  assert (Nx2 : hv2 <> lx).
  { intros E. rewrite E in H32. unfold h3, h2, h1 in H32.
    rewrite !lookup_insert_ne in H32 by done.
    by rewrite lookup_insert_eq in H32. }
  exists hv0, hv1, hv2, h4, r0, r1, r2.
  split; [done|].
  split. { unfold h1 in H10. by rewrite lookup_insert_ne in H10. }
  split. { unfold h2, h1 in H21. by rewrite !lookup_insert_ne in H21. }
  split. { unfold h3, h2, h1 in H32. by rewrite !lookup_insert_ne in H32. }
  split. { unfold h4, h3, h2. rewrite !lookup_insert_ne by done.
           apply lookup_insert_eq. }
  split. { unfold h4, h3. rewrite !lookup_insert_ne by done.
           apply lookup_insert_eq. }
  split. { unfold h4. apply lookup_insert_eq. }
  done.
Qed.
End ManyEvaluation.

(** ** WeightedMinHashGenerator.minhash_many on a dense matrix *)

Section DenseInput.
Context `{RandomStateModel} `{Libm}.
Import WeightedMinHashGenerator.
Local Open Scope nat_scope.

(** The entries of a dense row from column [s] on. *)
Lemma row_entries_from (r : list f32) : forall s,
  let es := List.filter nonzero_entry (imap (fun i x => (s + i, x)) r) in
  Forall (fun p => s <= fst p /\ r !! (fst p - s) = Some (snd p) /\
                   Float.is_zero (snd p) = false) es /\
  StronglySorted (fun p q => fst p < fst q) es /\
  (es = [] <-> forallb Float.is_zero r = true).
Proof.
  induction r as [|x r IH]; intros s; simpl.
  - split; [constructor|]. split; [constructor|]. done.
  - rewrite (imap_ext _ (fun i x => (S s + i, x))) by (intros; simpl; f_equal; lia).
    destruct (IH (S s)) as (HF & HS & HE).
    set (rest := List.filter nonzero_entry (imap (fun i x => (S s + i, x)) r)) in *.
    assert (HF' : Forall (fun p => s <= fst p /\
                    (x :: r) !! (fst p - s) = Some (snd p) /\
                    Float.is_zero (snd p) = false) rest).
    { eapply Forall_impl; [exact HF|]. intros [c v] (Hle & Hl & Hz). simpl in *.
      split; [lia|]. split; [|done].
      replace (c - s) with (S (c - S s)) by lia. done. }
    replace (s + 0) with s by lia.
    change (nonzero_entry (s, x)) with (negb (Float.is_zero x)).
    destruct (Float.is_zero x) eqn:Hx; simpl.
    + split; [done|]. split; [done|]. done.
    + split.
      { constructor; [|done]. simpl. split; [lia|].
        replace (s - s) with 0 by lia. done. }
      split.
      { constructor; [done|]. eapply Forall_impl; [exact HF|].
        intros [c v] (Hle & _). simpl in *. lia. }
      split; [done|done].
Qed.

Lemma row_entries_spec (r : list f32) :
  Forall (fun p => r !! fst p = Some (snd p) /\
                   Float.is_zero (snd p) = false) (row_entries r) /\
  StronglySorted (fun p q => fst p < fst q) (row_entries r) /\
  (row_entries r = [] <-> forallb Float.is_zero r = true).
Proof.
  destruct (row_entries_from r 0) as (HF & HS & HE). 
  unfold row_entries. 
  rewrite (imap_ext pair (fun i x => (0 + i, x))) by done.
  split; [|by split].
  eapply Forall_impl; [exact HF|]. intros [c v] (_ & Hl & Hz). simpl in *.
  by replace (c - 0) with c in Hl by lia.
Qed.

Lemma sort_sorted (e : list (nat * f32)) :
  StronglySorted (fun p q => fst p < fst q) e ->
  foldr insert_entry [] e = e.
Proof.
  induction 1 as [|p e HS IH HF]; simpl; [done|]. rewrite IH.
  destruct e as [|q e]; simpl; [done|].
  apply Forall_inv in HF.
  by replace (fst q <? fst p) with false by (symmetry; apply Nat.ltb_ge; lia).
Qed.

Lemma zip_concat_entries (es : list (list (nat * f32))) :
  zip (concat (map (map fst) es)) (concat (map (map snd) es)) = concat es.
Proof.
  induction es as [|e es IH]; simpl; [done|].
  rewrite zip_with_app by (by rewrite !length_map).
  rewrite IH. f_equal. by rewrite zip_fst_snd.
Qed.

Lemma segments_from (es : list (list (nat * f32))) : forall pre,
  zip_with (slice (pre ++ concat es))
    (length pre :: indptr_from (length pre) es)
    (indptr_from (length pre) es) = es.
Proof.
  induction es as [|e es IH]; intros pre; simpl; [done|]. f_equal.
  - unfold slice. rewrite drop_app_length.
    replace (length pre + length e - length pre) with (length e) by lia.
    by rewrite take_app_length.
  - specialize (IH (pre ++ e)). rewrite length_app in IH.
    rewrite <- app_assoc in IH. done.
Qed.

Lemma sort_indices_dense ncols (rows : list (list f32)) :
  sort_indices (csr_of_dense ncols rows) = csr_of_dense ncols rows.
Proof.
  unfold sort_indices, csr_of_dense. simpl.
  rewrite zip_concat_entries. unfold segments. simpl.
  pose proof (segments_from (map row_entries rows) []) as Hseg.
  simpl in Hseg. rewrite Hseg.
  assert (Hs : map (foldr insert_entry []) (map row_entries rows)
               = map row_entries rows).
  { rewrite map_map. apply map_ext. intros r. apply sort_sorted.
    apply row_entries_spec. }
  by rewrite Hs.
Qed.
Lemma argmin_loop_bound l : forall best bestv i,
  (best < i)%nat -> (argmin_loop best bestv i l < i + length l)%nat.
Proof.
  induction l as [|x l IH]; intros best bestv i Hb; simpl; [lia|].
  destruct (Float.is_nan bestv); [lia|].
  destruct (negb (SFleb bestv x)).
  - specialize (IH i x (S i)). lia.
  - specialize (IH best bestv (S i)). lia.
Qed.

Lemma np_argmin_bound l : l <> [] ->
  exists a, np_argmin l = Ok a /\ (a < length l)%nat.
Proof.
  destruct l as [|x l]; [done|]. intros _. eexists. split; [done|].
  pose proof (argmin_loop_bound l 0%nat x 1%nat). simpl. lia.
Qed.


Lemma slice_lookup {A} (l : list A) b e a :
  (a < e - b)%nat -> slice l b e !! a = l !! (b + a)%nat.
Proof.
  intros Ha. unfold slice. rewrite lookup_take_lt by done.
  by rewrite lookup_drop.
Qed.



Lemma filter_all {A} (f : A -> bool) (l : list A) :
  Forall (fun x => f x = true) l -> List.filter f l = l.
Proof. induction 1 as [|x l Hx _ IH]; simpl; [done|]. by rewrite Hx, IH. Qed.





Lemma slice_middle {A} (pre x post : list A) :
  slice (pre ++ x ++ post) (length pre) (length pre + length x) = x.
Proof.
  unfold slice. rewrite drop_app_length.
  replace (length pre + length x - length pre) with (length x) by lia.
  by rewrite take_app_length.
Qed.


Lemma indptr_from_length (es : list (list (nat * f32))) s :
  length (indptr_from s es) = length es.
Proof. revert s. induction es as [|e es IH]; intros s; simpl; [done|]. by rewrite IH. Qed.

End DenseInput.

(** ** The two transforms on a matrix with an explicitly stored zero *)

Section ExplicitZero.
Context `{RandomStateModel} `{LibmLaws}.
Import WeightedMinHashGenerator.

(** Every sketch [minhash] returns has [sample_size] pairs, and each
    records a dimension of positive weight. *)
Lemma minhash_selects_positive self (h : heap) v s h' xs :
  minhash self v h = (Ok s, h') -> as_float32 h v = Some xs ->
  exists rows,
    h' !! WeightedMinHash.hashvalues s = Some (IntArray2 rows) /\
    length rows = Z.to_nat (sample_size self) /\
    selects_positive xs rows.
Proof.
  intros Hm Hxs.
  destruct (minhash_ok_inv _ _ _ _ _ Hm) as (xs' & Hxs' & Hlen).
  rewrite Hxs in Hxs'. injection Hxs' as <-.
  destruct (minhash_spec self h v xs Hxs Hlen) as (r & h1 & Heq & _ & Hpost).
  rewrite Hm in Heq. injection Heq as <- <-.
  destruct (sample_size self <? 0); [done|].
  destruct (forallb Float.is_zero xs); [done|].
  destruct Hpost as [_ Hres].
  destruct (minhash_rows self xs) as [rows|] eqn:Hrows; [|done].
  destruct Hres as (hv & [= ->] & _ & Hsome). exists rows.
  split; [done|]. by apply minhash_rows_select.
Qed.

(** C4 (the code at the failing input). Row 0 of [X_explicit_zero]
    holds no weight other than zero (its only stored entry is an
    explicit zero), yet [minhash_many] puts a sketch, not None, at
    position 0 of its result; [minhash] on that all-zero vector
    raises "Input is all zeros". *)
Theorem explicit_zero_row_gets_sketch self (h : heap) l :
  wf self -> dim self = 2 -> 0 < sample_size self ->
  h !! l = Some (CsrMatrix X_explicit_zero) ->
  csr_row X_explicit_zero 0 = [Float.zero; Float.zero] /\
  (exists res h' s,
     minhash_many self (PyRef l) h = (Ok res, h') /\
     res !! 0%nat = Some (Some s)) /\
  forall h0 : heap,
    fst (minhash self (PySeq [zero64; zero64]) h0)
    = Raise ValueError_all_zeros.
Proof.
  intros Hwf Hdim Hss Hl. split; [reflexivity|]. split.
  - destruct (minhash_many_explicit_zero self h l Hwf Hdim Hss Hl)
      as (hv0 & hv1 & hv2 & h' & r0 & r1 & r2 & E & _).
    eexists _, h', (sketch_of self hv0). by split.
  - intros h0.
    destruct (minhash_spec self h0 (PySeq [zero64; zero64])
                [Float.zero; Float.zero])
      as (r & h1 & Heq & _ & Hpost); [done | by rewrite Hdim |].
    rewrite Heq. simpl.
    by replace (sample_size self <? 0) with false in Hpost
      by (symmetry; lia).
Qed.

(** C8 (the code at the failing input). The sketch that
    [minhash_many] returns for row 1 of [X_explicit_zero] has
    [sample_size] pairs, and every one of them records [k = 0], a
    dimension whose weight in row 1 is zero. *)
Theorem explicit_zero_selects_zero_weight self (h : heap) l :
  wf self -> dim self = 2 -> 0 < sample_size self ->
  h !! l = Some (CsrMatrix X_explicit_zero) ->
  exists res h' s rows,
    minhash_many self (PyRef l) h = (Ok res, h') /\
    res !! 1%nat = Some (Some s) /\
    h' !! WeightedMinHash.hashvalues s = Some (IntArray2 rows) /\
    length rows = Z.to_nat (sample_size self) /\
    selects 0 rows /\
    csr_row X_explicit_zero 1 !! 0%nat = Some Float.zero.
Proof.
  intros Hwf Hdim Hss Hl.
  destruct (minhash_many_explicit_zero self h l Hwf Hdim Hss Hl)
    as (hv0 & hv1 & hv2 & h' & r0 & r1 & r2 & E & _ & _ & _ & _ & Hr1 & _
        & _ & L1 & _ & _ & S1 & _).
  eexists _, h', (sketch_of self hv1), r1. by repeat split.
Qed.

(** C1 (the code at the failing input). Row 1 of [X_explicit_zero] is
    the vector (0, 1), which has a weight other than zero; the sketch
    of [minhash_many] for it is different from every sketch that
    [minhash] returns for (0, 1): the arrays differ and [__eq__] is
    false. *)
Theorem batch_differs_from_single self (h : heap) l :
  wf self -> dim self = 2 -> 0 < sample_size self ->
  h !! l = Some (CsrMatrix X_explicit_zero) ->
  exists res h' s rows,
    minhash_many self (PyRef l) h = (Ok res, h') /\
    res !! 1%nat = Some (Some s) /\
    h' !! WeightedMinHash.hashvalues s = Some (IntArray2 rows) /\
    csr_row X_explicit_zero 1 = cast32 [zero64; one64] /\
    forall s1 h1,
      minhash self (PySeq [zero64; one64]) h' = (Ok s1, h1) ->
      exists rows1,
        h1 !! WeightedMinHash.hashvalues s1 = Some (IntArray2 rows1) /\
        h1 !! WeightedMinHash.hashvalues s = Some (IntArray2 rows) /\
        rows1 <> rows /\
        fst (WeightedMinHash.__eq__ s s1 h1) = Ok false.
Proof.
  intros Hwf Hdim Hss Hl.
  destruct (minhash_many_explicit_zero self h l Hwf Hdim Hss Hl)
    as (hv0 & hv1 & hv2 & h' & r0 & r1 & r2 & E & _ & _ & _ & _ & Hr1 & _
        & _ & L1 & _ & _ & S1 & _).
  eexists _, h', (sketch_of self hv1), r1.
  split; [done|]. split; [done|]. split; [done|]. split; [reflexivity|].
  intros s1 h1 Hm.
  destruct (minhash_selects_positive self h' _ s1 h1
              (cast32 [zero64; one64]) Hm eq_refl)
    as (rows1 & Hs1 & Hlen1 & Hsel1).
  assert (Hkeep : h1 !! hv1 = Some (IntArray2 r1)).
  { rewrite <- Hr1.
    pose proof (minhash_keeps_other_objects self h'
                  (PySeq [zero64; one64]) hv1) as Hk.
    rewrite Hm in Hk. apply Hk; [done | by rewrite Hr1]. }
  assert (Hne : rows1 <> r1).
  { intros ->.
    destruct r1 as [|row r1]; [simpl in L1; lia|].
    apply Forall_inv in S1 as (tz & ->).
    apply Forall_inv in Hsel1 as (k & tz' & x & [= Hk _] & Hx & Hpos).
    assert (k = 0%nat) as -> by lia. simpl in Hx. injection Hx as <-.
    done. }
  exists rows1. split; [done|]. split; [done|]. split; [done|].
  rewrite (eq_eval h1 (sketch_of self hv1) s1 r1 rows1) by done.
  simpl. destruct (negb _); [done|].
  by rewrite bool_decide_eq_false_2.
Qed.
End ExplicitZero.

(** ** WeightedMinHash: symmetry, equality and copies *)

Section SketchAlgebra.
Context `{RandomStateModel}.
Import WeightedMinHash.

Lemma array_equal_sym x y : array_equal x y = array_equal y x.
Proof.
  unfold array_equal. destruct (decide (x = y)) as [->|Hne]; [done|].
  rewrite !bool_decide_eq_false_2; congruence.
Qed.

Lemma intersection_sym ra rb : intersection ra rb = intersection rb ra.
Proof.
  revert rb. induction ra as [|x ra IH]; intros [|y rb]; simpl; try done.
  by rewrite IH, array_equal_sym.
Qed.

Lemma intersection_full ra rb :
  length ra = length rb -> intersection ra rb = length ra -> ra = rb.
Proof.
  revert rb. induction ra as [|x ra IH]; intros [|y rb] Hlen; simpl; try done.
  simpl in Hlen. pose proof (intersection_le ra rb) as Hle.
  unfold array_equal. destruct (decide (x = y)) as [->|Hne].
  - rewrite bool_decide_eq_true_2 by done. intros Hi. f_equal.
    apply IH; lia.
  - rewrite bool_decide_eq_false_2 by done. lia.
Qed.

(** X1. [jaccard] is symmetric: [a.jaccard(b)] and [b.jaccard(a)]
    return the same value, or raise the same exception. *)
Theorem jaccard_symmetric (h : heap) a b ra rb :
  h !! hashvalues a = Some (IntArray2 ra) ->
  h !! hashvalues b = Some (IntArray2 rb) ->
  jaccard a b h = jaccard b a h.
Proof.
  intros Ha Hb.
  rewrite (jaccard_eval _ _ _ _ _ Ha Hb), (jaccard_eval _ _ _ _ _ Hb Ha).
  rewrite (Z.eqb_sym (seed a) (seed b)).
  destruct (negb (seed b =? seed a)); [done|].
  rewrite (Nat.eqb_sym (length rb) (length ra)).
  destruct (Nat.eqb_spec (length ra) (length rb)) as [Hl|Hl]; simpl; [|done].
  rewrite <- Hl, (intersection_sym rb ra). done.
Qed.

(** X2. When [a.jaccard(b)] returns a value, the value is 1 exactly
    when [a == b] is true. *)
Theorem jaccard_one_iff_eq (h : heap) a b ra rb q :
  h !! hashvalues a = Some (IntArray2 ra) ->
  h !! hashvalues b = Some (IntArray2 rb) ->
  fst (jaccard a b h) = Ok q ->
  ((q == 1)%Q <-> fst (__eq__ a b h) = Ok true).
Proof.
  intros Ha Hb. rewrite (jaccard_eval _ _ _ _ _ Ha Hb), (eq_eval _ _ _ _ _ Ha Hb).
  simpl. rewrite (Z.eqb_sym (seed a) (seed b)).
  destruct (Z.eqb_spec (seed b) (seed a)) as [Hs|Hs]; simpl; [|done].
  destruct (Nat.eqb_spec (length ra) (length rb)) as [Hl|Hl]; simpl; [|done].
  destruct (length ra) as [|n] eqn:Hn; [done|]. intros [= <-].
  unfold Qeq. cbn [Qnum Qden]. rewrite pos_of_nat_Z by lia.
  split.
  - intros Hq. f_equal. apply bool_decide_eq_true_2.
    apply intersection_full; lia.
  - intros [= Hd]. apply bool_decide_eq_true_1 in Hd. subst rb.
    rewrite intersection_refl. lia.
Qed.

Lemma intersection_triangle ra rb rc :
  length ra = length rb -> length rb = length rc ->
  (intersection ra rb + intersection rb rc
   <= length ra + intersection ra rc)%nat.
Proof.
  revert rb rc.
  induction ra as [|x ra IH]; intros [|y rb] [|z rc] Hab Hbc; simpl in *;
    try done.
  specialize (IH rb rc). unfold array_equal.
  destruct (decide (x = y)) as [->|Hxy], (decide (y = z)) as [->|Hyz];
    repeat first [rewrite bool_decide_eq_true_2 by congruence
                 |rewrite bool_decide_eq_false_2 by congruence];
    try destruct (bool_decide _); lia.
Qed.

(** X3. The distance [1 - jaccard] satisfies the triangle inequality:
    for three sketches on which [jaccard] returns values pairwise,
    [1 - a.jaccard(c) <= (1 - a.jaccard(b)) + (1 - b.jaccard(c))], on
    the exact quotients. *)
Theorem jaccard_triangle (h : heap) a b c ra rb rc qab qbc qac :
  h !! hashvalues a = Some (IntArray2 ra) ->
  h !! hashvalues b = Some (IntArray2 rb) ->
  h !! hashvalues c = Some (IntArray2 rc) ->
  fst (jaccard a b h) = Ok qab ->
  fst (jaccard b c h) = Ok qbc ->
  fst (jaccard a c h) = Ok qac ->
  (1 - qac <= (1 - qab) + (1 - qbc))%Q.
Proof.
  intros Ha Hb Hc.
  rewrite (jaccard_eval _ _ _ _ _ Ha Hb), (jaccard_eval _ _ _ _ _ Hb Hc),
    (jaccard_eval _ _ _ _ _ Ha Hc). simpl.
  destruct (negb (seed b =? seed a)); [done|].
  destruct (negb (seed c =? seed b)); [done|].
  destruct (negb (seed c =? seed a)); [done|].
  destruct (Nat.eqb_spec (length ra) (length rb)) as [Hab|]; simpl; [|done].
  destruct (Nat.eqb_spec (length rb) (length rc)) as [Hbc|]; simpl; [|done].
  rewrite <- Hbc, <- Hab, Nat.eqb_refl. simpl.
  pose proof (intersection_triangle ra rb rc Hab Hbc) as Ht.
  destruct (length ra) as [|n] eqn:Hn; [done|].
  intros [= <-] [= <-] [= <-].
  unfold Qle, Qminus, Qplus, Qopp. cbn [Qnum Qden].
  rewrite !Pos2Z.inj_mul, !pos_of_nat_Z by lia.
  set (N := Z.of_nat (S n)) in *.
  assert (0 < N) by lia.
  set (iab := Z.of_nat (intersection ra rb)).
  set (ibc := Z.of_nat (intersection rb rc)).
  set (iac := Z.of_nat (intersection ra rc)).
  assert (iab + ibc <= N + iac) by lia.
  nia.
Qed.

(** X4. [s.copy()] returns a sketch with the seed of [s] and a new
    array holding the rows of [s]: no object of the store changes,
    the copy is equal to [s] ([==] is true both ways) and has the
    length of [s], and its [jaccard] with [s] is 1 when [s] is not
    empty. *)
Theorem copy_equal (h : heap) s rows :
  h !! hashvalues s = Some (IntArray2 rows) ->
  exists c h',
    copy s h = (Ok c, h') /\
    seed c = seed s /\
    h !! hashvalues c = None /\
    h' !! hashvalues c = Some (IntArray2 rows) /\
    preserves h h' /\
    fst (__eq__ s c h') = Ok true /\
    fst (__eq__ c s h') = Ok true /\
    fst (__len__ c h') = fst (__len__ s h) /\
    ((0 < length rows)%nat ->
     exists q : Q, fst (jaccard s c h') = Ok q /\ (q == 1)%Q).
Proof.
  intros Hs. unfold copy, bind. rewrite (digest_eval _ _ _ Hs).
  set (d := fresh (dom h)). set (h' := <[d := IntArray2 rows]> h).
  set (c := {| seed := seed s; hashvalues := d |}).
  assert (Hd : h !! d = None) by apply fresh_lookup.
  assert (Hc : h' !! hashvalues c = Some (IntArray2 rows))
    by apply lookup_insert_eq.
  assert (Hp : preserves h h') by apply preserves_alloc.
  assert (Hs' : h' !! hashvalues s = Some (IntArray2 rows)).
  { rewrite <- Hs. apply Hp. eauto. }
  exists c, h'. split; [done|]. split; [done|]. split; [done|].
  split; [done|]. split; [done|].
  rewrite (eq_eval h' s c rows rows), (eq_eval h' c s rows rows) by done.
  simpl. rewrite Z.eqb_refl. simpl. rewrite bool_decide_eq_true_2 by done.
  split; [done|]. split; [done|]. split.
  { unfold __len__, bind.
    by rewrite (load_hashvalues_eval _ _ _ Hc), (load_hashvalues_eval _ _ _ Hs). }
  intros Hpos. rewrite (jaccard_eval h' s c rows rows) by done. simpl.
  rewrite Z.eqb_refl, Nat.eqb_refl. simpl.
  destruct (length rows) as [|n] eqn:Hn; [lia|].
  eexists. split; [done|]. rewrite intersection_refl, Hn.
  unfold Qeq. cbn [Qnum Qden]. rewrite pos_of_nat_Z by lia. lia.
Qed.
End SketchAlgebra.

(** ** WeightedMinHashGenerator.__init__: the objects of the store *)

Section InitFrame.
Context `{RandomStateModel} `{Libm}.
Import WeightedMinHashGenerator.

Lemma init_store (h : heap) dim ss seed :
  snd (__init__ dim ss seed h) = h \/
  exists s, snd (__init__ dim ss seed h)
            = <[fresh (dom h) := RandomState s]> h.
Proof.
  remember (snd (__init__ dim ss seed h)) as h' eqn:E. revert E.
  unfold __init__, new_RandomState, bind.
  destruct (_ && _); [|by left].
  unfold alloc at 1.
  rewrite (sample_eval _ _ _ _ _ (rng_seed seed)) by apply lookup_insert_eq.
  destruct (_ || _) eqn:Hneg; [intros ->; right; by eexists|]. cbv beta iota.
  erewrite sample_eval by apply lookup_insert_eq.
  rewrite Hneg. cbv beta iota.
  erewrite sample_eval by apply lookup_insert_eq.
  rewrite Hneg. cbv beta iota.
  unfold ret. simpl. rewrite !insert_insert_eq. intros ->. right. by eexists.
Qed.

(** X5. [__init__] leaves every object of the store as it was, and
    the only object it may add is a RandomState: the generator it
    draws from is its own (numpy's global one is neither read nor
    advanced), whether the construction succeeds or fails. *)
Theorem init_private_generator (h : heap) dim ss seed :
  preserves h (snd (__init__ dim ss seed h)) /\
  forall l, h !! l = None ->
    snd (__init__ dim ss seed h) !! l = None \/
    exists s, snd (__init__ dim ss seed h) !! l = Some (RandomState s).
Proof.
  split; [apply init_preserves|].
  intros l Hl. destruct (init_store h dim ss seed) as [->|[s ->]]; [by left|].
  destruct (decide (l = fresh (dom h))) as [->|Hne].
  - right. rewrite lookup_insert_eq. eauto.
  - left. by rewrite lookup_insert_ne.
Qed.
End InitFrame.

(** ** WeightedMinHashGenerator.minhash: what the result depends on *)

Section MinhashOutcome.
Context `{RandomStateModel} `{Libm}.
Import WeightedMinHashGenerator.

Lemma minhash_dimension_error self (h : heap) v xs :
  as_float32 h v = Some xs -> Z.of_nat (length xs) <> dim self ->
  minhash self v h = (Raise ValueError_dimension, h).
Proof.
  intros Hxs Hlen. destruct v as [ys|l|x]; simpl in *; [| |done].
  - injection Hxs as <-. unfold cast32 in Hlen. rewrite length_map in Hlen.
    by destruct (Z.eqb_spec (Z.of_nat (length ys)) (dim self)).
  - unfold bind, load.
    destruct (h !! l) as [[[] ys| | | |]|] eqn:Hl; try done.
    + injection Hxs as ->.
      by destruct (Z.eqb_spec (Z.of_nat (length xs)) (dim self)).
    + injection Hxs as <-. unfold cast32 in Hlen.
      rewrite length_map in Hlen.
      by destruct (Z.eqb_spec (Z.of_nat (length ys)) (dim self)).
Qed.

Lemma minhash_outcome_spec self (h : heap) v xs :
  as_float32 h v = Some xs ->
  match minhash_outcome self xs with
  | Ok rows =>
      exists s h', minhash self v h = (Ok s, h') /\
        WeightedMinHash.seed s = seed self /\
        h !! WeightedMinHash.hashvalues s = None /\
        h' !! WeightedMinHash.hashvalues s = Some (IntArray2 rows)
  | Raise e => fst (minhash self v h) = Raise e
  end.
Proof.
  intros Hxs. unfold minhash_outcome.
  destruct (Z.eqb_spec (Z.of_nat (length xs)) (dim self)) as [Hlen|Hlen];
    simpl.
  2: { by rewrite (minhash_dimension_error self h v xs). }
  destruct (minhash_spec self h v xs Hxs Hlen) as (r & h' & Heq & _ & Hpost).
  rewrite Heq. simpl.
  destruct (sample_size self <? 0); [done|].
  destruct (forallb Float.is_zero xs); [done|].
  destruct Hpost as [_ Hres].
  destruct (minhash_rows self xs) as [rows|e]; [|done].
  destruct Hres as (hv & -> & Hnone & Hsome). by eexists _, _.
Qed.

Lemma same_outcome_of self (h1 h2 : heap) v1 v2 xs ys :
  as_float32 h1 v1 = Some xs -> as_float32 h2 v2 = Some ys ->
  minhash_outcome self xs = minhash_outcome self ys ->
  same_outcome (minhash self v1 h1) (minhash self v2 h2).
Proof.
  intros H1 H2 Heq.
  pose proof (minhash_outcome_spec self h1 v1 xs H1) as S1.
  pose proof (minhash_outcome_spec self h2 v2 ys H2) as S2.
  rewrite <- Heq in S2. unfold same_outcome.
  destruct (minhash_outcome self xs) as [rows|e].
  - destruct S1 as (s1 & h1' & -> & Hs1 & _ & Hr1).
    destruct S2 as (s2 & h2' & -> & Hs2 & _ & Hr2). simpl.
    split; [congruence|]. by exists rows.
  - by rewrite S1, S2.
Qed.

(** X6. What [minhash] returns depends on the float32 values of the
    argument only: a list, a float64 array and a float32 array that
    give the same float32 values, in whatever stores, give the same
    exception, or sketches with the same seed and the same rows. *)
Theorem minhash_input_kinds self (h1 h2 : heap) v1 v2 xs :
  as_float32 h1 v1 = Some xs -> as_float32 h2 v2 = Some xs ->
  same_outcome (minhash self v1 h1) (minhash self v2 h2).
Proof. intros H1 H2. by apply (same_outcome_of self h1 h2 v1 v2 xs xs). Qed.

Lemma subst_zeros_length xs : length (subst_zeros xs) = length xs.
Proof. unfold subst_zeros. by rewrite length_map. Qed.

(** X7. A NaN weight counts as a zero weight: two vectors, neither
    all zero, that agree once their zeros are replaced by NaN give
    the same exception, or sketches with the same seed and rows. *)
Theorem minhash_nan_as_zero self (h1 h2 : heap) v1 v2 xs ys :
  as_float32 h1 v1 = Some xs -> as_float32 h2 v2 = Some ys ->
  subst_zeros xs = subst_zeros ys ->
  forallb Float.is_zero xs = false -> forallb Float.is_zero ys = false ->
  same_outcome (minhash self v1 h1) (minhash self v2 h2).
Proof.
  intros H1 H2 Hs Hx Hy. apply (same_outcome_of self h1 h2 v1 v2 xs ys H1 H2).
  unfold minhash_outcome. rewrite Hx, Hy.
  rewrite <- (subst_zeros_length xs), <- (subst_zeros_length ys), Hs.
  rewrite <- (minhash_rows_subst self xs), <- (minhash_rows_subst self ys).
  by rewrite Hs.
Qed.

(** X8. When [v] is not a float32 array (a list, or an array of
    another dtype), [minhash] writes to no object of the caller:
    every object of the store is after the call as it was, whatever
    the call returns. *)
Theorem minhash_converted_input_untouched self (h : heap) v :
  (forall l xs, v = PyRef l -> h !! l <> Some (Ndarray1 Float32 xs)) ->
  preserves h (snd (minhash self v h)).
Proof.
  intros Hv l' Hl'. apply minhash_keeps_other_objects; [|done].
  destruct v as [ys|l|x]; simpl; try done.
  destruct (h !! l) as [[[] ys| | | |]|] eqn:Hl; try done.
  by destruct (Hv l ys eq_refl).
Qed.
End MinhashOutcome.

Section NoPositiveWeight.
Context `{RandomStateModel} `{LibmLaws}.
Import WeightedMinHashGenerator.

Lemma not_positive_log x :
  Float.is_pos x = false ->
  log32 (if Float.is_zero x then Float.nan else x) = Float.nan.
Proof.
  intros Hp. destruct (Float.is_zero x) eqn:Hz; [apply log32_nan|].
  destruct (Float.ltb x Float.zero) eqn:Hn; [by apply log32_neg|].
  destruct (Float.is_nan x) eqn:Hnan.
  - destruct x; try done. apply log32_nan.
  - by rewrite (positive_cases x Hnan Hz Hn) in Hp.
Qed.

Lemma t_single_nan (vlog rs_i betas_i : list f32) :
  Forall (fun x => x = Float.nan) vlog ->
  Forall (fun x => x = Float.nan) (t_single vlog rs_i betas_i).
Proof.
  intros Hv. unfold t_single, zip_with3. revert rs_i betas_i.
  induction Hv as [|x vlog -> _ IH]; intros rs_i betas_i; [constructor|].
  destruct rs_i as [|r rs_i], betas_i as [|b betas_i]; simpl;
    try constructor; [done|]. apply IH.
Qed.

Lemma ln_a_single_nan (t rs_i betas_i ln_cs_i : list f32) :
  Forall (fun x => x = Float.nan) t ->
  Forall (fun x => x = Float.nan) (ln_a_single t rs_i betas_i ln_cs_i).
Proof.
  intros Ht. unfold ln_a_single, zip_with3. apply Forall_forall.
  intros a Ha.
  apply elem_of_lookup_zip_with in Ha as (i & c & [y r] & -> & _ & Hyr).
  apply lookup_zip_Some in Hyr as [Hy _]. simpl.
  apply lookup_zip_with_Some in Hy as (tv & [b r'] & -> & Hti & _).
  rewrite Forall_forall in Ht.
  rewrite (Ht tv) by (by eapply list_elem_of_lookup_2). simpl.
  unfold sub32, mul32, Float.sub, Float.mul. simpl.
  by destruct c.
Qed.

Lemma zip_with3_length {A B C D} (f : A -> B -> C -> D) a b c :
  length (zip_with3 f a b c)
  = (length a `min` (length b `min` length c))%nat.
Proof. unfold zip_with3. by rewrite length_zip_with, length_zip. Qed.

(** X9. Without a positive weight there is no sketch: for a generator
    with [sample_size > 0], a vector of length [dim] whose weights
    are all zero, negative or NaN makes [minhash] raise a ValueError,
    "Input is all zeros" when all are zero and numpy's "All-NaN slice
    encountered" otherwise. *)
Theorem minhash_no_positive_weight self (h : heap) v xs :
  wf self -> 0 < sample_size self ->
  as_float32 h v = Some xs -> Z.of_nat (length xs) = dim self ->
  Forall (fun x => Float.is_pos x = false) xs ->
  fst (minhash self v h) =
    Raise (if forallb Float.is_zero xs then ValueError_all_zeros
           else ValueError_all_nan).
Proof.
  intros (Hd & Hs & Hrs & Hcs & Hbs) Hss Hxs Hlen Hnp.
  pose proof (minhash_outcome_spec self h v xs Hxs) as Hout.
  unfold minhash_outcome in Hout. rewrite Hlen, Z.eqb_refl in Hout.
  simpl in Hout.
  replace (sample_size self <? 0) with false in Hout by (symmetry; lia).
  destruct (forallb Float.is_zero xs) eqn:Hz; [done|].
  assert (Hrows : minhash_rows self xs = Raise ValueError_all_nan);
    [|by rewrite Hrows in Hout].
  unfold minhash_rows.
  destruct (Z.to_nat (sample_size self)) as [|n] eqn:Hn; [lia|].
  rewrite <- Hlen, Nat2Z.id in Hrs, Hcs, Hbs.
  destruct Hrs as [Hrl Hrr], Hcs as [Hcl Hcr], Hbs as [Hbl Hbr].
  destruct (rs self) as [|rs_0 rs'] eqn:Ers; [done|].
  destruct (ln_cs self) as [|cs_0 cs'] eqn:Ecs; [done|].
  destruct (betas self) as [|bs_0 bs'] eqn:Ebs; [done|].
  apply Forall_inv in Hrr, Hcr, Hbr.
  simpl. unfold sample_at, row. rewrite Ers, Ecs, Ebs. simpl.
  unfold sample_single.
  set (vlog := map log32 (subst_zeros xs)).
  assert (Hvlog : Forall (fun x => x = Float.nan) vlog).
  { unfold vlog, subst_zeros. rewrite map_map. apply Forall_map.
    eapply Forall_impl; [exact Hnp|]. intros x Hx. simpl.
    by apply not_positive_log. }
  pose proof (ln_a_single_nan _ rs_0 bs_0 cs_0
                (t_single_nan vlog rs_0 bs_0 Hvlog)) as Hnan.
  set (ln_a := ln_a_single _ _ _ _) in *.
  assert (Hlen_a : length ln_a = length xs).
  { unfold ln_a, ln_a_single, t_single. rewrite !zip_with3_length.
    unfold vlog, subst_zeros. rewrite !length_map. lia. }
  assert (Hall : forallb Float.is_nan ln_a = true).
  { apply forallb_forall. intros x Hx. rewrite Forall_forall in Hnan.
    apply list_elem_of_In in Hx.
    by rewrite (Hnan x Hx). }
  unfold np_nanargmin. rewrite Hall.
  destruct ln_a as [|a ln_a']; [|done].
  destruct xs; [done|]. done.
Qed.
End NoPositiveWeight.

(** ** The order of the floating-point numbers *)

Section FloatOrder.

Ltac float_order :=
  unfold SFleb, SFltb, SFcompare;
  repeat match goal with
         | x : spec_float |- _ => destruct x as [[]|[]| |[] ? ?]
         end;
  simpl; try done;
  change (Pos.compare_cont Eq) with Pos.compare;
  repeat match goal with
         | |- context [Z.compare ?a ?b] =>
             destruct (Z.compare_spec a b); try subst
         | |- context [Pos.compare ?a ?b] =>
             destruct (Pos.compare_spec a b); try subst
         end;
  simpl; try done; try lia.

Lemma SFleb_not_ltb x y : SFleb x y = true -> SFltb y x = false.
Proof. float_order. Qed.

Lemma SFltb_not_leb x y : SFltb x y = true -> SFleb y x = false.
Proof. float_order. Qed.

Lemma SFltb_leb x y : SFltb x y = true -> SFleb x y = true.
Proof. float_order. Qed.

Lemma SFleb_total x y :
  Float.is_nan x = false -> Float.is_nan y = false ->
  SFleb x y = false -> SFltb y x = true.
Proof. float_order. Qed.

Lemma SFleb_trans x y z :
  SFleb x y = true -> SFleb y z = true -> SFleb x z = true.
Proof. float_order. Qed.

Lemma SFltb_leb_trans x y z :
  SFltb x y = true -> SFleb y z = true -> SFltb x z = true.
Proof. float_order. Qed.

Lemma SFltb_inf x : SFltb Float.inf x = false.
Proof. unfold Float.inf. float_order. Qed.
End FloatOrder.

(** ** WeightedMinHashGenerator.minhash: the pair of each sample *)

Section Argmin.

Lemma SFleb_refl x : Float.is_nan x = false -> SFleb x x = true.
Proof.
  unfold SFleb, SFcompare. destruct x as [[]|[]| |[] m e]; simpl; try done;
    rewrite Z.compare_refl; change (Pos.compare_cont Eq) with Pos.compare;
    by rewrite Pos.compare_refl.
Qed.

Lemma argmin_loop_spec l : forall pre best bestv,
  Forall (fun x => Float.is_nan x = false) (pre ++ l) ->
  pre !! best = Some bestv ->
  (forall j b, pre !! j = Some b -> SFleb bestv b = true) ->
  (forall j b, (j < best)%nat -> pre !! j = Some b -> SFltb bestv b = true) ->
  exists a,
    (pre ++ l) !! argmin_loop best bestv (length pre) l = Some a /\
    (forall j b, (pre ++ l) !! j = Some b -> SFleb a b = true) /\
    (forall j b, (j < argmin_loop best bestv (length pre) l)%nat ->
                 (pre ++ l) !! j = Some b -> SFltb a b = true).
Proof.
  induction l as [|x l IH]; intros pre best bestv Hnan Hbest Hle Hlt.
  - simpl. rewrite app_nil_r. by exists bestv.
  - assert (Hbn : Float.is_nan bestv = false).
    { rewrite Forall_forall in Hnan. apply Hnan.
      apply list_elem_of_lookup. exists best.
      by apply lookup_app_l_Some. }
    assert (Hxn : Float.is_nan x = false).
    { rewrite Forall_forall in Hnan. apply Hnan.
      apply elem_of_app. right. left. }
    simpl. rewrite Hbn.
    replace (pre ++ x :: l) with ((pre ++ [x]) ++ l) in *
      by (by rewrite <- app_assoc).
    replace (S (length pre)) with (length (pre ++ [x]))
      by (rewrite length_app; simpl; lia).
    destruct (SFleb bestv x) eqn:Hcmp; simpl.
    + apply IH; [done | by apply lookup_app_l_Some | |].
      * intros j b Hj. apply lookup_app_Some in Hj as [Hj|[_ Hj]]; [eauto|].
        apply list_lookup_singleton_Some in Hj as [_ <-]. done.
      * intros j b Hjb Hj.
        apply lookup_app_Some in Hj as [Hj|[Hge _]]; [eauto|].
        apply lookup_lt_Some in Hbest. lia.
    + pose proof (SFleb_total bestv x Hbn Hxn Hcmp) as Hx.
      apply IH; [done | | |].
      * rewrite lookup_app_r by lia. by rewrite Nat.sub_diag.
      * intros j b Hj. apply lookup_app_Some in Hj as [Hj|[_ Hj]].
        -- apply SFltb_leb. eapply SFltb_leb_trans; eauto.
        -- apply list_lookup_singleton_Some in Hj as [_ <-].
           by apply SFleb_refl.
      * intros j b Hjb Hj.
        apply lookup_app_Some in Hj as [Hj|[Hge _]]; [|lia].
        eapply SFltb_leb_trans; eauto.
Qed.

Lemma np_argmin_spec l k :
  Forall (fun x => Float.is_nan x = false) l ->
  np_argmin l = Ok k ->
  exists a, l !! k = Some a /\
    (forall j b, l !! j = Some b -> SFleb a b = true) /\
    (forall j b, (j < k)%nat -> l !! j = Some b -> SFltb a b = true).
Proof.
  destruct l as [|x l]; [done|]. intros Hnan [= <-].
  apply Forall_inv in Hnan as Hx.
  apply (argmin_loop_spec l [x] 0%nat x); [done | done | |].
  - intros [|j] b; simpl; [|done]. intros [= <-]. by apply SFleb_refl.
  - intros j b Hj. lia.
Qed.

Lemma nan_to_inf_not_nan x : Float.is_nan (nan_to_inf x) = false.
Proof. unfold nan_to_inf. by destruct (Float.is_nan x) eqn:Hx. Qed.

Lemma np_nanargmin_spec l k :
  np_nanargmin l = Ok k ->
  exists a, l !! k = Some a /\
    (forall j b, l !! j = Some b -> SFltb b a = false) /\
    (forall j b, (j < k)%nat -> l !! j = Some b -> SFleb b a = false).
Proof.
  unfold np_nanargmin. destruct l as [|x0 l0] eqn:El; [done|].
  rewrite <- El. clear El x0 l0.
  destruct (forallb Float.is_nan l); [done|].
  fold nan_to_inf. intros Hk.
  apply np_argmin_spec in Hk as (a' & Ha' & Hle & Hlt).
  2: { apply Forall_map, Forall_forall. intros x _. simpl.
       apply nan_to_inf_not_nan. }
  rewrite list_lookup_fmap in Ha'.
  destruct (l !! k) as [a|] eqn:Ha; [|done]. simpl in Ha'.
  injection Ha' as <-. exists a. split; [done|]. split.
  - intros j b Hb.
    specialize (Hle j (nan_to_inf b)). rewrite list_lookup_fmap, Hb in Hle.
    specialize (Hle eq_refl). unfold nan_to_inf in Hle.
    destruct (Float.is_nan a) eqn:Hna.
    { destruct a; try done. by destruct b. }
    destruct (Float.is_nan b) eqn:Hnb.
    { destruct b; try done. }
    by apply SFleb_not_ltb.
  - intros j b Hjk Hb.
    specialize (Hlt j (nan_to_inf b) Hjk).
    rewrite list_lookup_fmap, Hb in Hlt.
    specialize (Hlt eq_refl). unfold nan_to_inf in Hlt.
    destruct (Float.is_nan b) eqn:Hnb.
    { destruct b; try done. }
    destruct (Float.is_nan a) eqn:Hna.
    { by rewrite SFltb_inf in Hlt. }
    by apply SFltb_not_leb.
Qed.
End Argmin.

Section FirstMinimum.
Context `{RandomStateModel} `{Libm}.
Import WeightedMinHashGenerator.

Lemma sample_single_first_minimum vlog rs_i betas_i ln_cs_i row :
  sample_single vlog rs_i betas_i ln_cs_i = Ok row ->
  first_minimum
    (ln_a_single (t_single vlog rs_i betas_i) rs_i betas_i ln_cs_i)
    (t_single vlog rs_i betas_i) row.
Proof.
  unfold sample_single.
  destruct (np_nanargmin _) as [k|] eqn:Hk; simpl; [|done].
  apply np_nanargmin_spec in Hk as (a & Ha & Hle & Hlt).
  rewrite nth_lookup.
  destruct (t_single vlog rs_i betas_i !! k) as [tk|] eqn:Htk; simpl;
    [|done].
  destruct (py_int tk) as [z|] eqn:Hz; simpl; [|done].
  unfold to_int64.
  destruct ((int64_min <=? z) && (z <=? int64_max)) eqn:Hr; simpl; [|done].
  intros [= <-]. exists k, a, tk, z.
  split; [done|]. split; [done|]. split; [done|]. split.
  { unfold py_int in Hz. destruct tk; try done; simpl in *; congruence. }
  split; [|done]. apply andb_true_iff in Hr. lia.
Qed.

Lemma sample_at_first_minimum self xs i kt :
  sample_at self (map log32 (subst_zeros xs)) i = Ok kt ->
  first_minimum (ln_a_at self xs i) (t_at self xs i) kt.
Proof.
  unfold sample_at, row, ln_a_at, t_at.
  destruct (rs self !! i) as [rs_i|]; simpl; [|done].
  destruct (betas self !! i) as [betas_i|]; simpl; [|done].
  destruct (ln_cs self !! i) as [ln_cs_i|]; simpl; [|done].
  apply sample_single_first_minimum.
Qed.

Lemma loop_rows_lookup self vlog n :
  forall i rows j row,
    loop_rows self vlog i n = Ok rows -> rows !! j = Some row ->
    sample_at self vlog (i + j) = Ok row.
Proof.
  induction n as [|n IH]; intros i rows j row; simpl.
  - by intros [= <-].
  - destruct (sample_at self vlog i) as [kt|] eqn:Hkt; simpl; [|done].
    destruct (loop_rows self vlog (S i) n) as [rest|] eqn:Hrest;
      simpl; [|done].
    intros [= <-]. destruct j as [|j]; simpl.
    + intros [= <-]. by rewrite Nat.add_0_r.
    + intros Hj. rewrite <- Nat.add_succ_comm. by eapply IH.
Qed.

Lemma minhash_ok_rows self (h : heap) v s h' xs :
  minhash self v h = (Ok s, h') -> as_float32 h v = Some xs ->
  exists rows,
    minhash_rows self xs = Ok rows /\
    Z.of_nat (length xs) = dim self /\
    WeightedMinHash.seed s = seed self /\
    h !! WeightedMinHash.hashvalues s = None /\
    h' !! WeightedMinHash.hashvalues s = Some (IntArray2 rows).
Proof.
  intros Hm Hxs.
  destruct (minhash_ok_inv _ _ _ _ _ Hm) as (xs' & Hxs' & Hlen).
  rewrite Hxs in Hxs'. injection Hxs' as <-.
  destruct (minhash_spec self h v xs Hxs Hlen) as (r & h1 & Heq & _ & Hpost).
  rewrite Hm in Heq. injection Heq as <- <-.
  destruct (sample_size self <? 0); [done|].
  destruct (forallb Float.is_zero xs); [done|].
  destruct Hpost as [_ Hres].
  destruct (minhash_rows self xs) as [rows|] eqn:Hrows; [|done].
  destruct Hres as (hv & [= ->] & Hnone & Hsome). by exists rows.
Qed.

(** X10. Pair [i] of a sketch returned by [minhash] is
    [(k, int(t[k]))], where [k] is the first dimension at which
    [ln_a] of sample [i] is least, NaN values left out: no [ln_a[j]]
    is below [ln_a[k]], and before [k] none is below or equal. *)
Theorem minhash_selects_first_minimum self (h : heap) v s h' xs :
  minhash self v h = (Ok s, h') -> as_float32 h v = Some xs ->
  exists rows,
    h' !! WeightedMinHash.hashvalues s = Some (IntArray2 rows) /\
    length rows = Z.to_nat (sample_size self) /\
    forall i row, rows !! i = Some row ->
      first_minimum (ln_a_at self xs i) (t_at self xs i) row.
Proof.
  intros Hm Hxs.
  destruct (minhash_ok_rows self h v s h' xs Hm Hxs)
    as (rows & Hrows & _ & _ & _ & Hsome).
  exists rows. split; [done|]. split.
  { by apply loop_rows_length in Hrows. }
  intros i row Hi. apply sample_at_first_minimum.
  by apply (loop_rows_lookup self _ _ 0%nat rows i row Hrows).
Qed.
End FirstMinimum.

Section SketchShape.
Context `{RandomStateModel} `{LibmLaws}.
Import WeightedMinHashGenerator.

(** X11. A sketch returned by [minhash] has the seed of the generator
    and a new array of [sample_size] pairs [(k, t)], with
    [0 <= k < dim], [t] in the range of int64, and a positive weight
    at dimension [k]. *)
Theorem minhash_sketch_shape self (h : heap) v s h' xs :
  minhash self v h = (Ok s, h') -> as_float32 h v = Some xs ->
  WeightedMinHash.seed s = seed self /\
  h !! WeightedMinHash.hashvalues s = None /\
  exists rows,
    h' !! WeightedMinHash.hashvalues s = Some (IntArray2 rows) /\
    length rows = Z.to_nat (sample_size self) /\
    Forall (fun row => exists k z x,
              row = [k; z] /\ 0 <= k < dim self /\
              int64_min <= z <= int64_max /\
              xs !! Z.to_nat k = Some x /\ Float.is_pos x = true) rows.
Proof.
  intros Hm Hxs.
  destruct (minhash_ok_rows self h v s h' xs Hm Hxs)
    as (rows & Hrows & Hlen & Hseed & Hnone & Hsome).
  split; [done|]. split; [done|]. exists rows. split; [done|].
  split; [by apply loop_rows_length in Hrows|].
  apply Forall_forall. intros row Hin.
  apply list_elem_of_lookup in Hin as [i Hi].
  pose proof (loop_rows_lookup self _ _ 0%nat rows i row Hrows Hi) as Hat.
  destruct (sample_at_first_minimum self xs _ row Hat)
    as (k & a & tk & z & -> & _ & _ & _ & Hz & _).
  destruct (sample_at_selects self xs _ _ Hat)
    as (k' & z' & x & [= Hk <-] & Hx & Hpos).
  apply Nat2Z.inj in Hk as <-.
  exists (Z.of_nat k), z, x. split; [done|].
  apply lookup_lt_Some in Hx as Hlt. rewrite Nat2Z.id.
  repeat split; try done; lia.
Qed.
End SketchShape.

(** ** jaccard on the sketches of minhash *)

Section SketchesCompared.
Context `{RandomStateModel} `{Libm}.
Import WeightedMinHashGenerator.

Lemma minhash_ok_array self (h : heap) v s h' :
  minhash self v h = (Ok s, h') ->
  0 <= sample_size self /\
  WeightedMinHash.seed s = seed self /\
  h !! WeightedMinHash.hashvalues s = None /\
  exists rows,
    h' !! WeightedMinHash.hashvalues s = Some (IntArray2 rows) /\
    length rows = Z.to_nat (sample_size self).
Proof.
  intros Hm.
  destruct (minhash_ok_inv _ _ _ _ _ Hm) as (xs & Hxs & Hlen).
  destruct (minhash_spec self h v xs Hxs Hlen) as (r & h1 & Heq & _ & Hpost).
  rewrite Hm in Heq. injection Heq as <- <-.
  destruct (Z.ltb_spec (sample_size self) 0) as [Hneg|Hnn]; [done|].
  destruct (forallb Float.is_zero xs); [done|].
  destruct Hpost as [_ Hres].
  destruct (minhash_rows self xs) as [rows|] eqn:Hrows; [|done].
  destruct Hres as (hv & [= ->] & Hnone & Hsome).
  split; [done|]. split; [done|]. split; [done|]. exists rows.
  split; [done|]. by apply loop_rows_length in Hrows.
Qed.

(** X12. [jaccard] on two sketches that [minhash] returned: it returns
    a value, between 0 and 1, exactly when the two generators have
    the same seed and the same [sample_size > 0]; it raises the error
    of the seeds when the seeds differ, the error of the lengths when
    the seeds agree and the sample sizes differ, and ZeroDivisionError
    when both sample sizes are 0. *)
Theorem jaccard_of_minhash_sketches g1 g2 (h : heap) v1 s1 h1 v2 s2 h2 :
  minhash g1 v1 h = (Ok s1, h1) ->
  minhash g2 v2 h1 = (Ok s2, h2) ->
  match fst (WeightedMinHash.jaccard s1 s2 h2) with
  | Ok q =>
      seed g1 = seed g2 /\ sample_size g1 = sample_size g2 /\
      0 < sample_size g1 /\ (0 <= q)%Q /\ (q <= 1)%Q
  | Raise e =>
      (e = ValueError_seeds /\ seed g1 <> seed g2) \/
      (e = ValueError_lengths /\ seed g1 = seed g2 /\
       sample_size g1 <> sample_size g2) \/
      (e = ZeroDivisionError /\ seed g1 = seed g2 /\
       sample_size g1 = 0 /\ sample_size g2 = 0)
  end.
Proof.
  intros H1 H2.
  destruct (minhash_ok_array g1 h v1 s1 h1 H1)
    as (Hnn1 & Hseed1 & _ & rows1 & Hr1 & Hl1).
  destruct (minhash_ok_array g2 h1 v2 s2 h2 H2)
    as (Hnn2 & Hseed2 & _ & rows2 & Hr2 & Hl2).
  assert (Hkeep : h2 !! WeightedMinHash.hashvalues s1
                  = Some (IntArray2 rows1)).
  { rewrite <- Hr1.
    pose proof (minhash_keeps_other_objects g2 h1 v2
                  (WeightedMinHash.hashvalues s1)) as Hk.
    rewrite H2 in Hk. apply Hk; [|by rewrite Hr1].
    intros Hip. destruct v2 as [ys|l|x]; simpl in Hip; try done.
    destruct (h1 !! l) as [[[] ys| | | |]|] eqn:Hl; try done.
    injection Hip as ->. by rewrite Hr1 in Hl. }
  rewrite (jaccard_eval h2 s1 s2 rows1 rows2 Hkeep Hr2). simpl.
  rewrite Hseed1, Hseed2, Hl1, Hl2.
  destruct (Z.eqb_spec (seed g2) (seed g1)) as [Hs|Hs]; simpl.
  2: { left. split; [done|]. congruence. }
  destruct (Nat.eqb_spec (Z.to_nat (sample_size g1))
              (Z.to_nat (sample_size g2))) as [Hl|Hl]; simpl.
  2: { right. left. split; [done|]. split; [done|]. intros Heq.
       by rewrite Heq in Hl. }
  assert (Hss : sample_size g1 = sample_size g2) by lia.
  pose proof (intersection_le rows1 rows2) as Hle. rewrite Hl1 in Hle.
  destruct (Z.to_nat (sample_size g1)) as [|n] eqn:Hn.
  - right. right. split; [done|]. split; [done|]. lia.
  - split; [done|]. split; [done|]. split; [lia|].
    unfold Qle. simpl. rewrite pos_of_nat_Z by lia. lia.
Qed.
End SketchesCompared.

(** ** CSR matrices as lists of stored entries *)

Section Entries.
Local Open Scope nat_scope.









End Entries.

(** ** WeightedMinHashGenerator.minhash_many on rows in canonical
    format *)

Section BatchEvaluation.
Context `{RandomStateModel} `{Libm}.
Import WeightedMinHashGenerator.
Local Open Scope nat_scope.

Lemma gather_eval (m : list (list f32)) nr nc cidx :
  has_shape m nr nc -> Forall (fun c => c < nc) cidx ->
  gather m cidx = Ok (map (fun r => map (fun c => nth c r Float.nan) cidx) m).
Proof.
  intros [Hlen Hrows] Hc. unfold gather.
  apply rmap_map. eapply Forall_impl; [exact Hrows|].
  intros r Hr. simpl. apply rmap_map.
  eapply Forall_impl; [exact Hc|]. intros c Hlt. simpl.
  destruct (r !! c) as [x|] eqn:Hx.
  - by rewrite (nth_lookup_Some _ _ _ _ Hx).
  - apply lookup_ge_None in Hx. simpl in *. lia.
Qed.

Lemma t_row_entries (E : list (nat * f32)) r b :
  zip_with3 (fun x r b => floor32 (add32 (div32 x r) b))
    (map (fun p => log32 (snd p)) E)
    (map (fun c => nth c r Float.nan) (map fst E))
    (map (fun c => nth c b Float.nan) (map fst E))
  = map (t_entry r b) E.
Proof.
  unfold zip_with3. induction E as [|p E IH]; simpl; [done|].
  by rewrite IH.
Qed.

Lemma ln_a_row_entries (E : list (nat * f32)) r b c :
  zip_with sub32 (map (fun k => nth k c Float.nan) (map fst E))
    (zip_with3 (fun t b r => mul32 (add32 (sub32 t b) one32) r)
       (map (t_entry r b) E)
       (map (fun k => nth k b Float.nan) (map fst E))
       (map (fun k => nth k r Float.nan) (map fst E)))
  = map (ln_a_entry r b c) E.
Proof.
  unfold zip_with3. induction E as [|p E IH]; simpl; [done|].
  by rewrite IH.
Qed.

Lemma t_many_entries (E : list (nat * f32)) : forall n rs betas ln_cs,
  length rs = n -> length betas = n -> length ln_cs = n ->
  let cols m := map (fun r => map (fun c => nth c r Float.nan) (map fst E)) m in
  let t := t_many (replicate n (map (fun p => log32 (snd p)) E))
             (cols rs) (cols betas) in
  t = map (fun s => map (t_entry s.1 s.2.1) E) (zip rs (zip betas ln_cs)) /\
  ln_a_many t (cols rs) (cols betas) (cols ln_cs)
  = map (fun s => map (ln_a_entry s.1 s.2.1 s.2.2) E)
      (zip rs (zip betas ln_cs)).
Proof.
  induction n as [|n IH]; intros rs betas ln_cs Hr Hb Hc.
  - destruct rs, betas, ln_cs; try done.
  - destruct rs as [|r rs], betas as [|b betas], ln_cs as [|c ln_cs];
      try done.
    simpl in Hr, Hb, Hc.
    destruct (IH rs betas ln_cs) as [IHt IHa]; [lia|lia|lia|].
    cbv zeta in *. split.
    + unfold t_many in *. unfold zip_with3 at 1. simpl.
      unfold zip_with3 at 1 in IHt. rewrite IHt. f_equal.
      apply t_row_entries.
    + unfold ln_a_many, t_many in *.
      unfold zip_with3 at 1 3. unfold zip_with3 at 1 3 in IHa.
      simpl. rewrite IHa. f_equal.
      fold (zip_with3 (fun x r b => floor32 (add32 (div32 x r) b))
              (map (fun p => log32 (snd p)) E)
              (map (λ c0 : nat, nth c0 r Float.nan) (map fst E))
              (map (λ c0 : nat, nth c0 b Float.nan) (map fst E))).
      rewrite t_row_entries.
      apply ln_a_row_entries.
Qed.
End BatchEvaluation.

Section BatchLoop.
Context `{RandomStateModel} `{Libm}.
Import WeightedMinHashGenerator.
Local Open Scope nat_scope.

Lemma slice_map {A B} (f : A -> B) (l : list A) b e :
  slice (map f l) b e = map f (slice l b e).
Proof. unfold slice. by rewrite skipn_map, firstn_map. Qed.

Lemma zip_map_same {A B C} (g : A -> B) (k : A -> C) (l : list A) :
  zip (map g l) (map k l) = map (fun x => (g x, k x)) l.
Proof. induction l as [|x l IH]; simpl; [done|]. by rewrite IH. Qed.

Lemma zip_with_map_same {A B C D} (f : B -> C -> D) (g : A -> B)
    (k : A -> C) (l : list A) :
  zip_with f (map g l) (map k l) = map (fun x => f (g x) (k x)) l.
Proof. induction l as [|x l IH]; simpl; [done|]. by rewrite IH. Qed.

Lemma rmap_map_map {A B C} (f : B -> result C) (k : A -> B) (g : A -> C)
    (l : list A) :
  Forall (fun x => f (k x) = Ok (g x)) l -> rmap f (map k l) = Ok (map g l).
Proof.
  induction 1 as [|x l Hx Hl IH]; simpl; [done|]. by rewrite Hx, IH.
Qed.

Lemma argmin_index_spec (l : list f32) :
  l <> [] -> np_argmin l = Ok (argmin_index l) /\ argmin_index l < length l.
Proof.
  intros Hl. destruct (np_argmin_bound l Hl) as (a & Ha & Hlt).
  unfold argmin_index. by rewrite Ha.
Qed.

Lemma many_doc_entries self (S : list (list f32 * (list f32 * list f32)))
    (pre e post : list (nat * f32)) (h : heap) :
  (0 <= sample_size self)%Z -> e <> [] ->
  many_doc self (map fst (pre ++ e ++ post))
    (map (fun s => map (t_entry s.1 s.2.1) (pre ++ e ++ post)) S)
    (map (fun s => map (ln_a_entry s.1 s.2.1 s.2.2) (pre ++ e ++ post)) S)
    (length pre) (length pre + length e) h
  = (Ok (fresh (dom h)),
     <[fresh (dom h) := IntArray2 (map (batch_pair e) S)]> h).
Proof.
  intros Hss He. unfold many_doc.
  rewrite slice_map, slice_middle, !map_map.
  assert (Hargmin :
    rmap np_argmin
      (map (fun s => slice (map (ln_a_entry s.1 s.2.1 s.2.2)
                              (pre ++ e ++ post))
                       (length pre) (length pre + length e)) S)
    = Ok (map (fun s => argmin_index (map (ln_a_entry s.1 s.2.1 s.2.2) e)) S)).
  { apply rmap_map_map, Forall_forall. intros s _. simpl.
    rewrite slice_map, slice_middle.
    apply argmin_index_spec. by destruct e. }
  unfold bind at 1, lift. rewrite Hargmin.
  set (af := fun s : list f32 * (list f32 * list f32) =>
               argmin_index (map (ln_a_entry s.1 s.2.1 s.2.2) e)).
  assert (Haf : forall s, af s < length e).
  { intros s. unfold af.
    destruct (argmin_index_spec (map (ln_a_entry s.1 s.2.1 s.2.2) e))
      as [_ Hlt]; [by destruct e|].
    by rewrite length_map in Hlt. }
  assert (Hdk :
    rmap (fun a => match map fst e !! a with
                   | Some c => Ok c
                   | None => Raise IndexError
                   end) (map af S)
    = Ok (map (fun s => nth (af s) (map fst e) 0) S)).
  { apply rmap_map_map, Forall_forall. intros s _. simpl.
    destruct (lookup_lt_is_Some_2 (map fst e) (af s)) as [c Hc].
    { rewrite length_map. apply Haf. }
    by rewrite Hc, (nth_lookup_Some _ _ _ _ Hc). }
  unfold bind at 1. rewrite Hdk.
  unfold np_zeros2. replace (sample_size self <? 0)%Z with false
    by (symmetry; lia).
  unfold bind at 1, alloc. rewrite zip_map_same.
  assert (Hdt :
    rmap (fun ra : list f32 * nat =>
            match fst ra !! (length pre + snd ra) with
            | Some x => Ok x
            | None => Raise IndexError
            end)
      (map (fun s => (map (t_entry s.1 s.2.1) (pre ++ e ++ post), af s)) S)
    = Ok (map (fun s => nth (af s) (map (t_entry s.1 s.2.1) e) Float.nan) S)).
  { apply rmap_map_map, Forall_forall. intros s _. simpl.
    destruct (lookup_lt_is_Some_2 (map (t_entry s.1 s.2.1) e) (af s))
      as [x Hx].
    { rewrite length_map. apply Haf. }
    rewrite (nth_lookup_Some _ _ _ _ Hx).
    rewrite map_app, lookup_app_r by (rewrite length_map; lia).
    rewrite length_map.
    replace (length pre + af s - length pre) with (af s) by lia.
    rewrite map_app, lookup_app_l by (rewrite length_map; apply Haf).
    by rewrite Hx. }
  unfold bind at 1. rewrite Hdt.
  unfold bind, store, ret. rewrite insert_insert_eq.
  by rewrite zip_with_map_same.
Qed.
End BatchLoop.

Section BatchEntries.
Context `{RandomStateModel} `{Libm}.
Import WeightedMinHashGenerator.
Local Open Scope nat_scope.

Lemma many_loop_entries self (E : list (nat * f32)) :
  (0 <= sample_size self)%Z ->
  forall (es : list (list (nat * f32))) pre (h : heap),
    pre ++ concat es = E ->
    exists res h',
      many_loop self (map fst E)
        (map (fun s => map (t_entry s.1 s.2.1) E) (sample_rows self))
        (map (fun s => map (ln_a_entry s.1 s.2.1 s.2.2) E) (sample_rows self))
        (length pre) (indptr_from (length pre) es) h = (Ok res, h') /\
      preserves h h' /\
      Forall2 (entries_result self h h') es res.
Proof.
  intros Hss. induction es as [|e es IH]; intros pre h HE.
  - exists [], h. split; [done|]. split; [apply preserves_refl|constructor].
  - cbn [indptr_from many_loop concat] in *.
    destruct e as [|p e'].
    + rewrite Nat.add_0_r, Nat.eqb_refl.
      destruct (IH pre h HE) as (res & h' & E1 & Hp & HF).
      simpl in E1 |- *. unfold bind at 1, ret at 1. unfold bind. rewrite E1.
      exists (None :: res), h'. split; [done|]. split; [done|].
      by constructor.
    + set (e := p :: e') in *.
      assert (Hne : (length pre =? length pre + length e) = false)
        by (apply Nat.eqb_neq; simpl; lia).
      rewrite Hne.
      pose proof (many_doc_entries self (sample_rows self) pre e (concat es) h
                    Hss) as E1.
      rewrite HE in E1. specialize (E1 ltac:(done)).
      set (hv := fresh (dom h)) in *.
      set (h1 := <[hv := IntArray2 (map (batch_pair e) (sample_rows self))]> h)
        in *.
      destruct (IH (pre ++ e) h1) as (res & h' & E2 & Hp & HF).
      { by rewrite <- app_assoc. }
      rewrite length_app in E2.
      unfold bind at 1. unfold bind at 1. rewrite E1. unfold ret at 1.
      unfold bind. rewrite E2.
      exists (Some hv :: res), h'. split; [done|].
      assert (Hfresh : h !! hv = None) by apply fresh_lookup.
      split.
      { eapply preserves_trans; [apply preserves_alloc | exact Hp]. }
      constructor.
      * split; [done|]. split; [done|].
        rewrite Hp by (unfold h1; rewrite lookup_insert_eq; eauto).
        apply lookup_insert_eq.
      * eapply Forall2_impl; [exact HF|]. intros e0 [hv0|]; simpl; [|done].
        intros (Hne0 & Hnone & Hrows). split; [done|]. split; [|done].
        unfold h1 in Hnone. apply lookup_insert_None in Hnone. tauto.
Qed.

Lemma expandptr_entries (es : list (list (nat * f32))) : forall s k,
  concat (imap (fun i be => replicate (snd be - fst be) (k + i))
            (zip (s :: indptr_from s es) (indptr_from s es)))
  = concat (imap (fun i e => replicate (length e) (k + i)) es).
Proof.
  induction es as [|e es IH]; intros s k; [done|].
  cbn [indptr_from]. set (s' := s + length e).
  change (zip (s :: s' :: indptr_from s' es) (s' :: indptr_from s' es))
    with ((s, s') :: zip (s' :: indptr_from s' es) (indptr_from s' es)).
  rewrite !imap_cons. cbn [concat fst snd].
  rewrite (imap_ext _ (fun i be => replicate (snd be - fst be) (S k + i)))
    by (intros; simpl; f_equal; lia).
  rewrite IH. f_equal; [f_equal; lia|].
  f_equal. apply imap_ext. intros; simpl; f_equal; lia.
Qed.

Lemma zip_row_entries (e : list (nat * f32)) (i : nat) :
  zip (zip (replicate (length e) i) (map fst e)) (map snd e)
  = map (fun p => ((i, fst p), snd p)) e.
Proof. induction e as [|p e IH]; simpl; [done|]. by rewrite IH. Qed.

Lemma zip_entries (es : list (list (nat * f32))) : forall k,
  zip (zip (concat (imap (fun i e => replicate (length e) (k + i)) es))
         (concat (map (map fst) es)))
    (concat (map (map snd) es))
  = concat (imap (fun i e => map (fun p => ((k + i, fst p), snd p)) e) es).
Proof.
  induction es as [|e es IH]; intros k; [done|].
  rewrite !imap_cons. cbn [concat map].
  rewrite zip_with_app by (by rewrite length_replicate, length_map).
  rewrite zip_with_app
    by (by rewrite length_zip, length_replicate, !length_map, Nat.min_id).
  rewrite zip_row_entries. f_equal.
  rewrite (imap_ext _ (fun i e => replicate (length e) (S k + i)))
    by (intros; simpl; f_equal; lia).
  rewrite IH. f_equal. apply imap_ext. intros; simpl.
  apply map_ext. intros. do 2 f_equal. lia.
Qed.

Lemma imap_shift {A B} (f : nat -> A -> B) (l : list A) k :
  imap (fun i x => f (k + S i) x) l = imap (fun i x => f (S k + i) x) l.
Proof. apply imap_ext. intros i x _. simpl. f_equal. lia. Qed.

Lemma map_concat_imap {B} (es : list (list (nat * f32))) :
  forall k (g : nat * nat -> B) (G : nat * f32 -> B),
  (forall i e p, es !! i = Some e -> p ∈ e -> g (k + i, fst p) = G p) ->
  map g (concat (imap (fun i e => map (fun p => (k + i, fst p)) e) es))
  = map G (concat es).
Proof.
  induction es as [|e es IH]; intros k g G Hg; [done|].
  rewrite imap_cons. cbn [concat]. rewrite !map_app, map_map. f_equal.
  - apply Forall_fmap_ext_1, Forall_forall. intros p Hp.
    by apply (Hg 0 e p).
  - unfold compose.
    rewrite (imap_shift (fun j e => map (fun p => (j, fst p)) e)).
    apply IH. intros i e0 p Hi Hp.
    replace (S k + i) with (k + S i) by lia. by apply (Hg (S i) e0 p).
Qed.

Lemma filter_entries (es : list (list (nat * f32))) :
  Forall (Forall (fun p => Float.is_zero (snd p) = false)) es ->
  forall k,
  map fst
    (List.filter (fun p : nat * nat * f32 => negb (Float.is_zero (snd p)))
       (concat (imap (fun i e => map (fun p => ((k + i, fst p), snd p)) e)
                  es)))
  = concat (imap (fun i e => map (fun p => (k + i, fst p)) e) es).
Proof.
  intros Hnz k. rewrite filter_all.
  - clear Hnz. revert k. induction es as [|e es IH]; intros k; [done|].
    rewrite !imap_cons. cbn [concat]. rewrite map_app, map_map. f_equal.
    unfold compose.
    rewrite (imap_shift (fun j e => map (fun p => (j, fst p, snd p)) e)).
    rewrite (imap_shift (fun j e => map (fun p => (j, fst p)) e)).
    apply IH.
  - revert k. induction Hnz as [|e es He _ IH]; intros k; [constructor|].
    rewrite imap_cons. cbn [concat]. apply Forall_app. split.
    + apply Forall_map. eapply Forall_impl; [exact He|].
      intros p Hp. simpl. by rewrite Hp.
    + unfold compose.
      rewrite (imap_shift (fun j e => map (fun p => (j, fst p, snd p)) e)).
      apply IH.
Qed.

Lemma nonzero_entries n m (es : list (list (nat * f32))) :
  Forall (Forall (fun p => Float.is_zero (snd p) = false)) es ->
  nonzero (csr_of_entries n m es)
  = concat (imap (fun i e => map (fun p => (0 + i, fst p)) e) es).
Proof.
  intros Hnz. unfold nonzero, csr_of_entries, expandptr.
  cbn [indptr indices data tail].
  rewrite (imap_ext _ (fun i be => replicate (snd be - fst be) (0 + i)))
    by done.
  rewrite expandptr_entries, zip_entries. by apply filter_entries.
Qed.
End BatchEntries.

Section SampleValue.
Local Open Scope nat_scope.

Lemma filter_column (e : list (nat * f32)) c v :
  StronglySorted (fun p q => fst p < fst q) e -> (c, v) ∈ e ->
  List.filter (fun p => fst p =? c) e = [(c, v)].
Proof.
  induction 1 as [|p e HS IH HF]; intros Hin; [by apply elem_of_nil in Hin|].
  apply elem_of_cons in Hin as [<-|Hin].
  - simpl. rewrite Nat.eqb_refl. f_equal.
    clear -HF. induction HF as [|q e Hq _ IH]; simpl in *; [done|].
    replace (fst q =? c) with false by (symmetry; apply Nat.eqb_neq; lia).
    done.
  - simpl. rewrite Forall_forall in HF. specialize (HF _ Hin) as Hlt.
    simpl in Hlt.
    replace (fst p =? c) with false by (symmetry; apply Nat.eqb_neq; lia).
    by apply IH.
Qed.

Lemma add32_zero_l v : Float.is_zero v = false -> add32 Float.zero v = v.
Proof. by destruct v as [[]|[]| |[] m e]. Qed.

Lemma stored_row_entries (es : list (list (nat * f32))) r e :
  es !! r = Some e ->
  slice (concat es) (nth r (0 :: indptr_from 0 es) 0)
    (nth (S r) (0 :: indptr_from 0 es) 0) = e.
Proof.
  intros Hr. pose proof (segments_from es []) as Hseg.
  cbn [app length] in Hseg.
  rewrite <- Hseg in Hr at 1.
  apply lookup_zip_with_Some in Hr as (a & b & -> & Ha & Hb).
  rewrite (nth_lookup_Some _ _ _ _ Ha). simpl.
  by rewrite (nth_lookup_Some _ _ _ _ Hb).
Qed.

Lemma sample_value_entries n m (es : list (list (nat * f32))) r e c v :
  es !! r = Some e -> (c, v) ∈ e ->
  StronglySorted (fun p q => fst p < fst q) e ->
  Float.is_zero v = false ->
  sample_value (csr_of_entries n m es) r c = v.
Proof.
  intros Hr Hin HS Hv. unfold sample_value, csr_of_entries.
  cbn [indptr indices data]. rewrite zip_concat_entries.
  rewrite (stored_row_entries es r e Hr), (filter_column e c v HS Hin).
  simpl. by apply add32_zero_l.
Qed.
End SampleValue.

Section BatchSorted.
Context `{RandomStateModel} `{Libm}.
Import WeightedMinHashGenerator.
Local Open Scope nat_scope.

Lemma log_data_entries n m (es : list (list (nat * f32))) :
  Forall (canonical_row m) es ->
  map (fun rc => log32 (sample_value (csr_of_entries n m es) rc.1 rc.2))
    (nonzero (csr_of_entries n m es))
  = map (fun p => log32 (snd p)) (concat es).
Proof.
  intros Hc. rewrite nonzero_entries.
  2: { eapply Forall_impl; [exact Hc|]. intros e [_ He].
       eapply Forall_impl; [exact He|]. by intros p [_ Hp]. }
  apply map_concat_imap. intros i e [c v] Hi Hp. simpl. f_equal.
  rewrite Forall_forall in Hc.
  destruct (Hc e) as [HS HF]; [by eapply list_elem_of_lookup_2|].
  rewrite Forall_forall in HF. destruct (HF _ Hp) as [_ Hv].
  by apply (sample_value_entries n m es i e c v).
Qed.

Lemma cidx_entries n m (es : list (list (nat * f32))) :
  Forall (Forall (fun p => Float.is_zero (snd p) = false)) es ->
  map snd (nonzero (csr_of_entries n m es)) = map fst (concat es).
Proof.
  intros Hnz. rewrite nonzero_entries by done.
  by apply map_concat_imap.
Qed.

Lemma minhash_many_sorted_entries self (h : heap) n ncols es :
  wf self -> (0 < sample_size self)%Z ->
  Z.of_nat ncols = dim self -> length es = n ->
  Forall (canonical_row ncols) es ->
  exists res h',
    minhash_many_sorted self (csr_of_entries n ncols es) h
    = (Ok (map (fun o : option loc =>
                  match o with
                  | Some hv => Some (sketch_of self hv)
                  | None => None
                  end) res), h') /\
    preserves h h' /\
    Forall2 (entries_result self h h') es res.
Proof.
  intros (Hd & Hs & Hrs & Hcs & Hbs) Hss Hdim Hn Hcan.
  rewrite <- Hdim, Nat2Z.id in Hrs, Hcs, Hbs.
  assert (Hnz : Forall (Forall (fun p => Float.is_zero (snd p) = false)) es).
  { eapply Forall_impl; [exact Hcan|]. intros e [_ He].
    eapply Forall_impl; [exact He|]. by intros p [_ Hp]. }
  set (E := concat es).
  assert (Hcidx : Forall (fun c => c < ncols) (map fst E)).
  { apply Forall_map. unfold E. apply Forall_concat.
    eapply Forall_impl; [exact Hcan|]. intros e [_ He].
    eapply Forall_impl; [exact He|]. by intros p [Hp _]. }
  unfold minhash_many_sorted.
  rewrite log_data_entries by done. rewrite cidx_entries by done. fold E.
  rewrite (gather_eval _ _ _ _ Hrs Hcidx), (gather_eval _ _ _ _ Hbs Hcidx),
    (gather_eval _ _ _ _ Hcs Hcidx).
  unfold bind at 1, lift. unfold bind at 1. unfold bind at 1.
  unfold vstack_copies. replace (sample_size self <=? 0)%Z with false
    by (symmetry; lia).
  unfold bind at 1.
  destruct Hrs as [Hrl _], Hcs as [Hcl _], Hbs as [Hbl _].
  destruct (t_many_entries E (Z.to_nat (sample_size self))
              (rs self) (betas self) (ln_cs self) Hrl Hbl Hcl) as [Ht Ha].
  cbv zeta in Ht, Ha. rewrite Ht in Ha. rewrite Ht, Ha.
  fold (sample_rows self).
  assert (Hends : take (shape0 (csr_of_entries n ncols es))
                    (tail (indptr (csr_of_entries n ncols es))
                     ++ [nnz (csr_of_entries n ncols es)])
                  = indptr_from 0 es).
  { cbn [csr_of_entries shape0 indptr tail].
    apply take_app_length'. by rewrite indptr_from_length. }
  rewrite Hends.
  destruct (many_loop_entries self E ltac:(lia) es [] h eq_refl)
    as (res & h' & E1 & Hp & HF).
  cbn [length] in E1. unfold bind, ret. rewrite E1.
  by exists res, h'.
Qed.
End BatchSorted.

(** ** WeightedMinHashGenerator.minhash_many: inputs that are refused *)

Section ManyEdges.
Context `{RandomStateModel} `{Libm}.
Import WeightedMinHashGenerator.

Lemma minhash_many_matrix self (h : heap) l X0 :
  matrix_of h l = Some X0 -> Z.of_nat (shape1 X0) = dim self ->
  minhash_many self (PyRef l) h
  = minhash_many_sorted self (sort_indices X0)
      (<[fresh (dom h) := CsrMatrix (sort_indices X0)]> h).
Proof.
  unfold matrix_of, minhash_many, bind at 1, load.
  destruct (h !! l) as [[| ncols rows| |X|]|]; try done;
    intros [= <-] Hd; simpl in Hd; rewrite Hd, Z.eqb_refl; simpl;
    apply minhash_many_csr_eval.
Qed.


End ManyEdges.

Section OnlyExplicitZeros.
Context `{RandomStateModel} `{Libm}.
Import WeightedMinHashGenerator.
Local Open Scope nat_scope.






End OnlyExplicitZeros.

(** ** WeightedMinHashGenerator.minhash_many: the rows of a dense
    matrix *)

Section DenseRows.
Context `{RandomStateModel} `{Libm}.
Import WeightedMinHashGenerator.
Local Open Scope nat_scope.

Lemma row_entries_canonical ncols (r : list f32) :
  length r = ncols -> canonical_row ncols (row_entries r).
Proof.
  intros Hr. destruct (row_entries_spec r) as (HF & HS & _).
  split; [done|]. eapply Forall_impl; [exact HF|].
  intros p [Hl Hz]. split; [|done]. apply lookup_lt_Some in Hl. lia.
Qed.

Lemma minhash_many_dense_rows self (h : heap) l ncols rows :
  wf self -> (0 < sample_size self)%Z ->
  h !! l = Some (Ndarray2 ncols rows) ->
  Z.of_nat ncols = dim self ->
  Forall (fun r => length r = ncols) rows ->
  exists res h',
    minhash_many self (PyRef l) h = (Ok (sketches_of self res), h') /\
    preserves h h' /\
    Forall2 (fun r => entries_result self h h' (row_entries r)) rows res.
Proof.
  intros Hwf Hss Hl Hdim Hrows.
  rewrite (minhash_many_matrix self h l (csr_of_dense ncols rows))
    by (done || (unfold matrix_of; by rewrite Hl)).
  rewrite sort_indices_dense.
  set (h1 := <[_ := _]> h).
  change (csr_of_dense ncols rows)
    with (csr_of_entries (length rows) ncols (map row_entries rows)).
  destruct (minhash_many_sorted_entries self h1 (length rows) ncols
              (map row_entries rows) Hwf Hss Hdim)
    as (res & h' & E & Hp & HF).
  { by rewrite length_map. }
  { apply Forall_map. eapply Forall_impl; [exact Hrows|].
    intros r Hr. by apply row_entries_canonical. }
  exists res, h'. split; [done|].
  assert (Hp1 : preserves h h1) by apply preserves_alloc.
  split; [by eapply preserves_trans|].
  change (map row_entries rows) with (row_entries <$> rows) in HF.
  rewrite Forall2_fmap_l in HF.
  eapply Forall2_impl; [exact HF|]. intros r [hv|]; simpl; [|done].
  intros (Hne & Hnone & Hsome). split; [done|]. split; [|done].
  unfold h1 in Hnone. apply lookup_insert_None in Hnone. tauto.
Qed.


Lemma sketches_of_lookup self res i o :
  sketches_of self res !! i = Some o ->
  exists o', res !! i = Some o' /\
    o = match o' with Some hv => Some (sketch_of self hv) | None => None end.
Proof.
  unfold sketches_of. rewrite list_lookup_fmap.
  destruct (res !! i) as [o'|]; simpl; [|done]. intros [= <-]. eauto.
Qed.


End DenseRows.

Section TwoPaths.
Context `{RandomStateModel} `{Libm}.
Import WeightedMinHashGenerator.
Local Open Scope nat_scope.

Lemma sample_rows_lookup self j s :
  sample_rows self !! j = Some s ->
  rs self !! j = Some s.1 /\ betas self !! j = Some s.2.1 /\
  ln_cs self !! j = Some s.2.2.
Proof.
  unfold sample_rows. intros Hs.
  apply lookup_zip_with_Some in Hs as (r & bc & -> & Hr & Hbc).
  apply lookup_zip_with_Some in Hbc as (b & c & -> & Hb & Hc). done.
Qed.

Lemma sample_rows_length self :
  wf self -> length (sample_rows self) = Z.to_nat (sample_size self).
Proof.
  intros (_ & _ & [Hr _] & [Hc _] & [Hb _]). unfold sample_rows.
  rewrite !length_zip. lia.
Qed.

Lemma cast_int64_trunc tk z :
  Float.trunc tk = Some z -> (int64_min <= z <= int64_max)%Z ->
  cast_int64 tk = z.
Proof.
  intros Ht Hz. unfold cast_int64. rewrite Ht.
  replace ((int64_min <=? z)%Z && (z <=? int64_max)%Z) with true; [done|].
  symmetry. apply andb_true_iff. lia.
Qed.

Lemma batch_pair_spec e s :
  e <> [] ->
  exists a c x,
    e !! a = Some (c, x) /\
    batch_pair e s = [Z.of_nat c; cast_int64 (t_entry s.1 s.2.1 (c, x))].
Proof.
  intros He. unfold batch_pair.
  set (a := argmin_index _).
  assert (Ha : a < length e).
  { destruct (argmin_index_spec (map (ln_a_entry s.1 s.2.1 s.2.2) e))
      as [_ Hlt]; [by destruct e|].
    by rewrite length_map in Hlt. }
  destruct (lookup_lt_is_Some_2 e a Ha) as [[c x] Hcx].
  exists a, c, x. split; [done|].
  rewrite (nth_lookup_Some (map fst e) a 0 c)
    by (by rewrite list_lookup_fmap, Hcx).
  by rewrite (nth_lookup_Some (map (t_entry s.1 s.2.1) e) a Float.nan
                (t_entry s.1 s.2.1 (c, x)))
    by (by rewrite list_lookup_fmap, Hcx).
Qed.

Lemma t_at_entry self (r : list f32) j s k x tk :
  sample_rows self !! j = Some s -> r !! k = Some x ->
  Float.is_zero x = false ->
  t_at self r j !! k = Some tk -> tk = t_entry s.1 s.2.1 (k, x).
Proof.
  intros Hs Hx Hz Ht.
  destruct (sample_rows_lookup self j s Hs) as (Hr & Hb & _).
  unfold t_at, t_single, zip_with3 in Ht. rewrite Hr, Hb in Ht. simpl in Ht.
  apply lookup_zip_with_Some in Ht as (xl & [r' b'] & -> & Hxl & Hrb).
  apply lookup_zip_with_Some in Hrb as (r'' & b'' & [= <- <-] & Hr' & Hb').
  rewrite list_lookup_fmap in Hxl. unfold subst_zeros in Hxl.
  rewrite list_lookup_fmap, Hx in Hxl. simpl in Hxl. rewrite Hz in Hxl.
  injection Hxl as <-. unfold t_entry. simpl.
  by rewrite (nth_lookup_Some _ _ _ _ Hr'), (nth_lookup_Some _ _ _ _ Hb').
Qed.

(** X18. The two transforms can differ in the dimension only: for a
    row of a dense matrix, the pairs of the sketch of [minhash_many]
    and of the sketch of [minhash] on that row are, sample by sample,
    equal as soon as they record the same [k]. *)
Theorem batch_and_single_agree_on_t self (h hs : heap) l ncols rows i r
    res h' sb v s hs' :
  wf self -> (0 < sample_size self)%Z ->
  Z.of_nat ncols = dim self ->
  h !! l = Some (Ndarray2 ncols rows) ->
  Forall (fun r => length r = ncols) rows ->
  rows !! i = Some r ->
  minhash_many self (PyRef l) h = (Ok res, h') ->
  res !! i = Some (Some sb) ->
  as_float32 hs v = Some r ->
  minhash self v hs = (Ok s, hs') ->
  exists rb rsgl,
    h' !! WeightedMinHash.hashvalues sb = Some (IntArray2 rb) /\
    hs' !! WeightedMinHash.hashvalues s = Some (IntArray2 rsgl) /\
    Forall2 same_t_at_same_k rb rsgl.
Proof.
  intros Hwf Hss Hdim Hl Hrows Hi Hmany Hsb Hv Hsingle.
  destruct (minhash_many_dense_rows self h l ncols rows Hwf Hss Hl Hdim Hrows)
    as (res0 & h0 & E & _ & HF).
  rewrite Hmany in E. injection E as -> ->.
  apply sketches_of_lookup in Hsb as (o & Ho & Heq).
  destruct o as [hv|]; [|done]. injection Heq as ->.
  destruct (Forall2_lookup_r _ _ _ _ _ HF Ho) as (r' & Hr' & Hres).
  rewrite Hi in Hr'. injection Hr' as <-.
  destruct Hres as (Hne & _ & Hrb).
  destruct (minhash_ok_rows self hs v s hs' r Hsingle Hv)
    as (rsgl & Hloop & _ & _ & _ & Hrsgl).
  pose proof (loop_rows_length _ _ _ _ _ Hloop) as Hlen.
  assert (Hmin : forall j kt, rsgl !! j = Some kt ->
            first_minimum (ln_a_at self r j) (t_at self r j) kt).
  { intros j kt Hj. apply sample_at_first_minimum.
    by apply (loop_rows_lookup self _ _ 0 rsgl j kt Hloop). }
  exists (batch_rows self (row_entries r)), rsgl.
  split; [done|]. split; [done|].
  apply Forall2_same_length_lookup. split.
  { unfold batch_rows. by rewrite length_map, sample_rows_length, Hlen. }
  intros j pb ps Hpb Hps. unfold batch_rows in Hpb.
  rewrite list_lookup_fmap in Hpb.
  destruct (sample_rows self !! j) as [sj|] eqn:Hsj; [|done].
  simpl in Hpb. injection Hpb as <-.
  destruct (batch_pair_spec (row_entries r) sj Hne) as (a & c & x & Hcx & ->).
  destruct (Hmin j ps Hps) as (k & _ & tk & z & -> & _ & Htk & Htr & Hz & _).
  exists (Z.of_nat c), (cast_int64 (t_entry sj.1 sj.2.1 (c, x))),
         (Z.of_nat k), z.
  split; [done|]. split; [done|]. intros Hck. apply Nat2Z.inj in Hck as ->.
  destruct (row_entries_spec r) as (Hent & _ & _).
  rewrite Forall_forall in Hent.
  destruct (Hent (k, x)) as [Hx Hnz]; [by eapply list_elem_of_lookup_2|].
  simpl in Hx, Hnz.
  rewrite <- (t_at_entry self r j sj k x tk Hsj Hx Hnz Htk).
  by apply cast_int64_trunc.
Qed.
End TwoPaths.

Section ArgminNaN.

Lemma SFleb_nan_r x : SFleb x Float.nan = false.
Proof. by destruct x as [[]|[]| |[] m e]. Qed.

Lemma SFleb_not_nan x y :
  SFleb x y = true -> Float.is_nan x = false /\ Float.is_nan y = false.
Proof. by destruct x as [[]|[]| |[] ? ?], y as [[]|[]| |[] ? ?]. Qed.

Lemma argmin_loop_first l : forall pre best bestv,
  pre !! best = Some bestv ->
  (forall j b, (j < best)%nat -> pre !! j = Some b ->
     Float.is_nan b = false /\ SFleb b bestv = false) ->
  (Float.is_nan bestv = false ->
   forall j b, pre !! j = Some b -> SFleb bestv b = true) ->
  exists v,
    (pre ++ l) !! argmin_loop best bestv (length pre) l = Some v /\
    (forall j b, (j < argmin_loop best bestv (length pre) l)%nat ->
       (pre ++ l) !! j = Some b ->
       Float.is_nan b = false /\ SFleb b v = false) /\
    (Float.is_nan v = false ->
     forall j b, (pre ++ l) !! j = Some b -> SFleb v b = true).
Proof.
  induction l as [|x l IH]; intros pre best bestv Hbest Hbefore Hle.
  - simpl. rewrite app_nil_r. by exists bestv.
  - simpl. destruct (Float.is_nan bestv) eqn:Hbn.
    + (* the scan has met a NaN: it is returned *)
      exists bestv. split; [by apply lookup_app_l_Some|].
      apply lookup_lt_Some in Hbest as Hlt. split.
      * intros j b Hj Hjb. rewrite lookup_app_l in Hjb by lia. eauto.
      * congruence.
    + specialize (Hle eq_refl).
      replace (pre ++ x :: l) with ((pre ++ [x]) ++ l)
        by (by rewrite <- app_assoc).
      replace (S (length pre)) with (length (pre ++ [x]))
        by (rewrite length_app; simpl; lia).
      assert (Hpre : forall j b, pre !! j = Some b -> Float.is_nan b = false).
      { intros j b Hj. by destruct (SFleb_not_nan _ _ (Hle j b Hj)). }
      destruct (SFleb bestv x) eqn:Hcmp; simpl.
      * destruct (SFleb_not_nan _ _ Hcmp) as [_ Hxn].
        apply IH; [by apply lookup_app_l_Some | |].
        -- intros j b Hjb Hj. apply lookup_lt_Some in Hbest as Hlt.
           rewrite lookup_app_l in Hj by lia. eauto.
        -- intros _ j b Hj.
           apply lookup_app_Some in Hj as [Hj|[_ Hj]]; [eauto|].
           apply list_lookup_singleton_Some in Hj as [_ <-]. done.
      * apply IH.
        -- rewrite lookup_app_r by lia. by rewrite Nat.sub_diag.
        -- intros j b Hjb Hj. rewrite lookup_app_l in Hj by lia.
           split; [eauto|].
           specialize (Hle j b Hj).
           destruct (Float.is_nan x) eqn:Hxn.
           { destruct x; try done. apply SFleb_nan_r. }
           apply SFltb_not_leb.
           eapply SFltb_leb_trans; [|exact Hle].
           by apply SFleb_total.
        -- intros Hxn j b Hj.
           pose proof (SFleb_total bestv x Hbn Hxn Hcmp) as Hx.
           apply lookup_app_Some in Hj as [Hj|[_ Hj]].
           ++ apply SFltb_leb. eapply SFltb_leb_trans; eauto.
           ++ apply list_lookup_singleton_Some in Hj as [_ <-].
              by apply SFleb_refl.
Qed.

Lemma np_argmin_first l k :
  np_argmin l = Ok k ->
  exists v, l !! k = Some v /\
    (forall j b, (j < k)%nat -> l !! j = Some b ->
       Float.is_nan b = false /\ SFleb b v = false) /\
    (Float.is_nan v = false ->
     forall j b, l !! j = Some b -> SFleb v b = true).
Proof.
  destruct l as [|x l]; [done|]. intros [= <-].
  apply (argmin_loop_first l [x] 0%nat x); [done| |].
  - intros j b Hj. lia.
  - intros Hx [|j] b; simpl; [|done]. intros [= <-]. by apply SFleb_refl.
Qed.
End ArgminNaN.

Section ManySelection.
Context `{RandomStateModel} `{Libm}.
Import WeightedMinHashGenerator.
Local Open Scope nat_scope.

Lemma batch_pair_argmin self e i s :
  e <> [] -> sample_rows self !! i = Some s ->
  argmin_pair (map fst e) (ln_a_many_at self e i) (t_many_at self e i)
    (batch_pair e s).
Proof.
  intros He Hs.
  destruct (sample_rows_lookup self i s Hs) as (Hr & Hb & Hc).
  unfold ln_a_many_at, t_many_at. rewrite Hr, Hb, Hc. simpl.
  unfold batch_pair.
  destruct (argmin_index_spec (map (ln_a_entry s.1 s.2.1 s.2.2) e))
    as [Ha Hlt]; [by destruct e|].
  set (a := argmin_index _) in *. rewrite length_map in Hlt.
  destruct (np_argmin_first _ _ Ha) as (v & Hv & Hbefore & Hleast).
  destruct (lookup_lt_is_Some_2 e a Hlt) as [[k x] Hkx].
  exists a, k, v, (t_entry s.1 s.2.1 (k, x)).
  rewrite (nth_lookup_Some (map fst e) a 0 k)
    by (by rewrite list_lookup_fmap, Hkx).
  rewrite (nth_lookup_Some (map (t_entry s.1 s.2.1) e) a Float.nan
             (t_entry s.1 s.2.1 (k, x)))
    by (by rewrite list_lookup_fmap, Hkx).
  split; [done|]. split; [by rewrite list_lookup_fmap, Hkx|].
  split; [done|]. split; [by rewrite list_lookup_fmap, Hkx|]. done.
Qed.

(** X19. Pair [j] of the sketch that [minhash_many] returns for a row
    of a dense matrix is [(k, t[a])], [t[a]] converted to int64,
    where [a] is the position that [np.argmin] returns on [ln_a] of
    sample [j] over the entries of the row that are not zero (the
    first NaN if there is one, the first minimum otherwise) and [k]
    is the dimension of that entry. *)
Theorem minhash_many_dense_argmin self (h : heap) l ncols rows r i res h' s :
  wf self -> (0 < sample_size self)%Z ->
  Z.of_nat ncols = dim self ->
  h !! l = Some (Ndarray2 ncols rows) ->
  Forall (fun r => length r = ncols) rows ->
  rows !! i = Some r ->
  minhash_many self (PyRef l) h = (Ok res, h') ->
  res !! i = Some (Some s) ->
  exists rws,
    h' !! WeightedMinHash.hashvalues s = Some (IntArray2 rws) /\
    length rws = Z.to_nat (sample_size self) /\
    forall j pair, rws !! j = Some pair ->
      argmin_pair (map fst (row_entries r))
        (ln_a_many_at self (row_entries r) j)
        (t_many_at self (row_entries r) j) pair.
Proof.
  intros Hwf Hss Hdim Hl Hrows Hi Hmany Hs.
  destruct (minhash_many_dense_rows self h l ncols rows Hwf Hss Hl Hdim Hrows)
    as (res0 & h0 & E & _ & HF).
  rewrite Hmany in E. injection E as -> ->.
  apply sketches_of_lookup in Hs as (o & Ho & Heq).
  destruct o as [hv|]; [|done]. injection Heq as ->.
  destruct (Forall2_lookup_r _ _ _ _ _ HF Ho) as (r' & Hr' & Hres).
  rewrite Hi in Hr'. injection Hr' as <-.
  destruct Hres as (Hne & _ & Hrb).
  exists (batch_rows self (row_entries r)). split; [done|]. split.
  { unfold batch_rows. by rewrite length_map, sample_rows_length. }
  intros j pair Hj. unfold batch_rows in Hj. rewrite list_lookup_fmap in Hj.
  destruct (sample_rows self !! j) as [sj|] eqn:Hsj; [|done].
  simpl in Hj. injection Hj as <-. by apply batch_pair_argmin.
Qed.
End ManySelection.

(** ** WeightedMinHashGenerator.minhash_many: sparse and dense input *)

Section SortedRows.
Local Open Scope nat_scope.









End SortedRows.

Section SparseDense.
Context `{RandomStateModel} `{Libm}.
Import WeightedMinHashGenerator.
Local Open Scope nat_scope.


End SparseDense.

(** ** WeightedMinHashGenerator.minhash_many: the arrays of the
    sketches *)

Section NewArrays.
Context `{RandomStateModel} `{Libm}.
Import WeightedMinHashGenerator.
Local Open Scope nat_scope.

Lemma many_doc_ok self cidx t ln_a b e (h : heap) hv h' :
  many_doc self cidx t ln_a b e h = (Ok hv, h') ->
  hv = fresh (dom h) /\ exists rows, h' = <[hv := IntArray2 rows]> h.
Proof.
  unfold many_doc, bind, lift, np_zeros2, alloc, store, raise, ret.
  destruct (rmap np_argmin _) as [doc_argmin|]; simpl; [|done].
  destruct (rmap _ doc_argmin) as [doc_k|]; simpl; [|done].
  destruct (sample_size self <? 0)%Z; simpl; [done|].
  destruct (rmap _ (zip t doc_argmin)) as [doc_t|]; simpl; [|done].
  rewrite insert_insert_eq. intros [= <- <-]. eauto.
Qed.

Lemma many_loop_new self cidx t ln_a rowends :
  forall b (h : heap) res h',
    many_loop self cidx t ln_a b rowends h = (Ok res, h') ->
    preserves h h' /\
    (forall i a, res !! i = Some (Some a) ->
       h !! a = None /\ exists rows, h' !! a = Some (IntArray2 rows)) /\
    (forall i j a c, i < j -> res !! i = Some (Some a) ->
       res !! j = Some (Some c) -> a <> c).
Proof.
  induction rowends as [|doc_end rowends IH]; intros b h res h'.
  - simpl. intros [= <- <-]. split; [apply preserves_refl|].
    split; [done|]. done.
  - cbn [many_loop]. unfold bind at 1.
    destruct (Nat.eqb_spec b doc_end) as [Hb|Hb].
    + unfold ret at 1. unfold bind.
      destruct (many_loop self cidx t ln_a doc_end rowends h)
        as [[rest|] hr] eqn:Hrest; [|done].
      intros [= <- <-].
      destruct (IH _ _ _ _ Hrest) as (Hp & Hnew & Hne).
      split; [done|]. split.
      * intros [|i] a; simpl; [done|]. apply Hnew.
      * intros [|i] [|j] a c Hij; simpl; try done; try lia.
        apply Hne. lia.
    + unfold bind at 1.
      destruct (many_doc self cidx t ln_a b doc_end h) as [[hv|] h1] eqn:Hdoc;
        [|done].
      apply many_doc_ok in Hdoc as (-> & rows & ->).
      set (hv := fresh (dom h)) in *. set (h1 := <[hv := _]> h) in *.
      unfold ret at 1. unfold bind.
      destruct (many_loop self cidx t ln_a doc_end rowends h1)
        as [[rest|] hr] eqn:Hrest; [|done].
      intros [= <- <-].
      destruct (IH _ _ _ _ Hrest) as (Hp & Hnew & Hne).
      assert (Hfresh : h !! hv = None) by apply fresh_lookup.
      assert (H1hv : h1 !! hv = Some (IntArray2 rows))
        by apply lookup_insert_eq.
      split.
      { eapply preserves_trans; [apply preserves_alloc | exact Hp]. }
      split.
      * intros [|i] a; simpl.
        -- intros [= <-]. split; [done|]. exists rows.
           rewrite Hp by eauto. done.
        -- intros Hi. destruct (Hnew i a Hi) as [Hnone Hsome].
           split; [|done]. unfold h1 in Hnone.
           apply lookup_insert_None in Hnone. tauto.
      * intros [|i] [|j] a c Hij; simpl; try done; try lia.
        -- intros [= <-] Hj. destruct (Hnew j c Hj) as [Hnone _].
           intros <-. by rewrite H1hv in Hnone.
        -- apply Hne. lia.
Qed.

(** X21. Every sketch that [minhash_many] returns has the seed of the
    generator and an array that did not exist before the call, and no
    two sketches of the result share their array. *)
Theorem minhash_many_new_arrays self X (h : heap) res h' :
  minhash_many self X h = (Ok res, h') ->
  (forall i s, res !! i = Some (Some s) ->
     WeightedMinHash.seed s = seed self /\
     h !! WeightedMinHash.hashvalues s = None /\
     exists rows, h' !! WeightedMinHash.hashvalues s = Some (IntArray2 rows)) /\
  (forall i j si sj, i <> j -> res !! i = Some (Some si) ->
     res !! j = Some (Some sj) ->
     WeightedMinHash.hashvalues si <> WeightedMinHash.hashvalues sj).
Proof.
  intros Hm.
  assert (Hsorted : exists Xs,
    minhash_many_sorted self Xs (<[fresh (dom h) := CsrMatrix Xs]> h)
    = (Ok res, h')).
  { destruct X as [xs|l|x]; simpl in Hm; try done.
    unfold bind at 1, load in Hm.
    destruct (h !! l) as [[dt xs|ncols rows| |X0|]|]; try done.
    - destruct (negb _); [done|]. rewrite minhash_many_csr_eval in Hm. eauto.
    - destruct (negb _); [done|]. rewrite minhash_many_csr_eval in Hm. eauto. }
  destruct Hsorted as (Xs & Hs). clear Hm.
  set (h1 := <[_ := _]> h) in Hs.
  assert (Hp1 : forall a, h1 !! a = None -> h !! a = None).
  { intros a Ha. unfold h1 in Ha. apply lookup_insert_None in Ha. tauto. }
  unfold minhash_many_sorted in Hs.
  unfold bind at 1, lift in Hs.
  destruct (gather (rs self) _) as [rs_c|]; [|done].
  unfold bind at 1 in Hs. destruct (gather (betas self) _) as [betas_c|]; [|done].
  unfold bind at 1 in Hs. destruct (gather (ln_cs self) _) as [ln_cs_c|]; [|done].
  unfold bind at 1 in Hs. destruct (vstack_copies _ _) as [log_data|]; [|done].
  unfold bind, ret in Hs.
  destruct (many_loop _ _ _ _ _ _ _) as [[res0|] h0] eqn:Hloop; [|done].
  injection Hs as <- <-.
  destruct (many_loop_new _ _ _ _ _ _ _ _ _ Hloop) as (_ & Hnew & Hne).
  split.
  - intros i s Hi. rewrite list_lookup_fmap in Hi.
    destruct (res0 !! i) as [[a|]|] eqn:Ha; try done.
    simpl in Hi. injection Hi as <-. simpl.
    destruct (Hnew i a Ha) as [Hnone Hsome]. split; [done|].
    split; [by apply Hp1 | done].
  - intros i j si sj Hij Hi Hj. rewrite list_lookup_fmap in Hi, Hj.
    destruct (res0 !! i) as [[a|]|] eqn:Ha; try done.
    destruct (res0 !! j) as [[c|]|] eqn:Hc; try done.
    simpl in Hi, Hj. injection Hi as <-. injection Hj as <-. simpl.
    destruct (Nat.lt_total i j) as [Hlt|[->|Hgt]]; [|done|].
    + by apply (Hne i j a c).
    + intros Heq. by apply (Hne j i c a).
Qed.
End NewArrays.

(** ** The statements at concrete inputs *)

Section Examples.
Import WeightedMinHashGenerator.
#[local] Existing Instance lcg.
#[local] Existing Instance coarse_libm.

Lemma coarse_libm_laws : LibmLaws.
Proof.
  split; [reflexivity|].
  intros x. by destruct x as [[]|[]| |[] m e].
Qed.

Lemma example_generator_wf : wf example_generator.
Proof. unfold wf, has_shape. simpl. repeat split; try lia; repeat constructor. Qed.

(** C1 at the example generator. *)
Lemma batch_differs_from_single_witness :
  exists res h' s rows,
    minhash_many example_generator (PyRef 1%positive) store_explicit_zero
      = (Ok res, h') /\
    res !! 1%nat = Some (Some s) /\
    h' !! WeightedMinHash.hashvalues s = Some (IntArray2 rows) /\
    csr_row X_explicit_zero 1 = cast32 [zero64; one64] /\
    forall s1 h1,
      minhash example_generator (PySeq [zero64; one64]) h' = (Ok s1, h1) ->
      exists rows1,
        h1 !! WeightedMinHash.hashvalues s1 = Some (IntArray2 rows1) /\
        h1 !! WeightedMinHash.hashvalues s = Some (IntArray2 rows) /\
        rows1 <> rows /\
        fst (WeightedMinHash.__eq__ s s1 h1) = Ok false.
Proof.
  apply (batch_differs_from_single (H1 := coarse_libm_laws)
           example_generator store_explicit_zero 1%positive).
  - exact example_generator_wf.
  - reflexivity.
  - reflexivity.
  - reflexivity.
Defined.

(** C2 at the float32 array (1, 0, 3, 0): after the call it is
    (1, NaN, 3, NaN). *)
Lemma minhash_mutates_float32_input_witness :
  snd (minhash example_generator4 (PyRef 1%positive) store_float32_vector)
    !! 1%positive
    = Some (Ndarray1 Float32 [one32; Float.nan; three32; Float.nan]) /\
  (existsb Float.is_zero [one32; Float.zero; three32; Float.zero] = true ->
   snd (minhash example_generator4 (PyRef 1%positive) store_float32_vector)
     !! 1%positive
   <> store_float32_vector !! 1%positive).
Proof.
  apply (minhash_mutates_float32_input example_generator4
           store_float32_vector 1%positive
           [one32; Float.zero; three32; Float.zero]).
  - simpl. lia.
  - reflexivity.
  - reflexivity.
  - reflexivity.
Defined.

(** C3 (amended) at two sketches of two pairs. *)
Lemma jaccard_correct_witness :
  exists q : Q,
    WeightedMinHash.jaccard sketch_a sketch_b store_two_sketches
      = (Ok q, store_two_sketches) /\
    q = (Z.of_nat (matching_positions [[0; 3]; [1; 2]] [[0; 3]; [1; 5]])
         # Pos.of_nat 2) /\
    (0 <= q)%Q /\ (q <= 1)%Q.
Proof.
  apply (proj2 (jaccard_correct store_two_sketches sketch_a sketch_b
                  [[0; 3]; [1; 2]] [[0; 3]; [1; 5]] eq_refl eq_refl));
    [reflexivity | reflexivity | simpl; lia].
Defined.

(** C3, counterexample: two sketches without pairs and with one seed
    pass both checks of [jaccard], and the division raises
    ZeroDivisionError. *)
Lemma jaccard_empty_sketches_raise :
  WeightedMinHash.seed sketch_a = WeightedMinHash.seed sketch_a /\
  fst (WeightedMinHash.__len__ sketch_a store_empty_sketch) = Ok 0%nat /\
  fst (WeightedMinHash.jaccard sketch_a sketch_a store_empty_sketch)
    = Raise ZeroDivisionError.
Proof. repeat split. Qed.

(** C4 at the example generator. *)
Lemma explicit_zero_row_gets_sketch_witness :
  csr_row X_explicit_zero 0 = [Float.zero; Float.zero] /\
  (exists res h' s,
     minhash_many example_generator (PyRef 1%positive) store_explicit_zero
       = (Ok res, h') /\
     res !! 0%nat = Some (Some s)) /\
  forall h0 : xheap,
    fst (minhash example_generator (PySeq [zero64; zero64]) h0)
    = Raise ValueError_all_zeros.
Proof.
  apply (explicit_zero_row_gets_sketch
           example_generator store_explicit_zero 1%positive).
  - exact example_generator_wf.
  - reflexivity.
  - reflexivity.
  - reflexivity.
Defined.

(** C8 at the example generator. *)
Lemma explicit_zero_selects_zero_weight_witness :
  exists res h' s rows,
    minhash_many example_generator (PyRef 1%positive) store_explicit_zero
      = (Ok res, h') /\
    res !! 1%nat = Some (Some s) /\
    h' !! WeightedMinHash.hashvalues s = Some (IntArray2 rows) /\
    length rows = 2%nat /\
    selects 0 rows /\
    csr_row X_explicit_zero 1 !! 0%nat = Some Float.zero.
Proof.
  apply (explicit_zero_selects_zero_weight
           example_generator store_explicit_zero 1%positive).
  - exact example_generator_wf.
  - reflexivity.
  - reflexivity.
  - reflexivity.
Defined.

(** C5, counterexample: [dim = 0] and [sample_size = 0] are accepted (no draw is made, so
    the result is the same for every generator of random numbers), and
    a seed out of range is refused whatever the dimensions. *)
Lemma init_zero_dim_succeeds :
  fst (__init__ 0 1 1 (∅ : xheap))
  = Ok {| dim := 0; sample_size := 1; seed := 1;
          rs := [[]]; ln_cs := [[]]; betas := [[]] |} /\
  fst (__init__ 2 0 1 (∅ : xheap))
  = Ok {| dim := 2; sample_size := 0; seed := 1;
          rs := []; ln_cs := []; betas := [] |} /\
  fst (__init__ 2 2 (-1) (∅ : xheap)) = Raise ValueError_seed_range.
Proof. repeat split; reflexivity. Qed.

(** C5 (amended) at a negative dimension and at (2, 2, 1). *)
Lemma init_outcome_witness :
  (fst (__init__ (-1) 2 1 (∅ : xheap)) = Raise ValueError_seed_range \/
   fst (__init__ (-1) 2 1 (∅ : xheap)) = Raise ValueError_negative_dimensions) /\
  exists g, fst (__init__ 2 2 1 (∅ : xheap)) = Ok g /\ wf g /\
            dim g = 2 /\ sample_size g = 2 /\ seed g = 1.
Proof.
  split.
  - apply (proj1 (init_outcome ∅ (-1) 2 1)). left. lia.
  - apply (proj2 (init_outcome ∅ 2 2 1)); lia.
Defined.

(** C6 at two constructions with (2, 2, 1), one in an empty store and
    one in a store where numpy's global generator has been used. *)
Lemma init_deterministic_witness :
  rs example_generator = rs example_generator /\
  ln_cs example_generator = ln_cs example_generator /\
  betas example_generator = betas example_generator /\
  (forall v (h : xheap),
     minhash example_generator v h = minhash example_generator v h) /\
  (forall X (h : xheap),
     minhash_many example_generator X h
     = minhash_many example_generator X h).
Proof.
  apply (init_deterministic ∅ store_global_rng 2 2 1
           example_generator example_generator);
    reflexivity.
Defined.

Lemma pair_eq {A B} (x : A * B) (a : A) : fst x = a -> x = (a, snd x).
Proof. intros <-. by destruct x. Qed.

(** C7 (amended) at the vector (1, 0). *)
Lemma minhash_twice_witness :
  exists s2 h2 rows,
    minhash example_generator (PySeq [one64; zero64])
      (snd (minhash example_generator (PySeq [one64; zero64]) (∅ : xheap)))
      = (Ok s2, h2) /\
    h2 !! WeightedMinHash.hashvalues (sketch_at 1 2%positive)
      = Some (IntArray2 rows) /\
    h2 !! WeightedMinHash.hashvalues s2 = Some (IntArray2 rows) /\
    fst (WeightedMinHash.__eq__ (sketch_at 1 2%positive) s2 h2) = Ok true /\
    exists q : Q,
      fst (WeightedMinHash.jaccard (sketch_at 1 2%positive) s2 h2) = Ok q /\
      (q == 1)%Q.
Proof.
  apply (minhash_twice example_generator ∅ (PySeq [one64; zero64])
           (sketch_at 1 2%positive)).
  - reflexivity.
  - apply pair_eq. reflexivity.
Defined.

(** C7, counterexample: with [sample_size = 0] the two calls return
    equal sketches without pairs, and [jaccard] raises
    ZeroDivisionError. *)
Lemma minhash_twice_empty_sketch :
  sample_size empty_generator = 0 /\
  exists s1 h1 s2 h2,
    minhash empty_generator (PySeq [one64]) (∅ : xheap) = (Ok s1, h1) /\
    minhash empty_generator (PySeq [one64]) h1 = (Ok s2, h2) /\
    fst (WeightedMinHash.__eq__ s1 s2 h2) = Ok true /\
    fst (WeightedMinHash.jaccard s1 s2 h2) = Raise ZeroDivisionError.
Proof.
  split; [reflexivity|].
  exists (sketch_at 1 2%positive),
         (snd (minhash empty_generator (PySeq [one64]) (∅ : xheap))),
         (sketch_at 1 4%positive),
         (snd (minhash empty_generator (PySeq [one64])
                 (snd (minhash empty_generator (PySeq [one64])
                         (∅ : xheap))))).
  split; [apply pair_eq; reflexivity|].
  split; [apply pair_eq; reflexivity|].
  split; reflexivity.
Qed.

(** C9 at a sketch of two pairs. *)
Lemma digest_independent_witness :
  exists d h1 c d' h2,
    WeightedMinHash.digest sketch_a store_two_sketches = (Ok d, h1) /\
    h1 !! d = Some (IntArray2 [[0; 3]; [1; 2]]) /\
    WeightedMinHash.copy sketch_a store_two_sketches = (Ok c, h1) /\
    WeightedMinHash.digest c h1 = (Ok d', h2) /\
    h2 !! d' = Some (IntArray2 [[0; 3]; [1; 2]]) /\
    forall (hm : xheap) (o : pyobj),
      hm = <[d := o]> h1 \/ hm = <[d' := o]> h2 ->
      preserves store_two_sketches hm /\
      WeightedMinHash.load_hashvalues sketch_a hm
        = (Ok [[0; 3]; [1; 2]], hm) /\
      forall b, is_Some (store_two_sketches !! WeightedMinHash.hashvalues b) ->
        fst (WeightedMinHash.jaccard sketch_a b hm)
          = fst (WeightedMinHash.jaccard sketch_a b store_two_sketches) /\
        fst (WeightedMinHash.__eq__ sketch_a b hm)
          = fst (WeightedMinHash.__eq__ sketch_a b store_two_sketches).
Proof.
  apply (digest_independent store_two_sketches sketch_a
           [[0; 3]; [1; 2]]).
  reflexivity.
Defined.

(** C10 at the sparse matrix [X_explicit_zero]. *)
Lemma minhash_many_frame_witness :
  snd (minhash_many example_generator (PyRef 1%positive) store_explicit_zero)
    !! 1%positive
  = Some (CsrMatrix X_explicit_zero).
Proof.
  apply (minhash_many_frame example_generator (PyRef 1%positive)
           store_explicit_zero 1%positive (CsrMatrix X_explicit_zero)).
  reflexivity.
Defined.

(** The two transforms on [X_explicit_zero] with the example
    generator: the results of [minhash_many] for the three rows, and
    the result of [minhash] for row 1. *)
Lemma explicit_zero_example :
  let r := minhash_many example_generator (PyRef 1%positive)
             store_explicit_zero in
  fst r = Ok [Some (sketch_at 1 3%positive); Some (sketch_at 1 4%positive);
              Some (sketch_at 1 5%positive)] /\
  snd r !! 3%positive = Some (IntArray2 [[1; 0]; [1; 0]]) /\
  snd r !! 4%positive = Some (IntArray2 [[0; 0]; [0; 0]]) /\
  snd r !! 5%positive = Some (IntArray2 [[1; 0]; [1; 0]]) /\
  let r1 := minhash example_generator (PySeq [zero64; one64]) (snd r) in
  fst r1 = Ok (sketch_at 1 7%positive) /\
  snd r1 !! 7%positive = Some (IntArray2 [[1; 0]; [1; 0]]).
Proof. repeat split; reflexivity. Qed.


(** The two formulas for [ln_a] round differently: for these float32
    parameters (chosen by hand, in the range of the distributions)
    and the dense row (1, 1), [minhash_many] selects dimension 0 and
    [minhash] dimension 1. *)
Lemma formulas_diverge_in_float32 :
  (let r := minhash_many near_tie (PyRef 1%positive) store_ones in
   fst r = Ok [Some (sketch_at 1 3%positive)] /\
   snd r !! 3%positive = Some (IntArray2 [[0; 0]])) /\
  (let r := minhash near_tie (PySeq [one64; one64]) store_ones in
   fst r = Ok (sketch_at 1 3%positive) /\
   snd r !! 3%positive = Some (IntArray2 [[1; 0]])).
Proof. repeat split; reflexivity. Qed.

(** *** The further properties at concrete inputs *)






(** X1 at two sketches of two pairs. *)
Lemma jaccard_symmetric_witness :
  WeightedMinHash.jaccard sketch_a sketch_b store_two_sketches
  = WeightedMinHash.jaccard sketch_b sketch_a store_two_sketches.
Proof.
  apply (jaccard_symmetric store_two_sketches sketch_a sketch_b
           [[0; 3]; [1; 2]] [[0; 3]; [1; 5]]); reflexivity.
Defined.

(** X2 at two sketches that agree on one pair of two. *)
Lemma jaccard_one_iff_eq_witness :
  (1 # 2 == 1)%Q <->
  fst (WeightedMinHash.__eq__ sketch_a sketch_b store_two_sketches) = Ok true.
Proof.
  apply (jaccard_one_iff_eq store_two_sketches sketch_a sketch_b
           [[0; 3]; [1; 2]] [[0; 3]; [1; 5]] (1 # 2)); reflexivity.
Defined.

(** X3 at the sketches a, b and a. *)
Lemma jaccard_triangle_witness :
  (1 - (2 # 2) <= (1 - (1 # 2)) + (1 - (1 # 2)))%Q.
Proof.
  apply (jaccard_triangle store_two_sketches sketch_a sketch_b sketch_a
           [[0; 3]; [1; 2]] [[0; 3]; [1; 5]] [[0; 3]; [1; 2]]);
    reflexivity.
Defined.

(** X4 at a sketch of two pairs. *)
Lemma copy_equal_witness :
  exists c h',
    WeightedMinHash.copy sketch_a store_two_sketches = (Ok c, h') /\
    WeightedMinHash.seed c = WeightedMinHash.seed sketch_a /\
    store_two_sketches !! WeightedMinHash.hashvalues c = None /\
    h' !! WeightedMinHash.hashvalues c = Some (IntArray2 [[0; 3]; [1; 2]]) /\
    preserves store_two_sketches h' /\
    fst (WeightedMinHash.__eq__ sketch_a c h') = Ok true /\
    fst (WeightedMinHash.__eq__ c sketch_a h') = Ok true /\
    fst (WeightedMinHash.__len__ c h')
    = fst (WeightedMinHash.__len__ sketch_a store_two_sketches) /\
    ((0 < length [[0; 3]; [1; 2]])%nat ->
     exists q : Q,
       fst (WeightedMinHash.jaccard sketch_a c h') = Ok q /\ (q == 1)%Q).
Proof.
  apply (copy_equal store_two_sketches sketch_a [[0; 3]; [1; 2]]).
  reflexivity.
Defined.

(** X6 at a float32 array and the list with the same values. *)
Lemma minhash_input_kinds_witness :
  same_outcome
    (minhash example_generator4 (PyRef 1%positive) store_float32_vector)
    (minhash example_generator4 (PySeq [one64; zero64; three64; zero64])
       (∅ : xheap)).
Proof.
  apply (minhash_input_kinds example_generator4 store_float32_vector ∅
           (PyRef 1%positive) (PySeq [one64; zero64; three64; zero64])
           [one32; Float.zero; three32; Float.zero]); reflexivity.
Defined.

(** X7 at the vectors (1, 0) and (1, NaN). *)
Lemma minhash_nan_as_zero_witness :
  same_outcome
    (minhash example_generator (PySeq [one64; zero64]) (∅ : xheap))
    (minhash example_generator (PySeq [one64; Float.nan]) (∅ : xheap)).
Proof.
  apply (minhash_nan_as_zero example_generator ∅ ∅
           (PySeq [one64; zero64]) (PySeq [one64; Float.nan])
           [one32; Float.zero] [one32; Float.nan]); reflexivity.
Defined.

(** X8 at a float64 array with zero entries. *)
Lemma minhash_converted_input_untouched_witness :
  preserves store_float64_vector
    (snd (minhash example_generator4 (PyRef 1%positive)
            store_float64_vector)).
Proof.
  apply (minhash_converted_input_untouched example_generator4
           store_float64_vector (PyRef 1%positive)).
  intros l xs [= <-] Heq.
  change (Some (Ndarray1 Float64 [one64; zero64; three64; zero64])
          = Some (Ndarray1 Float32 xs)) in Heq.
  discriminate.
Defined.

(** X9 at the vector (-1, 0). *)
Lemma minhash_no_positive_weight_witness :
  fst (minhash example_generator (PySeq [minus_one64; zero64]) (∅ : xheap))
  = Raise (if forallb Float.is_zero (cast32 [minus_one64; zero64])
           then ValueError_all_zeros else ValueError_all_nan).
Proof.
  apply (minhash_no_positive_weight (H1 := coarse_libm_laws)
           example_generator ∅ (PySeq [minus_one64; zero64])
           (cast32 [minus_one64; zero64])).
  - exact example_generator_wf.
  - reflexivity.
  - reflexivity.
  - reflexivity.
  - repeat constructor.
Defined.

(** X11 at the vector (1, 0). *)
Lemma minhash_sketch_shape_witness :
  WeightedMinHash.seed (sketch_at 1 2%positive) = seed example_generator /\
  (∅ : xheap) !! WeightedMinHash.hashvalues (sketch_at 1 2%positive) = None /\
  exists rows,
    snd (minhash example_generator (PySeq [one64; zero64]) (∅ : xheap))
      !! WeightedMinHash.hashvalues (sketch_at 1 2%positive)
    = Some (IntArray2 rows) /\
    length rows = Z.to_nat (sample_size example_generator) /\
    Forall (fun row => exists k z x,
              row = [k; z] /\ 0 <= k < dim example_generator /\
              int64_min <= z <= int64_max /\
              cast32 [one64; zero64] !! Z.to_nat k = Some x /\
              Float.is_pos x = true) rows.
Proof.
  apply (minhash_sketch_shape (H1 := coarse_libm_laws) example_generator ∅
           (PySeq [one64; zero64]) (sketch_at 1 2%positive)).
  - apply pair_eq. reflexivity.
  - reflexivity.
Defined.

(** X10 at the vector (1, 0). *)
Lemma minhash_selects_first_minimum_witness :
  exists rows,
    snd (minhash example_generator (PySeq [one64; zero64]) (∅ : xheap))
      !! WeightedMinHash.hashvalues (sketch_at 1 2%positive)
    = Some (IntArray2 rows) /\
    length rows = Z.to_nat (sample_size example_generator) /\
    forall i row, rows !! i = Some row ->
      first_minimum (ln_a_at example_generator (cast32 [one64; zero64]) i)
        (t_at example_generator (cast32 [one64; zero64]) i) row.
Proof.
  apply (minhash_selects_first_minimum example_generator ∅
           (PySeq [one64; zero64]) (sketch_at 1 2%positive)).
  - apply pair_eq. reflexivity.
  - reflexivity.
Defined.

(** X12 at the sketches of (1, 0) and (0, 1) of one generator. *)
Lemma jaccard_of_minhash_sketches_witness :
  match
    fst (WeightedMinHash.jaccard (sketch_at 1 2%positive)
           (sketch_at 1 4%positive)
           (snd (minhash example_generator (PySeq [zero64; one64])
                   (snd (minhash example_generator (PySeq [one64; zero64])
                           (∅ : xheap))))))
  with
  | Ok q =>
      seed example_generator = seed example_generator /\
      sample_size example_generator = sample_size example_generator /\
      0 < sample_size example_generator /\ (0 <= q)%Q /\ (q <= 1)%Q
  | Raise e =>
      (e = ValueError_seeds /\
       seed example_generator <> seed example_generator) \/
      (e = ValueError_lengths /\
       seed example_generator = seed example_generator /\
       sample_size example_generator <> sample_size example_generator) \/
      (e = ZeroDivisionError /\
       seed example_generator = seed example_generator /\
       sample_size example_generator = 0 /\
       sample_size example_generator = 0)
  end.
Proof.
  apply (jaccard_of_minhash_sketches example_generator example_generator ∅
           (PySeq [one64; zero64]) (sketch_at 1 2%positive)
           (snd (minhash example_generator (PySeq [one64; zero64])
                   (∅ : xheap)))
           (PySeq [zero64; one64]) (sketch_at 1 4%positive)).
  - apply pair_eq. reflexivity.
  - apply pair_eq. reflexivity.
Defined.




(** X18 at the first row of [store_dense]. *)
Lemma batch_and_single_agree_on_t_witness :
  exists rb rsgl,
    snd (minhash_many example_generator (PyRef 1%positive) store_dense)
      !! WeightedMinHash.hashvalues (sketch_at 1 3%positive)
    = Some (IntArray2 rb) /\
    snd (minhash example_generator (PySeq [one64; zero64]) (∅ : xheap))
      !! WeightedMinHash.hashvalues (sketch_at 1 2%positive)
    = Some (IntArray2 rsgl) /\
    Forall2 same_t_at_same_k rb rsgl.
Proof.
  apply (batch_and_single_agree_on_t example_generator store_dense ∅
           1%positive 2
           [[one32; Float.zero]; [Float.zero; Float.zero]; [three32; one32]]
           0 [one32; Float.zero]
           [Some (sketch_at 1 3%positive); None;
            Some (sketch_at 1 4%positive)]
           (snd (minhash_many example_generator (PyRef 1%positive)
                   store_dense))
           (sketch_at 1 3%positive)
           (PySeq [one64; zero64]) (sketch_at 1 2%positive)).
  - exact example_generator_wf.
  - reflexivity.
  - reflexivity.
  - reflexivity.
  - repeat constructor.
  - reflexivity.
  - apply pair_eq. reflexivity.
  - reflexivity.
  - reflexivity.
  - apply pair_eq. reflexivity.
Defined.



(** X21 at [store_dense]. *)
Lemma minhash_many_new_arrays_witness :
  (forall i s,
     [Some (sketch_at 1 3%positive); None; Some (sketch_at 1 4%positive)]
       !! i = Some (Some s) ->
     WeightedMinHash.seed s = seed example_generator /\
     store_dense !! WeightedMinHash.hashvalues s = None /\
     exists rows,
       snd (minhash_many example_generator (PyRef 1%positive) store_dense)
         !! WeightedMinHash.hashvalues s = Some (IntArray2 rows)) /\
  (forall (i j : nat) si sj, i <> j ->
     [Some (sketch_at 1 3%positive); None; Some (sketch_at 1 4%positive)]
       !! i = Some (Some si) ->
     [Some (sketch_at 1 3%positive); None; Some (sketch_at 1 4%positive)]
       !! j = Some (Some sj) ->
     WeightedMinHash.hashvalues si <> WeightedMinHash.hashvalues sj).
Proof.
  apply (minhash_many_new_arrays example_generator (PyRef 1%positive)
           store_dense).
  apply pair_eq. reflexivity.
Defined.

(** X19 at the last row of [store_dense]. *)
Lemma minhash_many_dense_argmin_witness :
  exists rws,
    snd (minhash_many example_generator (PyRef 1%positive) store_dense)
      !! WeightedMinHash.hashvalues (sketch_at 1 4%positive)
    = Some (IntArray2 rws) /\
    length rws = Z.to_nat (sample_size example_generator) /\
    forall j pair, rws !! j = Some pair ->
      argmin_pair (map fst (row_entries [three32; one32]))
        (ln_a_many_at example_generator (row_entries [three32; one32]) j)
        (t_many_at example_generator (row_entries [three32; one32]) j) pair.
Proof.
  apply (minhash_many_dense_argmin example_generator store_dense 1%positive 2
           [[one32; Float.zero]; [Float.zero; Float.zero]; [three32; one32]]
           [three32; one32] 2
           [Some (sketch_at 1 3%positive); None;
            Some (sketch_at 1 4%positive)]
           (snd (minhash_many example_generator (PyRef 1%positive)
                   store_dense))
           (sketch_at 1 4%positive)).
  - exact example_generator_wf.
  - reflexivity.
  - reflexivity.
  - reflexivity.
  - repeat constructor.
  - reflexivity.
  - apply pair_eq. reflexivity.
  - reflexivity.
Defined.
End Examples.
